(** * ESP32 + R307 fingerprint image relay (Thonny/final2.py)

    A shallow embedding of the packet codec, the finger-presence helpers,
    the UART-to-HTTP streaming bridge and the two capture modes of
    [final2.py], and the properties its design document states about them.

    Modelling conventions.
    - A Python [bytes] object is a [list byte]; a Python [int] is a [Z].
    - The interpreter state the program acts on is one [World] record:
      the millisecond clock, the UART receive buffer, the scripted
      behaviour of the sensor, the finger, the console and the network,
      the global [cls_counter], and a chronological log of the observable
      actions.
    - A function of the program is a computation [M A]: it takes a world
      and gives back an outcome (a value, a raised exception, or
      [Diverge] when the iteration budget of a loop is used up) and the
      world it leaves.
    - Every [while] loop is a [Fixpoint] on an iteration budget.
    - [print] is logged with the message as a constructor rather than as
      text; [gc.collect] has no effect on the modelled state and is left
      out.

    What the environment is taken to do.
    - Bytes enter the UART receive buffer as the sensor's answer to a
      [uart.write], all there when the write returns, or as leftovers of
      the driver's presence probes.
    - [f.readImage()] belongs to the sensor driver, which is not part of
      this source file: it is a scripted boolean that takes no time; as
      the driver shares the UART, each call may read away waiting bytes
      and leave bytes unread, as its script entry says.
    - A socket operation succeeds or raises [OSError]; [sock.send]
      delivers all of its argument when it succeeds.
    - Time passes only in [time.sleep_ms] and in a [uart.read] that waits
      out the UART timeout.

    Wi-Fi association, the boot sequence and the top-level command loop
    are not modelled. *)

From Stdlib Require Import ZArith String Ascii List Bool Lia.
From Stdlib Require Import Strings.Byte Numbers.DecimalString.
From Stdlib Require Import Sorting.Permutation.
Import ListNotations.
Local Open Scope string_scope.
Local Open Scope list_scope.
Local Open Scope Z_scope.

(* ------------------------------------------------------------------ *)
(** ** Python values *)

Module Py.

(** Exceptions the modelled code can raise.  All of them are subclasses of
    Python's [Exception], so an [except Exception] clause catches each. *)
Inductive exn : Type :=
| Exception (msg : string)
| IndexError
| ValueError
| OverflowError
| OSError.

Definition byte_to_Z (b : byte) : Z := Z.of_N (Byte.to_N b).

Definition byte_of_Z (n : Z) : option byte :=
  if (0 <=? n) && (n <? 256) then Byte.of_N (Z.to_N n) else None.

(** [sum(bs)] for a bytes object. *)
Definition py_sum (bs : list byte) : Z :=
  fold_right (fun b acc => byte_to_Z b + acc) 0 bs.

(** [bs[:-2]]: an empty result when [bs] has fewer than two bytes. *)
Definition drop_last2 (bs : list byte) : list byte :=
  firstn (length bs - 2) bs.

(** [str(n)] for an integer. *)
Definition str (n : Z) : string := NilZero.string_of_int (Z.to_int n).

Fixpoint hex_upper (d : Hexadecimal.uint) : string :=
  match d with
  | Hexadecimal.Nil => EmptyString
  | Hexadecimal.D0 d => String "0" (hex_upper d)
  | Hexadecimal.D1 d => String "1" (hex_upper d)
  | Hexadecimal.D2 d => String "2" (hex_upper d)
  | Hexadecimal.D3 d => String "3" (hex_upper d)
  | Hexadecimal.D4 d => String "4" (hex_upper d)
  | Hexadecimal.D5 d => String "5" (hex_upper d)
  | Hexadecimal.D6 d => String "6" (hex_upper d)
  | Hexadecimal.D7 d => String "7" (hex_upper d)
  | Hexadecimal.D8 d => String "8" (hex_upper d)
  | Hexadecimal.D9 d => String "9" (hex_upper d)
  | Hexadecimal.Da d => String "A" (hex_upper d)
  | Hexadecimal.Db d => String "B" (hex_upper d)
  | Hexadecimal.Dc d => String "C" (hex_upper d)
  | Hexadecimal.Dd d => String "D" (hex_upper d)
  | Hexadecimal.De d => String "E" (hex_upper d)
  | Hexadecimal.Df d => String "F" (hex_upper d)
  end.

(** ["%02X" % n]: upper-case hexadecimal, zero-padded to two characters,
    the sign of a negative number counting as one of them. *)
Definition fmt_02X (n : Z) : string :=
  if n <? 0 then
    String "-" (hex_upper (N.to_hex_uint (Z.to_N (- n))))
  else
    let digits := hex_upper (N.to_hex_uint (Z.to_N n)) in
    if (String.length digits <? 2)%nat then String "0" digits else digits.

(** [c in ('stop', 'quit', 'exit')] for the result of a console poll. *)
Definition is_stop_cmd (c : option string) : bool :=
  match c with
  | Some s => String.eqb s "stop" || String.eqb s "quit" || String.eqb s "exit"
  | None => false
  end.

End Py.
Export Py.

(* ------------------------------------------------------------------ *)
(** ** The world *)

(** What the program prints. *)
Inductive message : Type :=
| MsgPlaceFinger
| MsgCaptured
| MsgRemoveFinger
| MsgFingerRemoved
| MsgLiftTimeout
| MsgDetectStart (person_id total : Z)
| MsgCommand (cmd : option string)
| MsgSaved (index total sent : Z)
| MsgUploadError (e : exn)
| MsgDetectComplete (total person_id : Z)
| MsgClsStart
| MsgSent (filename : string) (sent : Z).

(** Observable actions, logged in the order they happen. *)
Inductive event : Type :=
| EvPrint (m : message)
| EvProbe (present : bool)
    (** [f.readImage()] returned [present] *)
| EvPoll (cmd : option string)
    (** [read_cmd_nb()] returned [cmd] *)
| EvUartWrite (unread : list byte) (data : list byte)
    (** [uart.write(data)], issued while [unread] was still waiting in the
        receive buffer *)
| EvConnect (sock : nat) (ok : bool)
    (** [s.connect(ai)] on socket number [sock] *)
| EvSendHead (sock : nat) (lines : list string)
    (** the request head, sent as [CRLF.join(lines)] *)
| EvSendBody (sock : nat) (data : list byte)
    (** [sock.send(data)] delivered [data] to the request body *)
| EvClose (sock : nat).

(** One call of the presence probe [f.readImage()]: what it returns, and
    what the driver's own exchange with the sensor does to the receive
    buffer meanwhile - it reads [eats] of the waiting bytes and may leave
    [leaves] behind. *)
Record probe : Type := mkProbe {
  present : bool;
  eats : nat;
  leaves : list byte
}.

(** A probe whose exchange with the sensor is read completely by the
    driver. *)
Definition finger (b : bool) : probe := mkProbe b 0 [].

Record World : Type := mkWorld {
  clock : Z;
    (** [time.ticks_ms()]; wrap-around of the tick counter is not modelled *)
  rx : list byte;
    (** bytes received on the UART and not yet read *)
  sensor : list (list byte);
    (** what the sensor answers to the successive [uart.write] calls *)
  probes : list probe;
    (** the successive [f.readImage()] calls; the finger is absent once
        the script is used up *)
  console : list (option string);
    (** results of the successive [read_cmd_nb()] calls (a stripped,
        lower-cased line, or [None]); [None] once the script is used up *)
  net : list bool;
    (** outcome of the successive socket operations (connect, send, recv):
        [false] raises [OSError]; they succeed once the script is used up *)
  next_sock : nat;
  cls_counter : Z;
    (** the module-level running counter of classification mode *)
  log : list event
}.

Definition set_clock (t : Z) (w : World) : World :=
  mkWorld t (rx w) (sensor w) (probes w) (console w) (net w)
          (next_sock w) (cls_counter w) (log w).
Definition set_rx (r : list byte) (w : World) : World :=
  mkWorld (clock w) r (sensor w) (probes w) (console w) (net w)
          (next_sock w) (cls_counter w) (log w).
Definition set_sensor (s : list (list byte)) (w : World) : World :=
  mkWorld (clock w) (rx w) s (probes w) (console w) (net w)
          (next_sock w) (cls_counter w) (log w).
Definition set_probes (p : list probe) (w : World) : World :=
  mkWorld (clock w) (rx w) (sensor w) p (console w) (net w)
          (next_sock w) (cls_counter w) (log w).
Definition set_console (c : list (option string)) (w : World) : World :=
  mkWorld (clock w) (rx w) (sensor w) (probes w) c (net w)
          (next_sock w) (cls_counter w) (log w).
Definition set_net (n : list bool) (w : World) : World :=
  mkWorld (clock w) (rx w) (sensor w) (probes w) (console w) n
          (next_sock w) (cls_counter w) (log w).
Definition set_next_sock (n : nat) (w : World) : World :=
  mkWorld (clock w) (rx w) (sensor w) (probes w) (console w) (net w)
          n (cls_counter w) (log w).
Definition set_cls_counter (n : Z) (w : World) : World :=
  mkWorld (clock w) (rx w) (sensor w) (probes w) (console w) (net w)
          (next_sock w) n (log w).
Definition emit (e : event) (w : World) : World :=
  mkWorld (clock w) (rx w) (sensor w) (probes w) (console w) (net w)
          (next_sock w) (cls_counter w) (log w ++ [e]).

(* ------------------------------------------------------------------ *)
(** ** Computations *)

Inductive outcome (A : Type) : Type :=
| Ret (a : A)
| Raise (e : exn)
| Diverge.
Arguments Ret {A} a.
Arguments Raise {A} e.
Arguments Diverge {A}.

Definition M (A : Type) : Type := World -> outcome A * World.

Definition ret {A} (a : A) : M A := fun w => (Ret a, w).
Definition raise {A} (e : exn) : M A := fun w => (Raise e, w).
Definition diverge {A} : M A := fun w => (Diverge, w).

Definition bind {A B} (m : M A) (k : A -> M B) : M B :=
  fun w =>
    match m w with
    | (Ret a, w') => k a w'
    | (Raise e, w') => (Raise e, w')
    | (Diverge, w') => (Diverge, w')
    end.

(** [try: m  except Exception as e: ...]: the exception, if any, becomes a
    value; running out of budget is not an exception. *)
Definition try_ {A} (m : M A) : M (A + exn) :=
  fun w =>
    match m w with
    | (Ret a, w') => (Ret (inl a), w')
    | (Raise e, w') => (Ret (inr e), w')
    | (Diverge, w') => (Diverge, w')
    end.

Declare Scope py_scope.
Delimit Scope py_scope with py.
Notation "x <- m ;; k" := (bind m (fun x => k))
  (at level 61, m at next level, right associativity) : py_scope.
Notation "m ;; k" := (bind m (fun _ => k))
  (at level 61, right associativity) : py_scope.
Local Open Scope py_scope.

Definition get {A} (f : World -> A) : M A := fun w => (Ret (f w), w).
Definition modify (f : World -> World) : M unit := fun w => (Ret tt, f w).

(** [bytes([n1, n2, ...])]: [ValueError] unless every item is in
    [range(256)]. *)
Fixpoint py_bytes (ns : list Z) : M (list byte) :=
  match ns with
  | [] => ret []
  | n :: ns' =>
      match byte_of_Z n with
      | Some b => bs <- py_bytes ns' ;; ret (b :: bs)
      | None => raise ValueError
      end
  end.

(** [bs[i]], negative indices counting from the end. *)
Definition py_getitem (bs : list byte) (i : Z) : M Z :=
  let len := Z.of_nat (length bs) in
  let j := if i <? 0 then len + i else i in
  if (0 <=? j) && (j <? len) then
    match nth_error bs (Z.to_nat j) with
    | Some b => ret (byte_to_Z b)
    | None => raise IndexError
    end
  else raise IndexError.

(** [n.to_bytes(4, 'big')]: [OverflowError] for a negative number or one
    that does not fit four bytes. *)
Definition to_bytes4_big (n : Z) : M (list byte) :=
  if (0 <=? n) && (n <? 2 ^ 32) then
    py_bytes [Z.land (Z.shiftr n 24) 255; Z.land (Z.shiftr n 16) 255;
              Z.land (Z.shiftr n 8) 255; Z.land n 255]
  else raise OverflowError.

(* ------------------------------------------------------------------ *)
(** ** Clock, UART, finger, console, sockets *)

Definition ticks_ms : M Z := get clock.
Definition ticks_diff (a b : Z) : Z := a - b.
Definition sleep_ms (d : Z) : M unit := modify (fun w => set_clock (clock w + d) w).

(** The UART is opened at boot with [timeout=2000]. *)
Definition UART_TIMEOUT_MS : Z := 2000.

(** [uart.read(k)]: up to [k] of the waiting bytes; with nothing waiting
    the call gives up after the UART timeout and returns [None]. *)
Definition uart_read (k : nat) : M (option (list byte)) :=
  fun w =>
    match rx w with
    | [] => (Ret None, set_clock (clock w + UART_TIMEOUT_MS) w)
    | _ :: _ => (Ret (Some (firstn k (rx w))), set_rx (skipn k (rx w)) w)
    end.

(** [uart.read()]: all the waiting bytes. *)
Definition uart_read_all : M (option (list byte)) :=
  fun w =>
    match rx w with
    | [] => (Ret None, w)
    | _ :: _ => (Ret (Some (rx w)), set_rx [] w)
    end.

(** [uart.any()]. *)
Definition uart_any : M Z := get (fun w => Z.of_nat (length (rx w))).

(** [uart.write(data)]: the sensor's next scripted answer lands in the
    receive buffer behind whatever is still unread. *)
Definition uart_write (data : list byte) : M unit :=
  fun w =>
    let w1 := emit (EvUartWrite (rx w) data) w in
    match sensor w with
    | [] => (Ret tt, w1)
    | reply :: more => (Ret tt, set_sensor more (set_rx (rx w ++ reply) w1))
    end.

(** [f.readImage()], the presence probe of the sensor driver.  The driver
    shares the UART: its exchange with the sensor may read away waiting
    bytes and may leave bytes of its own unread. *)
Definition readImage : M bool :=
  fun w =>
    match probes w with
    | [] => (Ret false, emit (EvProbe false) w)
    | p :: more =>
        (Ret (present p),
         emit (EvProbe (present p))
              (set_rx (skipn (eats p) (rx w) ++ leaves p) (set_probes more w)))
    end.

(** One socket operation whose failure raises [OSError]. *)
Definition net_op : M unit :=
  fun w =>
    match net w with
    | [] => (Ret tt, w)
    | true :: more => (Ret tt, set_net more w)
    | false :: more => (Raise OSError, set_net more w)
    end.

(** [read_cmd_nb()]: the pending console line, if any, stripped and
    lower-cased; never blocks and never raises. *)
Definition read_cmd_nb : M (option string) :=
  fun w =>
    match console w with
    | [] => (Ret None, emit (EvPoll None) w)
    | c :: more => (Ret c, emit (EvPoll c) (set_console more w))
    end.

Definition print (m : message) : M unit := modify (emit (EvPrint m)).

(** [usocket.socket()] *)
Definition socket_new : M nat :=
  fun w => (Ret (next_sock w), set_next_sock (S (next_sock w)) w).

(** [s.connect(ai)] *)
Definition sock_connect (s : nat) : M unit :=
  fun w =>
    match net_op w with
    | (Ret _, w') => (Ret tt, emit (EvConnect s true) w')
    | (r, w') => (r, emit (EvConnect s false) w')
    end.

(** [s.send(text.encode())] for the request head. *)
Definition sock_send_head (s : nat) (lines : list string) : M unit :=
  net_op ;; modify (emit (EvSendHead s lines)).

(** [sock.send(payload)], taken to deliver the whole payload or raise. *)
Definition sock_send (s : nat) (data : list byte) : M unit :=
  net_op ;; modify (emit (EvSendBody s data)).

(** [sock.recv(200)] *)
Definition sock_recv (s : nat) : M unit := net_op.

(** [sock.close()] *)
Definition sock_close (s : nat) : M unit := modify (emit (EvClose s)).

(* ------------------------------------------------------------------ *)
(** ** Configuration *)

Definition HOST : string := "192.168.1.109".
Definition PORT : Z := 3000.
Definition PATH : string := "/upload-image".
Definition W : Z := 256.
Definition H : Z := 288.
Definition PACKED_LEN : Z := (W * H) / 2.
Definition SENSOR_ADDRESS : Z := 0xFFFFFFFF.
Definition SAMPLES_PER_PERSON : Z := 3.
Definition QUIET_MS : Z := 800.

Definition STARTCODE : Z := 0xEF01.
Definition PACKET_COMMAND : Z := 0x01.
Definition PACKET_ACK : Z := 0x07.
Definition PACKET_DATA : Z := 0x02.
Definition PACKET_DATA_END : Z := 0x08.
Definition CMD_DOWNLOADIMAGE : Z := 0x0A.

(* ------------------------------------------------------------------ *)
(** ** Minimal FPM packets over UART *)

Definition _be16 (n : Z) : M (list byte) :=
  py_bytes [Z.land (Z.shiftr n 8) 0xFF; Z.land n 0xFF].

Definition _write_packet (address ptype : Z) (payload_bytes : list byte) : M unit :=
  let plen := Z.of_nat (length payload_bytes) + 2 in
  start <- _be16 STARTCODE ;;
  addr <- to_bytes4_big address ;;
  pt <- py_bytes [ptype] ;;
  len <- _be16 plen ;;
  let hdr := start ++ addr ++ pt ++ len in
  h2 <- py_getitem hdr (-2) ;;
  h1 <- py_getitem hdr (-1) ;;
  let cs := Z.land (ptype + h2 + h1 + py_sum payload_bytes) 0xFFFF in
  cks <- _be16 cs ;;
  uart_write (hdr ++ payload_bytes ++ cks).

Fixpoint _read_exact_loop (budget : nat) (n timeout_ms t0 : Z) (buf : list byte)
  : M (option (list byte)) :=
  if Z.of_nat (length buf) <? n then
    match budget with
    | O => diverge
    | S budget' =>
        chunk <- uart_read (Z.to_nat (n - Z.of_nat (length buf))) ;;
        match chunk with
        | Some ((_ :: _) as c) =>
            _read_exact_loop budget' n timeout_ms t0 (buf ++ c)
        | _ =>
            now <- ticks_ms ;;
            if ticks_diff now t0 >? timeout_ms then ret None
            else sleep_ms 1 ;; _read_exact_loop budget' n timeout_ms t0 buf
        end
    end
  else ret (Some buf).

Definition _read_exact (budget : nat) (n timeout_ms : Z) : M (option (list byte)) :=
  t0 <- ticks_ms ;;
  _read_exact_loop budget n timeout_ms t0 [].

(** [not x] for a value that is [None] or a bytes object. *)
Definition falsy (x : option (list byte)) : bool :=
  match x with
  | Some (_ :: _) => false
  | _ => true
  end.

Definition bytes_of (x : option (list byte)) : list byte :=
  match x with Some b => b | None => [] end.

Definition _read_packet (budget : nat) (timeout_ms : Z) : M (Z * list byte) :=
  hdr <- _read_exact budget 9 timeout_ms ;;
  if falsy hdr then raise (Exception "timeout header") else
  let hdr := bytes_of hdr in
  h0 <- py_getitem hdr 0 ;;
  h1 <- py_getitem hdr 1 ;;
  if negb (h0 =? Z.shiftr STARTCODE 8) || negb (h1 =? Z.land STARTCODE 0xFF)
  then raise (Exception "bad startcode") else
  ptype <- py_getitem hdr 6 ;;
  h7 <- py_getitem hdr 7 ;;
  h8 <- py_getitem hdr 8 ;;
  let plen := Z.lor (Z.shiftl h7 8) h8 in
  rest <- _read_exact budget plen timeout_ms ;;
  if falsy rest then raise (Exception "timeout body") else
  let rest := bytes_of rest in
  let payload := drop_last2 rest in
  r2 <- py_getitem rest (-2) ;;
  r1 <- py_getitem rest (-1) ;;
  let rxcs := Z.lor (Z.shiftl r2 8) r1 in
  let calc := Z.land (ptype + h7 + h8 + py_sum payload) 0xFFFF in
  if negb (rxcs =? calc) then raise (Exception "bad checksum") else
  ret (ptype, payload).

(* ------------------------------------------------------------------ *)
(** ** Finger helpers *)

Fixpoint ensure_idle_loop (budget : nat) (quiet_ms : Z) (start : option Z) : M unit :=
  match budget with
  | O => diverge
  | S budget' =>
      present <- readImage ;;
      if negb present then
        start <- match start with
                 | None => ticks_ms
                 | Some t => ret t
                 end ;;
        now <- ticks_ms ;;
        if ticks_diff now start >=? quiet_ms then ret tt
        else sleep_ms 120 ;; ensure_idle_loop budget' quiet_ms (Some start)
      else
        sleep_ms 150 ;; ensure_idle_loop budget' quiet_ms None
  end.

Definition ensure_idle (budget : nat) (quiet_ms : Z) : M unit :=
  ensure_idle_loop budget quiet_ms None.

Fixpoint wait_for_finger_loop (budget : nat) (poll_cmd : option (M (option string)))
  : M (string * option string) :=
  match budget with
  | O => diverge
  | S budget' =>
      present <- readImage ;;
      if negb present then
        match poll_cmd with
        | Some poll =>
            c <- poll ;;
            if is_stop_cmd c then ret ("abort", c)
            else sleep_ms 80 ;; wait_for_finger_loop budget' poll_cmd
        | None => sleep_ms 80 ;; wait_for_finger_loop budget' poll_cmd
        end
      else
        print MsgCaptured ;;
        ret ("ok", None)
  end.

Definition wait_for_finger (budget : nat) (poll_cmd : option (M (option string)))
  : M (string * option string) :=
  print MsgPlaceFinger ;;
  ensure_idle budget QUIET_MS ;;
  wait_for_finger_loop budget poll_cmd.

Fixpoint wait_for_lift_loop (budget : nat) (timeout_ms t0 : Z) : M unit :=
  match budget with
  | O => diverge
  | S budget' =>
      present <- readImage ;;
      if negb present then print MsgFingerRemoved
      else
        now <- ticks_ms ;;
        if ticks_diff now t0 >? timeout_ms then print MsgLiftTimeout
        else sleep_ms 150 ;; wait_for_lift_loop budget' timeout_ms t0
  end.

Definition wait_for_lift (budget : nat) (timeout_ms : Z) : M unit :=
  print MsgRemoveFinger ;;
  t0 <- ticks_ms ;;
  wait_for_lift_loop budget timeout_ms t0.

Fixpoint flush_uart_loop (budget : nat) : M unit :=
  pending <- uart_any ;;
  if pending =? 0 then ret tt
  else
    match budget with
    | O => diverge
    | S budget' => uart_read_all ;; flush_uart_loop budget'
    end.

Definition flush_uart (budget : nat) : M unit :=
  try_ (flush_uart_loop budget) ;; ret tt.

(* ------------------------------------------------------------------ *)
(** ** HTTP streaming *)

(** ["{}: {}".format(k, v)] *)
Definition header_line (kv : string * string) : string :=
  (fst kv ++ ": " ++ snd kv)%string.

Definition request_lines (host : string) (port : Z) (path : string) (body_len : Z)
    (headers_dict : list (string * string)) : list string :=
  [ ("POST " ++ path ++ " HTTP/1.1")%string;
    ("Host: " ++ host ++ ":" ++ str port)%string;
    "Content-Type: application/octet-stream";
    ("Content-Length: " ++ str body_len)%string ]
  ++ map header_line headers_dict
  ++ [""; ""].

(** [usocket.getaddrinfo] of the literal address is taken to succeed.
    The headers are a list in the order of the dict literal; no statement
    below depends on the order in which [items()] yields them. *)
Definition http_post_start (host : string) (port : Z) (path : string) (body_len : Z)
    (headers_dict : list (string * string)) : M nat :=
  s <- socket_new ;;
  sock_connect s ;;
  let lines := request_lines host port path body_len headers_dict in
  sock_send_head s lines ;;
  ret s.

Definition http_post_finish (sock : nat) : M unit :=
  try_ (sock_recv sock) ;;
  try_ (sock_close sock) ;;
  ret tt.

Fixpoint stream_loop (budget inner : nat) (sock : nat) (sent : Z) : M Z :=
  match budget with
  | O => diverge
  | S budget' =>
      pkt <- _read_packet inner 5000 ;;
      let ptype := fst pkt in
      let payload := snd pkt in
      if negb ((ptype =? PACKET_DATA) || (ptype =? PACKET_DATA_END)) then
        raise (Exception ("unexpected packet " ++ fmt_02X ptype))
      else
        sock_send sock payload ;;
        let sent := sent + Z.of_nat (length payload) in
        if ptype =? PACKET_DATA_END then ret sent
        else stream_loop budget' inner sock sent
  end.

Definition stream_upimage_to_http (budget : nat) (address : Z) (sock : nat) : M Z :=
  cmd <- py_bytes [CMD_DOWNLOADIMAGE] ;;
  _write_packet address PACKET_COMMAND cmd ;;
  pkt <- _read_packet budget 5000 ;;
  let ptype := fst pkt in
  let payload := snd pkt in
  refused <- (if negb (ptype =? PACKET_ACK) then ret true
              else match payload with
                   | [] => ret true
                   | _ :: _ => p0 <- py_getitem payload 0 ;; ret (negb (p0 =? 0x00))
                   end) ;;
  if (refused : bool) then
    code <- match payload with
            | _ :: _ => py_getitem payload 0
            | [] => ret (-1)
            end ;;
    raise (Exception ("UpImage NACK code=" ++ fmt_02X code))
  else
    stream_loop budget budget sock 0.

(* ------------------------------------------------------------------ *)
(** ** Modes *)

(** How one pass through the body of a mode loop ends: with [return cmd],
    or by going round again. *)
Inductive control : Type :=
| Return (cmd : option string)
| Next.

(** The [try:] part of a capture cycle, common to both modes up to the
    report it prints.  The result carries the value the variable [sock] has
    when the block is left, and either the byte count or the exception
    caught. *)
Definition try_upload (budget : nat) (headers : list (string * string))
    (report : Z -> M unit) : M (option nat * (Z + exn)) :=
  r <- try_ (http_post_start HOST PORT PATH PACKED_LEN headers) ;;
  match r with
  | inr e => ret (None, inr e)
  | inl sock =>
      r <- try_ (sent <- stream_upimage_to_http budget SENSOR_ADDRESS sock ;;
                 http_post_finish sock ;;
                 report sent ;;
                 ret sent) ;;
      ret (Some sock, r)
  end.

Definition detect_headers (person_id collected : Z) : list (string * string) :=
  [ ("X-Format", "packed4");
    ("X-Width", str W);
    ("X-Height", str H);
    ("X-Person-Id", str person_id);
    ("X-Mode", "detect");
    ("X-Filename", (str person_id ++ "_" ++ str (collected + 1))%string) ].

(** One pass through the body of the [while] loop of [detect_mode]: the
    new value of [collected], and how the pass ends. *)
Definition detect_body (budget : nat) (person_id collected : Z) : M (Z * control) :=
  st <- wait_for_finger budget (Some read_cmd_nb) ;;
  let status := fst st in
  let cmd := snd st in
  if String.eqb status "abort" then
    print (MsgCommand cmd) ;; ret (collected, Return cmd)
  else
    flush_uart budget ;;
    let headers := detect_headers person_id collected in
    r <- try_upload budget headers
           (fun sent => print (MsgSaved (collected + 1) SAMPLES_PER_PERSON sent)) ;;
    match r with
    | (sock, inr e) =>
        match sock with
        | Some s => http_post_finish s
        | None => ret tt
        end ;;
        print (MsgUploadError e) ;;
        wait_for_lift budget 7000 ;;
        ensure_idle budget QUIET_MS ;;
        flush_uart budget ;;
        c <- read_cmd_nb ;;
        if is_stop_cmd c then print (MsgCommand c) ;; ret (collected, Return c)
        else ret (collected, Next)
    | (_, inl _) =>
        wait_for_lift budget 7000 ;;
        ensure_idle budget QUIET_MS ;;
        flush_uart budget ;;
        let collected := collected + 1 in
        c <- read_cmd_nb ;;
        if is_stop_cmd c then print (MsgCommand c) ;; ret (collected, Return c)
        else ret (collected, Next)
    end.

(** The [while collected < SAMPLES_PER_PERSON] loop: [Some cmd] when the
    body returned [cmd] from the function, [None] when the loop ran to its
    end. *)
Fixpoint detect_loop (budget cycles : nat) (person_id collected : Z)
  : M (option (option string)) :=
  if collected <? SAMPLES_PER_PERSON then
    match cycles with
    | O => diverge
    | S cycles' =>
        r <- detect_body budget person_id collected ;;
        match r with
        | (_, Return cmd) => ret (Some cmd)
        | (collected, Next) => detect_loop budget cycles' person_id collected
        end
    end
  else ret None.

(** [detect_mode(uart, f)], with [person_id] the integer [ask_person_id()]
    obtains from the operator. *)
Definition detect_mode (budget : nat) (person_id : Z) : M (option string) :=
  print (MsgDetectStart person_id SAMPLES_PER_PERSON) ;;
  r <- detect_loop budget budget person_id 0 ;;
  match r with
  | Some cmd => ret cmd
  | None =>
      print (MsgDetectComplete SAMPLES_PER_PERSON person_id) ;;
      ret None
  end.

Definition cls_headers (counter : Z) : list (string * string) :=
  [ ("X-Format", "packed4");
    ("X-Width", str W);
    ("X-Height", str H);
    ("X-Mode", "cls");
    ("X-Filename", ("test_img_" ++ str counter)%string) ].

Definition cls_body (budget : nat) : M control :=
  st <- wait_for_finger budget (Some read_cmd_nb) ;;
  let status := fst st in
  let cmd := snd st in
  if String.eqb status "abort" then
    print (MsgCommand cmd) ;; ret (Return cmd)
  else
    flush_uart budget ;;
    counter <- get cls_counter ;;
    let headers := cls_headers counter in
    r <- try_upload budget headers
           (fun sent =>
              print (MsgSent ("test_img_" ++ str counter) sent) ;;
              modify (fun w => set_cls_counter (cls_counter w + 1) w)) ;;
    match r with
    | (sock, inr e) =>
        match sock with
        | Some s => http_post_finish s
        | None => ret tt
        end ;;
        print (MsgUploadError e)
    | (_, inl _) => ret tt
    end ;;
    wait_for_lift budget 7000 ;;
    ensure_idle budget QUIET_MS ;;
    flush_uart budget ;;
    c <- read_cmd_nb ;;
    if is_stop_cmd c then print (MsgCommand c) ;; ret (Return c)
    else ret Next.

Fixpoint cls_loop (budget cycles : nat) : M (option string) :=
  match cycles with
  | O => diverge
  | S cycles' =>
      r <- cls_body budget ;;
      match r with
      | Return cmd => ret cmd
      | Next => cls_loop budget cycles'
      end
  end.

Definition cls_mode (budget : nat) : M (option string) :=
  print MsgClsStart ;;
  cls_loop budget budget.

(* ================================================================== *)
(** * Vocabulary of the statements *)

(* ------------------------------------------------------------------ *)
(** ** Frames on the wire *)

(** [uart_only w w']: between [w] and [w'] nothing but the clock and the
    receive buffer changed. *)
Definition uart_only (w w' : World) : Prop :=
  w' = set_clock (clock w') (set_rx (rx w') w).

(** What [_read_packet] does once the nine header bytes are parsed. *)
Definition packet_body (budget : nat) (timeout_ms ptype h7 h8 : Z) : M (Z * list byte) :=
  let plen := Z.lor (Z.shiftl h7 8) h8 in
  rest <- _read_exact budget plen timeout_ms ;;
  if falsy rest then raise (Exception "timeout body") else
  let rest := bytes_of rest in
  let payload := drop_last2 rest in
  r2 <- py_getitem rest (-2) ;;
  r1 <- py_getitem rest (-1) ;;
  let rxcs := Z.lor (Z.shiftl r2 8) r1 in
  let calc := Z.land (ptype + h7 + h8 + py_sum payload) 0xFFFF in
  if negb (rxcs =? calc) then raise (Exception "bad checksum") else
  ret (ptype, payload).

(** The bytes of one well-formed frame carrying [payload] with type
    [ptype], as [_read_packet] accepts them: marker, four address bytes,
    type, big-endian length, payload, big-endian checksum. *)
Definition wire_frame (bs : list byte) (ptype : Z) (payload : list byte) : Prop :=
  exists a1 a2 a3 a4 t lh ll ch cl,
    bs = [xef; x01; a1; a2; a3; a4; t; lh; ll] ++ payload ++ [ch; cl] /\
    byte_to_Z t = ptype /\
    byte_to_Z lh * 256 + byte_to_Z ll = Z.of_nat (length payload) + 2 /\
    byte_to_Z ch * 256 + byte_to_Z cl
    = (ptype + byte_to_Z lh + byte_to_Z ll + py_sum payload) mod 65536.

Definition marker_ok (h0 h1 : byte) : bool :=
  (byte_to_Z h0 =? 0xEF) && (byte_to_Z h1 =? 0x01).

(** A world with [bs] waiting in the receive buffer and nothing else going
    on. *)
Definition world_rx (bs : list byte) : World :=
  mkWorld 0 bs [] [] [] [] 0 1 [].

(** The sensor's acknowledgement of a command, status byte 0. *)
Definition ack_ok : list byte :=
  [xef; x01; xff; xff; xff; xff; x07; x00; x03; x00; x00; x0a].

(** A payload of 65534 bytes: its length field wraps to 0. *)
Definition long_payload : list byte := repeat x00 (Z.to_nat 65534).

Definition long_frame : list byte :=
  match log (snd (_write_packet SENSOR_ADDRESS PACKET_COMMAND long_payload (world_rx []))) with
  | [EvUartWrite _ data] => data
  | _ => []
  end.

(* ------------------------------------------------------------------ *)
(** ** The streaming bridge, step by step *)

(** The world after one socket operation. *)
Definition pop_net (w : World) : World := set_net (tl (net w)) w.

(** What [stream_upimage_to_http] does once the command is written. *)
Definition after_command (budget : nat) (sock : nat) : M Z :=
  pkt <- _read_packet budget 5000 ;;
  let ptype := fst pkt in
  let payload := snd pkt in
  refused <- (if negb (ptype =? PACKET_ACK) then ret true
              else match payload with
                   | [] => ret true
                   | _ :: _ => p0 <- py_getitem payload 0 ;; ret (negb (p0 =? 0x00))
                   end) ;;
  if (refused : bool) then
    code <- match payload with
            | _ :: _ => py_getitem payload 0
            | [] => ret (-1)
            end ;;
    raise (Exception ("UpImage NACK code=" ++ fmt_02X code))
  else
    stream_loop budget budget sock 0.

(** [payload[0] if payload else -1] *)
Definition nack_code (payload : list byte) : Z :=
  match payload with
  | [] => -1
  | c :: _ => byte_to_Z c
  end.

(** Total length of a list of payloads. *)
Definition total_length (ps : list (list byte)) : Z :=
  fold_right (fun p acc => Z.of_nat (length p) + acc) 0 ps.

(** The bytes delivered to the body of the request on socket [sock]. *)
Definition sink (sock : nat) (l : list event) : list byte :=
  flat_map (fun e => match e with
                     | EvSendBody s data => if Nat.eqb s sock then data else []
                     | _ => []
                     end) l.

(** A world whose sensor answers the next command with [reply]. *)
Definition world_sensor (reply : list byte) : World :=
  mkWorld 0 [] [reply] [] [] [] 0 1 [].

(** Sample frames: DATA carrying 11 22, DATA_END carrying 33, DATA carrying
    01, ACK carrying status 01, ACK with no payload. *)
Definition data_11_22 : list byte :=
  [xef; x01; xff; xff; xff; xff; x02; x00; x04; x11; x22; x00; x39].
Definition data_end_33 : list byte :=
  [xef; x01; xff; xff; xff; xff; x08; x00; x03; x33; x00; x3e].
Definition data_01 : list byte :=
  [xef; x01; xff; xff; xff; xff; x02; x00; x03; x01; x00; x06].
Definition nack_01 : list byte :=
  [xef; x01; xff; xff; xff; xff; x07; x00; x03; x01; x00; x0b].
Definition ack_empty : list byte :=
  [xef; x01; xff; xff; xff; xff; x07; x00; x02; x00; x09].

(* ------------------------------------------------------------------ *)
(** ** Growth of the log *)

(** [grows P w w']: the log of [w'] is the log of [w] followed by events
    that all satisfy [P]. *)
Definition grows (P : event -> Prop) (w w' : World) : Prop :=
  exists new, log w' = log w ++ new /\ Forall P new.

(** [emits P m]: whatever [m] does, it only logs events satisfying [P]. *)
Definition emits {A : Type} (P : event -> Prop) (m : M A) : Prop :=
  forall w, grows P w (snd (m w)).

Definition no_raise {A : Type} (r : outcome A) : Prop :=
  match r with
  | Raise _ => False
  | _ => True
  end.

(** Events of the finger helpers: probes, polls that did not ask to stop,
    and the progress messages. *)
Definition idle_event (e : event) : Prop :=
  match e with
  | EvProbe _ => True
  | EvPoll c => is_stop_cmd c = false
  | EvPrint m =>
      match m with
      | MsgPlaceFinger | MsgCaptured | MsgRemoveFinger
      | MsgFingerRemoved | MsgLiftTimeout => True
      | _ => False
      end
  | _ => False
  end.

(** Events of the debounce phase: probes and nothing else. *)
Definition probe_event (e : event) : Prop :=
  match e with
  | EvProbe _ => True
  | _ => False
  end.

(* ------------------------------------------------------------------ *)
(** ** Polling cycles *)

(** The log of polling cycles that found no finger and sampled the console
    commands [cs]. *)
Definition polling_cycles (cs : list (option string)) : list event :=
  flat_map (fun c => [EvProbe false; EvPoll c]) cs.


Definition no_stop (cs : list (option string)) : Prop :=
  Forall (fun c => is_stop_cmd c = false) cs.

(* ------------------------------------------------------------------ *)
(** ** Capture cycles *)

(** Events of one upload with the request head built from [headers]: the
    command frame is written with nothing unread in the receive buffer. *)
Definition upload_event (headers : list (string * string)) (e : event) : Prop :=
  match e with
  | EvConnect _ _ | EvSendBody _ _ | EvClose _ => True
  | EvSendHead _ lines => lines = request_lines HOST PORT PATH PACKED_LEN headers
  | EvUartWrite unread _ => unread = []
  | _ => False
  end.

Definition is_saved (e : event) : bool :=
  match e with EvPrint (MsgSaved _ _ _) => true | _ => false end.
Definition is_error (e : event) : bool :=
  match e with EvPrint (MsgUploadError _) => true | _ => false end.
Definition is_stop_poll (e : event) : bool :=
  match e with EvPoll c => is_stop_cmd c | _ => false end.

Definition count (f : event -> bool) (l : list event) : nat :=
  length (filter f l).

(** [step P s e t w w']: the log grew by events satisfying [P], among them
    [s] saved reports, [e] upload-error reports and [t] polls that sampled
    a stop command. *)
Definition step (P : event -> Prop) (s e t : nat) (w w' : World) : Prop :=
  exists new,
    log w' = log w ++ new /\ Forall P new /\
    count is_saved new = s /\ count is_error new = e /\ count is_stop_poll new = t.

(** Events that are none of the counted ones. *)
Definition uncounted (e : event) : Prop :=
  is_saved e = false /\ is_error e = false /\ is_stop_poll e = false.

(** The end of a capture cycle, common to both modes and to both outcomes
    of the transfer: wait for the lift, debounce, flush, sample the console
    once.  [f] builds the value the body hands to its loop. *)
Definition cycle_tail {A : Type} (n : nat) (f : control -> A) : M A :=
  wait_for_lift n 7000 ;;
  ensure_idle n QUIET_MS ;;
  flush_uart n ;;
  c <- read_cmd_nb ;;
  if is_stop_cmd c then print (MsgCommand c) ;; ret (f (Return c))
  else ret (f Next).

(** What the body of [detect_mode]'s loop does with the outcome of the
    [try:] block. *)
Definition detect_after (n : nat) (k : Z) (r : option nat * (Z + exn))
  : M (Z * control) :=
  match r with
  | (sock, inr e) =>
      match sock with
      | Some s => http_post_finish s
      | None => ret tt
      end ;;
      print (MsgUploadError e) ;;
      cycle_tail n (fun ctl => (k, ctl))
  | (_, inl _) => cycle_tail n (fun ctl => (k + 1, ctl))
  end.

(** What the body of [cls_mode]'s loop does with it. *)
Definition cls_after (n : nat) (r : option nat * (Z + exn)) : M control :=
  match r with
  | (sock, inr e) =>
      match sock with
      | Some s => http_post_finish s
      | None => ret tt
      end ;;
      print (MsgUploadError e)
  | (_, inl _) => ret tt
  end ;;
  cycle_tail n (fun ctl => ctl).

(** Events of a capture cycle of detect mode for subject [pid] with
    [k] samples already collected. *)
Definition detect_event (pid k : Z) (e : event) : Prop :=
  match e with
  | EvUartWrite unread _ => unread = []
  | EvSendHead _ lines =>
      lines = request_lines HOST PORT PATH PACKED_LEN (detect_headers pid k)
  | EvPrint (MsgSaved i total _) => i = k + 1 /\ total = SAMPLES_PER_PERSON
  | EvPrint (MsgSent _ _) => False
  | _ => True
  end.

(** Events of a capture cycle of classification mode. *)
Definition cls_event (e : event) : Prop :=
  match e with
  | EvUartWrite unread _ => unread = []
  | EvSendHead _ lines =>
      exists counter,
        lines = request_lines HOST PORT PATH PACKED_LEN (cls_headers counter)
  | EvPrint (MsgSaved _ _ _) => False
  | _ => True
  end.

(** Events of detect mode for subject [pid], whatever the sample index. *)
Definition detect_mode_event (pid : Z) (e : event) : Prop :=
  match e with
  | EvUartWrite unread _ => unread = []
  | EvSendHead _ lines =>
      exists k, lines = request_lines HOST PORT PATH PACKED_LEN (detect_headers pid k)
  | EvPrint (MsgSent _ _) => False
  | _ => True
  end.

(* ------------------------------------------------------------------ *)
(** ** Statements about the modes *)


(** A finger is placed and lifted; the sensor acknowledges the download,
    then sends a frame of the wrong type and leaves a DATA frame behind
    it. *)
Definition world_failed_transfer : World :=
  mkWorld 0 [] [ack_ok ++ nack_01 ++ data_11_22]
          (map finger (repeat false 8 ++ [true])) [None] [] 0 1 [].

(** A request head that carries the subject-identifier header of [pid]. *)
Definition has_subject_header (pid : Z) (e : event) : Prop :=
  match e with
  | EvSendHead _ lines => In (header_line ("X-Person-Id", str pid)) lines
  | _ => True
  end.

(** A request head none of whose lines is a subject-identifier header. *)
Definition lacks_subject_header (e : event) : Prop :=
  match e with
  | EvSendHead _ lines =>
      Forall (fun line => String.prefix "X-Person-Id" line = false) lines
  | _ => True
  end.



(** What identifies the sample of a cycle of detect mode that starts with
    [k] samples collected: the file name in the request head and the index
    in the saved report are both [k + 1]. *)
Definition cycle_index (pid k : Z) (e : event) : Prop :=
  match e with
  | EvSendHead _ lines =>
      In (header_line ("X-Filename", (str pid ++ "_" ++ str (k + 1))%string)) lines
  | EvPrint (MsgSaved i total _) => i = k + 1 /\ total = SAMPLES_PER_PERSON
  | _ => True
  end.

(** [successes n pid K (k0, w0) (k, w)]: from [k0] samples collected in
    world [w0], [K] consecutive passes through the loop body each went
    round again without reporting an upload error, and left [k] samples
    collected in world [w]. *)
Inductive successes (n : nat) (pid : Z) : nat -> Z * World -> Z * World -> Prop :=
| successes_O (s : Z * World) : successes n pid 0 s s
| successes_S (K : nat) (s : Z * World) (k1 : Z) (w1 : World) (k2 : Z) (w2 : World)
    (new : list event) :
    successes n pid K s (k1, w1) ->
    k1 < SAMPLES_PER_PERSON ->
    detect_body n pid k1 w1 = (Ret (k2, Next), w2) ->
    log w2 = log w1 ++ new ->
    count is_error new = 0%nat ->
    successes n pid (S K) s (k2, w2).

(** Three placements, each acknowledged and closed by one DATA_END frame;
    the operator types "stop" during the third. *)
Definition one_placement : list probe :=
  map finger (repeat false 8 ++ [true; false] ++ repeat false 8).

Definition world_three_captures_then_stop : World :=
  mkWorld 0 []
          [ack_ok ++ data_end_33; ack_ok ++ data_end_33; ack_ok ++ data_end_33]
          (one_placement ++ one_placement ++ one_placement)
          [None; None; Some "stop"] [] 0 1 [].

(** One placement, acknowledged and closed by one DATA_END frame, with
    "stop" typed meanwhile. *)
Definition world_capture_then_stop : World :=
  mkWorld 0 [] [ack_ok ++ data_end_33] one_placement [Some "stop"] [] 0 1 [].

(** One placement, acknowledged and closed by one DATA_END frame. *)
Definition world_one_capture : World :=
  mkWorld 0 [] [ack_ok ++ data_end_33] one_placement [] [] 0 1 [].

(* ------------------------------------------------------------------ *)
(** ** Connections *)

(** The download command as it goes out on the wire. *)
Definition upimage_command : list byte :=
  [xef; x01; xff; xff; xff; xff; x01; x00; x03; x0a; x00; x0e].

(** The events that tell what a capture cycle achieved: the connect
    attempt, the request head, the pieces of the body, the close, and the
    report of an image saved or sent. *)
Definition significant (e : event) : bool :=
  match e with
  | EvConnect _ _ | EvSendHead _ _ | EvSendBody _ _ | EvClose _ => true
  | EvPrint (MsgSaved _ _ _) | EvPrint (MsgSent _ _) => true
  | _ => false
  end.

(** [summary w w' t]: the significant events logged between [w] and [w']
    are exactly [t], in this order. *)
Definition summary (w w' : World) (t : list event) : Prop :=
  exists new, log w' = log w ++ new /\ filter significant new = t.

(** Events that are not significant. *)
Definition quiet (e : event) : Prop := significant e = false.

(** The four summaries of a capture cycle on socket [s]: no connection
    attempt; a lone connect attempt; connect, head, some pieces of the body
    and the close, with no report; connect, head, the pieces of the body,
    the close and the report of the image, which states the total length of
    the pieces. *)
Definition cycle_summary (s : nat) (lines : list string) (report : Z -> message)
    (t : list event) : Prop :=
  t = [] \/
  (exists ok, t = [EvConnect s ok]) \/
  (exists ps,
      t = EvConnect s true :: EvSendHead s lines
          :: map (EvSendBody s) ps ++ [EvClose s]) \/
  (exists ps,
      t = EvConnect s true :: EvSendHead s lines
          :: map (EvSendBody s) ps
          ++ [EvClose s; EvPrint (report (total_length ps))]).

(** The sample indices of the saved reports of detect mode, in order. *)
Definition saved_indices (l : list event) : list Z :=
  flat_map (fun e => match e with
                     | EvPrint (MsgSaved i _ _) => [i]
                     | _ => []
                     end) l.

(** The file names of the sent reports of classification mode, in
    order. *)
Definition sent_names (l : list event) : list string :=
  flat_map (fun e => match e with
                     | EvPrint (MsgSent name _) => [name]
                     | _ => []
                     end) l.

(** What outlives a capture cycle besides the devices: the number of the
    next socket and the running counter. *)
Definition session (w : World) : nat * Z := (next_sock w, cls_counter w).

(** [keeps m]: [m] leaves the session as it found it. *)
Definition keeps {A : Type} (m : M A) : Prop :=
  forall w, session (snd (m w)) = session w.

(* ================================================================== *)
(** * Properties *)

(* ------------------------------------------------------------------ *)
(** ** Sample runs *)

Example str_of_ints : (str 0, str 7, str (-12), str PACKED_LEN) = ("0", "7", "-12", "36864").
Proof. reflexivity. Qed.

Example fmt_02X_of_codes :
  (fmt_02X 0, fmt_02X 10, fmt_02X 255, fmt_02X (-1)) = ("00", "0A", "FF", "-1").
Proof. reflexivity. Qed.

Example download_command_on_the_wire :
  log (snd (stream_upimage_to_http 1 SENSOR_ADDRESS 0 (world_rx [])))
  = [EvUartWrite [] [xef; x01; xff; xff; xff; xff; x01; x00; x03; x0a; x00; x0e]].
Proof. reflexivity. Qed.

Example read_exact_times_out :
  _read_exact 5 9 5000 (world_rx [xef; x01])
  = (Ret None, set_clock 6002 (world_rx [])).
Proof. reflexivity. Qed.

Example ensure_idle_needs_eight_quiet_probes :
  ensure_idle 20 QUIET_MS (world_rx [])
  = (Ret tt, mkWorld 840 [] [] [] [] [] 0 1 (repeat (EvProbe false) 8)).
Proof. reflexivity. Qed.

Example detect_request_head :
  nth_error (log (snd (detect_mode 30 7 world_one_capture))) 13
  = Some (EvSendHead 0
            ["POST /upload-image HTTP/1.1"; "Host: 192.168.1.109:3000";
             "Content-Type: application/octet-stream"; "Content-Length: 36864";
             "X-Format: packed4"; "X-Width: 256"; "X-Height: 288";
             "X-Person-Id: 7"; "X-Mode: detect"; "X-Filename: 7_1"; ""; ""]).
Proof. vm_compute. reflexivity. Qed.

Example cls_request_head :
  nth_error (log (snd (cls_mode 30 world_one_capture))) 13
  = Some (EvSendHead 0
            ["POST /upload-image HTTP/1.1"; "Host: 192.168.1.109:3000";
             "Content-Type: application/octet-stream"; "Content-Length: 36864";
             "X-Format: packed4"; "X-Width: 256"; "X-Height: 288";
             "X-Mode: cls"; "X-Filename: test_img_1"; ""; ""]).
Proof. vm_compute. reflexivity. Qed.

Example stray_bytes_of_a_probe_are_flushed_before_the_command :
  filter (fun e => match e with EvUartWrite _ _ => true | _ => false end)
         (log (snd (detect_body 30 7 0
                      (set_rx [x10; x20]
                         (set_probes (map finger (repeat false 8)
                                        ++ [mkProbe true 1 [x99; x98]])
                                     world_one_capture)))))
  = [EvUartWrite [] [xef; x01; xff; xff; xff; xff; x01; x00; x03; x0a; x00; x0e]].
Proof. vm_compute. reflexivity. Qed.

Example failed_transfer_is_retried_under_the_same_name :
  filter (fun e => match e with EvSendHead _ _ | EvPrint (MsgUploadError _) => true
                             | _ => false end)
         (log (snd (detect_mode 30 7
                      (set_probes (one_placement ++ one_placement)
                         (set_console [None; Some "stop"] world_failed_transfer)))))
  = [EvSendHead 0 (request_lines HOST PORT PATH PACKED_LEN (detect_headers 7 0));
     EvPrint (MsgUploadError (Exception "unexpected packet 07"));
     EvSendHead 1 (request_lines HOST PORT PATH PACKED_LEN (detect_headers 7 0));
     EvPrint (MsgUploadError (Exception "timeout header"))].
Proof. vm_compute. reflexivity. Qed.

(* ------------------------------------------------------------------ *)
(** ** Bytes and 16-bit big-endian numbers *)

Lemma byte_to_Z_range (b : byte) : 0 <= byte_to_Z b < 256.
Proof.
  unfold byte_to_Z. pose proof (Byte.to_N_bounded b). lia.
Qed.

Lemma byte_of_to_Z (b : byte) : byte_of_Z (byte_to_Z b) = Some b.
Proof.
  unfold byte_of_Z. pose proof (byte_to_Z_range b) as Hb.
  replace (0 <=? byte_to_Z b) with true by (symmetry; apply Z.leb_le; lia).
  replace (byte_to_Z b <? 256) with true by (symmetry; apply Z.ltb_lt; lia).
  simpl. unfold byte_to_Z. rewrite N2Z.id. apply Byte.of_to_N.
Qed.

Lemma byte_of_Z_some (n : Z) :
  0 <= n < 256 -> exists b, byte_of_Z n = Some b /\ byte_to_Z b = n.
Proof.
  intros Hn. unfold byte_of_Z.
  replace (0 <=? n) with true by (symmetry; apply Z.leb_le; lia).
  replace (n <? 256) with true by (symmetry; apply Z.ltb_lt; lia).
  simpl. destruct (Byte.of_N (Z.to_N n)) as [b|] eqn:E.
  - exists b. split; [reflexivity|].
    apply Byte.to_of_N in E. unfold byte_to_Z. rewrite E. lia.
  - apply Byte.of_N_None_iff in E. lia.
Qed.

Lemma land_255 (n : Z) : Z.land n 255 = n mod 256.
Proof. change 255 with (Z.ones 8). rewrite Z.land_ones by lia. reflexivity. Qed.

Lemma land_65535 (n : Z) : Z.land n 65535 = n mod 65536.
Proof. change 65535 with (Z.ones 16). rewrite Z.land_ones by lia. reflexivity. Qed.

Lemma shiftr_8 (n : Z) : Z.shiftr n 8 = n / 256.
Proof. rewrite Z.shiftr_div_pow2 by lia. reflexivity. Qed.

(** [(hi << 8) | lo] is [hi * 256 + lo] for two byte values. *)
Lemma be16_value (hi lo : Z) :
  0 <= hi -> 0 <= lo < 256 -> Z.lor (Z.shiftl hi 8) lo = hi * 256 + lo.
Proof.
  intros Hhi Hlo.
  rewrite Z.shiftl_mul_pow2 by lia. change (2 ^ 8) with 256.
  assert (Hland : Z.land (hi * 256) lo = 0).
  { apply Z.bits_inj'. intros k Hk.
    rewrite Z.land_spec, Z.bits_0.
    destruct (Z.lt_ge_cases k 8) as [Hlt|Hge].
    - change 256 with (2 ^ 8). rewrite Z.mul_pow2_bits_low by lia. reflexivity.
    - destruct (Z.eq_dec lo 0) as [->|Hnz].
      + rewrite Z.bits_0. apply andb_false_r.
      + rewrite (Z.bits_above_log2 lo k); [apply andb_false_r|lia|].
        apply Z.lt_le_trans with 8; [|lia].
        apply Z.log2_lt_pow2; lia. }
  rewrite <- Z.lxor_lor by exact Hland.
  symmetry. apply Z.add_nocarry_lxor. exact Hland.
Qed.

Lemma be16_bytes (hi lo : byte) :
  Z.lor (Z.shiftl (byte_to_Z hi) 8) (byte_to_Z lo)
  = byte_to_Z hi * 256 + byte_to_Z lo.
Proof.
  pose proof (byte_to_Z_range hi). pose proof (byte_to_Z_range lo).
  apply be16_value; lia.
Qed.

Lemma _be16_spec (n : Z) (w : World) :
  exists hi lo,
    _be16 n w = (Ret [hi; lo], w) /\
    byte_to_Z hi = (n / 256) mod 256 /\ byte_to_Z lo = n mod 256.
Proof.
  unfold _be16, py_bytes.
  rewrite !land_255, shiftr_8.
  destruct (byte_of_Z_some ((n / 256) mod 256)) as (hi & Ehi & Vhi).
  { apply Z.mod_pos_bound. lia. }
  destruct (byte_of_Z_some (n mod 256)) as (lo & Elo & Vlo).
  { apply Z.mod_pos_bound. lia. }
  exists hi, lo. rewrite Ehi, Elo. unfold bind, ret. simpl. auto.
Qed.

Lemma drop_last2_app (p : list byte) (c1 c2 : byte) :
  drop_last2 (p ++ [c1; c2]) = p.
Proof.
  unfold drop_last2. rewrite length_app. simpl.
  replace (length p + 2 - 2)%nat with (length p + 0)%nat by lia.
  rewrite firstn_app_2. simpl. apply app_nil_r.
Qed.

(** Indexing a bytes object. *)
Lemma py_getitem_nth (bs : list byte) (i : nat) (b : byte) (w : World) :
  nth_error bs i = Some b ->
  py_getitem bs (Z.of_nat i) w = (Ret (byte_to_Z b), w).
Proof.
  intros E. unfold py_getitem.
  assert (Hlt : (i < length bs)%nat) by (apply nth_error_Some; congruence).
  replace (Z.of_nat i <? 0) with false by (symmetry; apply Z.ltb_ge; lia).
  replace (0 <=? Z.of_nat i) with true by (symmetry; apply Z.leb_le; lia).
  replace (Z.of_nat i <? Z.of_nat (length bs)) with true
    by (symmetry; apply Z.ltb_lt; lia).
  simpl. rewrite Nat2Z.id, E. reflexivity.
Qed.

Lemma py_getitem_neg (bs : list byte) (i : nat) (b : byte) (w : World) :
  (0 < i <= length bs)%nat ->
  nth_error bs (length bs - i) = Some b ->
  py_getitem bs (- Z.of_nat i) w = (Ret (byte_to_Z b), w).
Proof.
  intros Hi E. unfold py_getitem.
  replace (- Z.of_nat i <? 0) with true by (symmetry; apply Z.ltb_lt; lia).
  replace (0 <=? Z.of_nat (length bs) + - Z.of_nat i) with true
    by (symmetry; apply Z.leb_le; lia).
  replace (Z.of_nat (length bs) + - Z.of_nat i <? Z.of_nat (length bs)) with true
    by (symmetry; apply Z.ltb_lt; lia).
  simpl.
  replace (Z.to_nat (Z.of_nat (length bs) + - Z.of_nat i)) with (length bs - i)%nat by lia.
  rewrite E. reflexivity.
Qed.

Lemma py_getitem_short (bs : list byte) (i : Z) (w : World) :
  Z.of_nat (length bs) < - i ->
  py_getitem bs i w = (Raise IndexError, w).
Proof.
  intros Hi. unfold py_getitem.
  replace (i <? 0) with true by (symmetry; apply Z.ltb_lt; lia).
  replace (0 <=? Z.of_nat (length bs) + i) with false
    by (symmetry; apply Z.leb_gt; lia).
  reflexivity.
Qed.

(* ------------------------------------------------------------------ *)
(** ** Reading from the UART *)

(** Projections of an updated world. *)
Ltac wsimpl :=
  cbn [clock rx sensor probes console net next_sock cls_counter log
       set_clock set_rx set_sensor set_probes set_console set_net
       set_next_sock set_cls_counter emit fst snd] in *.

Lemma uart_only_refl (w : World) : uart_only w w.
Proof. destruct w; reflexivity. Qed.

Lemma uart_only_trans (w1 w2 w3 : World) :
  uart_only w1 w2 -> uart_only w2 w3 -> uart_only w1 w3.
Proof.
  unfold uart_only, set_clock, set_rx.
  destruct w1, w2, w3; simpl. intros H12 H23.
  inversion H12; inversion H23; subst. reflexivity.
Qed.

Lemma uart_only_set_rx (r : list byte) (w : World) : uart_only w (set_rx r w).
Proof. destruct w; reflexivity. Qed.

Lemma uart_only_set_clock (t : Z) (w : World) : uart_only w (set_clock t w).
Proof. destruct w; reflexivity. Qed.

Lemma uart_only_fields (w w' : World) :
  uart_only w w' ->
  log w' = log w /\ net w' = net w /\ sensor w' = sensor w /\
  probes w' = probes w /\ console w' = console w /\
  next_sock w' = next_sock w /\ cls_counter w' = cls_counter w.
Proof. unfold uart_only. intros ->. destruct w; simpl. repeat split. Qed.

(** With [n > 0] bytes waiting, one [uart.read] completes the exact read. *)
Lemma _read_exact_avail (b : nat) (t : Z) (bs tail : list byte) (w : World) :
  rx w = bs ++ tail -> bs <> [] ->
  _read_exact (S b) (Z.of_nat (length bs)) t w = (Ret (Some bs), set_rx tail w).
Proof.
  intros Hrx Hne.
  unfold _read_exact, bind, ticks_ms, get. simpl _read_exact_loop.
  destruct bs as [|x bs]; [congruence|].
  replace (0 <? Z.of_nat (length (x :: bs))) with true
    by (symmetry; apply Z.ltb_lt; simpl length; lia).
  unfold bind, uart_read. rewrite Hrx. simpl app at 1.
  rewrite Z.sub_0_r, Nat2Z.id.
  change (x :: bs ++ tail) with ((x :: bs) ++ tail).
  rewrite firstn_app, Nat.sub_diag, firstn_all, firstn_O, app_nil_r.
  rewrite skipn_app, Nat.sub_diag, skipn_all, skipn_O. simpl app at 1.
  assert (Hdone : forall w', _read_exact_loop b (Z.of_nat (length (x :: bs))) t
                               (clock w) (x :: bs) w' = (Ret (Some (x :: bs)), w')).
  { intros w'. destruct b; simpl _read_exact_loop;
      rewrite Z.ltb_irrefl; reflexivity. }
  apply Hdone.
Qed.

(** A read of no bytes returns the empty bytes object at once. *)
Lemma _read_exact_zero (b : nat) (n t : Z) (w : World) :
  n <= 0 -> _read_exact b n t w = (Ret (Some []), w).
Proof.
  intros Hn. unfold _read_exact, bind, ticks_ms, get.
  destruct b; simpl _read_exact_loop;
    replace (0 <? n) with false by (symmetry; apply Z.ltb_ge; lia);
    reflexivity.
Qed.

Lemma _read_exact_loop_inv (b : nat) :
  forall (n t t0 : Z) (buf : list byte) (w : World) r w',
    _read_exact_loop b n t t0 buf w = (r, w') ->
    uart_only w w' /\
    match r with
    | Ret (Some bs) =>
        exists more, bs = buf ++ more /\ rx w = more ++ rx w' /\
                     (Z.of_nat (length buf) <= n -> Z.of_nat (length bs) = n) /\
                     (n <= Z.of_nat (length buf) -> more = [])
    | Ret None => True
    | Raise _ => False
    | Diverge => True
    end.
Proof.
  induction b as [|b IH]; intros n t t0 buf w r w' E; simpl in E.
  - destruct (Z.of_nat (length buf) <? n) eqn:C.
    + inversion E; subst. split; [apply uart_only_refl|exact I].
    + inversion E; subst. split; [apply uart_only_refl|].
      apply Z.ltb_ge in C.
      exists []. rewrite app_nil_r. repeat split; auto; lia.
  - destruct (Z.of_nat (length buf) <? n) eqn:C.
    + apply Z.ltb_lt in C. unfold bind, uart_read in E.
      destruct (rx w) as [|x xs] eqn:Hrx.
      * unfold ticks_ms, get in E. simpl in E.
        destruct (ticks_diff (clock w + UART_TIMEOUT_MS) t0 >? t).
        -- inversion E; subst. split; [apply uart_only_set_clock|exact I].
        -- unfold bind, sleep_ms, modify in E.
           apply IH in E. destruct E as [U R]. split.
           ++ eapply uart_only_trans; [|exact U].
              eapply uart_only_trans; apply uart_only_set_clock.
           ++ destruct r as [[bs|]| |]; auto.
              destruct R as (more & -> & Hm & Hl & Hz).
              exists more. wsimpl. rewrite <- Hm, Hrx. auto.
      * destruct (Z.to_nat (n - Z.of_nat (length buf))) as [|k] eqn:Hk; [lia|].
        simpl firstn in E. simpl skipn in E.
        apply IH in E. destruct E as [U R]. split.
        -- eapply uart_only_trans; [apply uart_only_set_rx|exact U].
        -- destruct r as [[bs|]| |]; auto.
           destruct R as (more & -> & Hm & Hl & Hz). wsimpl.
           change (firstn (S k) (x :: xs)) with (x :: firstn k xs) in *.
           exists ((x :: firstn k xs) ++ more).
           rewrite <- app_assoc. split; [reflexivity|]. split.
           { rewrite <- app_assoc, <- Hm. simpl. rewrite firstn_skipn. reflexivity. }
           split.
           { intros _. rewrite app_assoc. apply Hl. rewrite length_app. simpl length.
             pose proof (firstn_le_length k xs). lia. }
           { intros Hc. lia. }
    + inversion E; subst. split; [apply uart_only_refl|].
      apply Z.ltb_ge in C.
      exists []. rewrite app_nil_r. repeat split; auto; lia.
Qed.

Lemma _read_exact_inv (b : nat) (n t : Z) (w : World) r w' :
  _read_exact b n t w = (r, w') ->
  uart_only w w' /\
  match r with
  | Ret (Some bs) =>
      rx w = bs ++ rx w' /\ Z.of_nat (length bs) = Z.max 0 n
  | Ret None => True
  | Raise _ => False
  | Diverge => True
  end.
Proof.
  unfold _read_exact, bind, ticks_ms, get. intros E.
  apply _read_exact_loop_inv in E. destruct E as [U R]. split; [exact U|].
  destruct r as [[bs|]| |]; auto.
  destruct R as (more & -> & Hm & Hl & Hz). simpl in *. split; [exact Hm|].
  destruct (Z.le_gt_cases 0 n) as [Hn|Hn].
  - rewrite Hl by lia. lia.
  - rewrite Hz by lia. simpl. lia.
Qed.

(* ------------------------------------------------------------------ *)
(** ** Decoding one frame *)

Lemma byte_to_Z_inj (a b : byte) : byte_to_Z a = byte_to_Z b -> a = b.
Proof.
  intros E. pose proof (byte_of_to_Z a) as Ha. rewrite E, byte_of_to_Z in Ha.
  congruence.
Qed.

Lemma length9 (l : list byte) :
  length l = 9%nat ->
  exists h0 h1 h2 h3 h4 h5 h6 h7 h8, l = [h0; h1; h2; h3; h4; h5; h6; h7; h8].
Proof.
  intros E.
  do 9 (destruct l as [|? l]; [discriminate E|]).
  destruct l; [|discriminate E]. eauto 10.
Qed.

(** The last two bytes of a bytes object that has at least two. *)
Lemma split_last2 (rest : list byte) :
  (2 <= length rest)%nat ->
  exists ch cl,
    rest = drop_last2 rest ++ [ch; cl] /\
    (forall w, py_getitem rest (-2) w = (Ret (byte_to_Z ch), w)) /\
    (forall w, py_getitem rest (-1) w = (Ret (byte_to_Z cl), w)).
Proof.
  intros Hlen. unfold drop_last2.
  pose proof (firstn_skipn (length rest - 2) rest) as Hsplit.
  assert (Hl : length (skipn (length rest - 2) rest) = 2%nat)
    by (rewrite length_skipn; lia).
  destruct (skipn (length rest - 2) rest) as [|ch [|cl [|? ?]]]; try discriminate Hl.
  exists ch, cl. split; [symmetry; exact Hsplit|].
  assert (Hf : length (firstn (length rest - 2) rest) = (length rest - 2)%nat)
    by (rewrite length_firstn; lia).
  split; intros w.
  - apply (py_getitem_neg rest 2 ch w); [lia|].
    rewrite <- Hsplit at 1. rewrite nth_error_app2 by lia.
    rewrite Hf, Nat.sub_diag. reflexivity.
  - apply (py_getitem_neg rest 1 cl w); [lia|].
    rewrite <- Hsplit at 1. rewrite nth_error_app2 by lia.
    rewrite Hf. replace (length rest - 1 - (length rest - 2))%nat with 1%nat by lia.
    reflexivity.
Qed.

(** With nine bytes waiting, the header is read and its marker checked. *)
Lemma _read_packet_header (b : nat) (t : Z) (w : World)
    (h0 h1 h2 h3 h4 h5 h6 h7 h8 : byte) (more : list byte) :
  rx w = [h0; h1; h2; h3; h4; h5; h6; h7; h8] ++ more ->
  _read_packet (S b) t w
  = if marker_ok h0 h1
    then packet_body (S b) t (byte_to_Z h6) (byte_to_Z h7) (byte_to_Z h8)
                     (set_rx more w)
    else (Raise (Exception "bad startcode"), set_rx more w).
Proof.
  intros Hrx.
  change (_read_packet (S b) t)
    with (hdr <- _read_exact (S b) 9 t ;;
          if falsy hdr then raise (Exception "timeout header") else
          let hdr := bytes_of hdr in
          h0 <- py_getitem hdr 0 ;;
          h1 <- py_getitem hdr 1 ;;
          if negb (h0 =? Z.shiftr STARTCODE 8) || negb (h1 =? Z.land STARTCODE 0xFF)
          then raise (Exception "bad startcode") else
          ptype <- py_getitem hdr 6 ;;
          h7 <- py_getitem hdr 7 ;;
          h8 <- py_getitem hdr 8 ;;
          packet_body (S b) t ptype h7 h8).
  unfold bind at 1.
  change 9 with (Z.of_nat (length [h0; h1; h2; h3; h4; h5; h6; h7; h8])).
  rewrite (_read_exact_avail b t _ more w Hrx) by discriminate.
  cbn [falsy bytes_of].
  unfold bind at 1.
  rewrite (py_getitem_nth _ 0 h0) by reflexivity.
  unfold bind at 1.
  rewrite (py_getitem_nth _ 1 h1) by reflexivity.
  unfold marker_ok.
  change (Z.shiftr STARTCODE 8) with 0xEF. change (Z.land STARTCODE 0xFF) with 0x01.
  destruct (byte_to_Z h0 =? 0xEF); [|reflexivity].
  destruct (byte_to_Z h1 =? 0x01); [|reflexivity].
  cbn [negb orb andb].
  unfold bind at 1.
  rewrite (py_getitem_nth _ 6 h6) by reflexivity.
  unfold bind at 1.
  rewrite (py_getitem_nth _ 7 h7) by reflexivity.
  unfold bind at 1.
  rewrite (py_getitem_nth _ 8 h8) by reflexivity.
  reflexivity.
Qed.

(** With the declared number of bytes waiting (at least two), the body is
    read and its checksum compared. *)
Lemma packet_body_avail (b : nat) (t ptype : Z) (lh ll ch cl : byte)
    (payload tail : list byte) (w : World) :
  rx w = payload ++ [ch; cl] ++ tail ->
  byte_to_Z lh * 256 + byte_to_Z ll = Z.of_nat (length payload) + 2 ->
  packet_body (S b) t ptype (byte_to_Z lh) (byte_to_Z ll) w
  = if byte_to_Z ch * 256 + byte_to_Z cl
       =? (ptype + byte_to_Z lh + byte_to_Z ll + py_sum payload) mod 65536
    then (Ret (ptype, payload), set_rx tail w)
    else (Raise (Exception "bad checksum"), set_rx tail w).
Proof.
  intros Hrx Hlen. unfold packet_body.
  rewrite be16_bytes, Hlen.
  replace (Z.of_nat (length payload) + 2)
    with (Z.of_nat (length (payload ++ [ch; cl])))
    by (rewrite length_app; simpl length; lia).
  unfold bind at 1.
  rewrite (_read_exact_avail b t (payload ++ [ch; cl]) tail w).
  2:{ rewrite Hrx, <- app_assoc. reflexivity. }
  2:{ destruct payload; discriminate. }
  assert (Hfalsy : falsy (Some (payload ++ [ch; cl])) = false)
    by (destruct payload; reflexivity).
  rewrite Hfalsy. cbn [bytes_of].
  destruct (split_last2 (payload ++ [ch; cl])) as (ch' & cl' & Hs & H2 & H1).
  { rewrite length_app. simpl. lia. }
  rewrite drop_last2_app in Hs.
  apply app_inv_head in Hs. inversion Hs; subst ch' cl'.
  unfold bind at 1. rewrite H2.
  unfold bind at 1. rewrite H1.
  rewrite drop_last2_app, be16_bytes, land_65535.
  destruct (_ =? _); reflexivity.
Qed.

(** A well-formed frame at the head of the receive buffer is decoded. *)
Lemma _read_packet_frame (b : nat) (t : Z) (bs tail : list byte) (ptype : Z)
    (payload : list byte) (w : World) :
  wire_frame bs ptype payload ->
  rx w = bs ++ tail ->
  _read_packet (S b) t w = (Ret (ptype, payload), set_rx tail w).
Proof.
  intros (a1 & a2 & a3 & a4 & tb & lh & ll & ch & cl & -> & Ht & Hlen & Hcs) Hrx.
  rewrite (_read_packet_header b t w xef x01 a1 a2 a3 a4 tb lh ll
             (payload ++ [ch; cl] ++ tail)).
  2:{ rewrite Hrx. rewrite <- !app_assoc. reflexivity. }
  change (marker_ok xef x01) with true. cbv iota.
  rewrite (packet_body_avail b t _ lh ll ch cl payload tail) by (auto).
  rewrite Ht, Hcs, Z.eqb_refl. destruct w; reflexivity.
Qed.

(** Whatever [_read_packet] does, it only consumes from the receive buffer;
    and a frame it returns was well-formed. *)
Lemma _read_packet_inv (b : nat) (t : Z) (w : World) r w' :
  _read_packet b t w = (r, w') ->
  uart_only w w' /\
  match r with
  | Ret (ptype, payload) =>
      exists bs, wire_frame bs ptype payload /\ rx w = bs ++ rx w'
  | _ => True
  end.
Proof.
  unfold _read_packet. intros E. unfold bind at 1 in E.
  destruct (_read_exact b 9 t w) as [r1 w1] eqn:E1.
  apply _read_exact_inv in E1. destruct E1 as [U1 R1].
  destruct r1 as [[hdr|]| |]; try (inversion E; subst; split; [exact U1|exact I]).
  destruct R1 as [Hrx1 Hlen1].
  destruct (length9 hdr) as (h0 & h1 & h2 & h3 & h4 & h5 & h6 & h7 & h8 & ->); [lia|].
  cbn [falsy bytes_of] in E.
  unfold bind at 1 in E. rewrite (py_getitem_nth _ 0 h0) in E by reflexivity.
  unfold bind at 1 in E. rewrite (py_getitem_nth _ 1 h1) in E by reflexivity.
  change (Z.shiftr STARTCODE 8) with 0xEF in E.
  change (Z.land STARTCODE 0xFF) with 0x01 in E.
  destruct (byte_to_Z h0 =? 0xEF) eqn:M0;
    [|inversion E; subst; split; [exact U1|exact I]].
  destruct (byte_to_Z h1 =? 0x01) eqn:M1;
    [|inversion E; subst; split; [exact U1|exact I]].
  cbn [negb orb] in E.
  unfold bind at 1 in E. rewrite (py_getitem_nth _ 6 h6) in E by reflexivity.
  unfold bind at 1 in E. rewrite (py_getitem_nth _ 7 h7) in E by reflexivity.
  unfold bind at 1 in E. rewrite (py_getitem_nth _ 8 h8) in E by reflexivity.
  unfold bind at 1 in E.
  destruct (_read_exact b _ t w1) as [r2 w2] eqn:E2.
  apply _read_exact_inv in E2. destruct E2 as [U2 R2].
  assert (U12 : uart_only w w2) by (eapply uart_only_trans; eassumption).
  destruct r2 as [[rest|]| |]; try (inversion E; subst; split; [exact U12|exact I]).
  destruct R2 as [Hrx2 Hlen2].
  destruct (falsy (Some rest)) eqn:Hf;
    [inversion E; subst; split; [exact U12|exact I]|].
  cbn [bytes_of] in E.
  destruct (Nat.lt_ge_cases (length rest) 2) as [Hshort|Hlong].
  { unfold bind at 1 in E. rewrite py_getitem_short in E by lia.
    inversion E; subst. split; [exact U12|exact I]. }
  destruct (split_last2 rest Hlong) as (ch & cl & Hs & H2 & H1).
  unfold bind at 1 in E. rewrite H2 in E.
  unfold bind at 1 in E. rewrite H1 in E.
  rewrite !be16_bytes, land_65535 in E.
  destruct (_ =? _) eqn:Hcs in E;
    [|inversion E; subst; split; [exact U12|exact I]].
  cbn [negb] in E. inversion E; subst. split; [exact U12|].
  apply Z.eqb_eq in M0, M1, Hcs.
  exists ([h0; h1; h2; h3; h4; h5; h6; h7; h8] ++ rest). split.
  - exists h2, h3, h4, h5, h6, h7, h8, ch, cl.
    rewrite (byte_to_Z_inj h0 xef M0), (byte_to_Z_inj h1 x01 M1).
    rewrite be16_bytes in Hlen2.
    assert (Hpl : length rest = (length (drop_last2 rest) + 2)%nat).
    { rewrite Hs at 1. rewrite length_app. reflexivity. }
    repeat split.
    + rewrite <- Hs. reflexivity.
    + lia.
    + exact Hcs.
  - rewrite Hrx1, Hrx2, <- app_assoc. reflexivity.
Qed.

(* ------------------------------------------------------------------ *)
(** ** Encoding one frame *)

Lemma be16_split (n : Z) :
  0 <= n < 65536 -> ((n / 256) mod 256) * 256 + n mod 256 = n.
Proof. intros Hn. Z.div_mod_to_equations. lia. Qed.

Lemma to_bytes4_big_spec (n : Z) (w : World) :
  0 <= n < 2 ^ 32 ->
  exists a1 a2 a3 a4, to_bytes4_big n w = (Ret [a1; a2; a3; a4], w).
Proof.
  intros Hn. unfold to_bytes4_big.
  replace (0 <=? n) with true by (symmetry; apply Z.leb_le; lia).
  replace (n <? 2 ^ 32) with true by (symmetry; apply Z.ltb_lt; lia).
  cbn [andb]. rewrite !land_255.
  destruct (byte_of_Z_some (Z.shiftr n 24 mod 256)) as (a1 & E1 & _);
    [apply Z.mod_pos_bound; lia|].
  destruct (byte_of_Z_some (Z.shiftr n 16 mod 256)) as (a2 & E2 & _);
    [apply Z.mod_pos_bound; lia|].
  destruct (byte_of_Z_some (Z.shiftr n 8 mod 256)) as (a3 & E3 & _);
    [apply Z.mod_pos_bound; lia|].
  destruct (byte_of_Z_some (n mod 256)) as (a4 & E4 & _);
    [apply Z.mod_pos_bound; lia|].
  exists a1, a2, a3, a4. unfold py_bytes, bind, ret.
  rewrite E1, E2, E3, E4. reflexivity.
Qed.

(** Within the ranges the frame format can carry, [_write_packet] hands a
    well-formed frame to [uart.write]. *)
Lemma _write_packet_frame (address ptype : Z) (payload : list byte) (w : World) :
  0 <= address < 2 ^ 32 -> 0 <= ptype < 256 ->
  Z.of_nat (length payload) <= 65533 ->
  exists frame,
    wire_frame frame ptype payload /\
    _write_packet address ptype payload w = uart_write frame w.
Proof.
  intros Haddr Hpt Hlen. unfold _write_packet.
  unfold bind at 1.
  change (_be16 STARTCODE w) with (@Ret (list byte) [xef; x01], w). cbv iota beta.
  destruct (to_bytes4_big_spec address w Haddr) as (a1 & a2 & a3 & a4 & Ea).
  unfold bind at 1. rewrite Ea.
  destruct (byte_of_Z_some ptype Hpt) as (tb & Et & Vt).
  unfold bind at 1. unfold py_bytes at 1. rewrite Et.
  unfold bind at 1. unfold ret at 1. unfold ret at 1.
  destruct (_be16_spec (Z.of_nat (length payload) + 2) w) as (lh & ll & El & Vlh & Vll).
  unfold bind at 1. rewrite El.
  cbn [app].
  unfold bind at 1.
  change (-2) with (- Z.of_nat 2).
  rewrite (py_getitem_neg _ 2 lh); [|simpl; lia|reflexivity].
  unfold bind at 1.
  change (-1) with (- Z.of_nat 1).
  rewrite (py_getitem_neg _ 1 ll); [|simpl; lia|reflexivity].
  rewrite land_65535.
  destruct (_be16_spec ((ptype + byte_to_Z lh + byte_to_Z ll + py_sum payload) mod 65536) w)
    as (ch & cl & Ec & Vch & Vcl).
  unfold bind at 1. rewrite Ec.
  eexists. split; [|reflexivity].
  exists a1, a2, a3, a4, tb, lh, ll, ch, cl. repeat split.
  - exact Vt.
  - rewrite Vlh, Vll. apply be16_split. lia.
  - rewrite Vch, Vcl. apply be16_split. apply Z.mod_pos_bound. lia.
Qed.

Lemma uart_write_spec (data : list byte) (w : World) :
  exists w', uart_write data w = (Ret tt, w') /\
             log w' = log w ++ [EvUartWrite (rx w) data] /\
             rx w' = rx w ++ hd [] (sensor w) /\
             net w' = net w.
Proof.
  unfold uart_write. destruct (sensor w) as [|reply more].
  - eexists. split; [reflexivity|]. wsimpl. rewrite app_nil_r. auto.
  - eexists. split; [reflexivity|]. wsimpl. auto.
Qed.

(* ------------------------------------------------------------------ *)
(** ** The packet codec: claims *)

(** C3.  [_read_packet] returns a [(type, payload)] pair only for bytes
    whose first two equal the start marker and whose trailing two-byte
    checksum equals the low 16 bits of type byte + length bytes + payload
    bytes.  When the nine header bytes arrive with a wrong marker the call
    raises "bad startcode"; when a whole frame arrives with a wrong
    checksum it raises "bad checksum"; neither returns a pair. *)
Theorem read_packet_checks_marker_and_checksum (b : nat) (t : Z) (w : World) :
  (forall ptype payload w',
      _read_packet b t w = (Ret (ptype, payload), w') ->
      exists h0 h1 a1 a2 a3 a4 tb lh ll ch cl,
        rx w = [h0; h1; a1; a2; a3; a4; tb; lh; ll] ++ payload ++ [ch; cl] ++ rx w' /\
        byte_to_Z h0 = Z.shiftr STARTCODE 8 /\
        byte_to_Z h1 = Z.land STARTCODE 0xFF /\
        byte_to_Z tb = ptype /\
        Z.lor (Z.shiftl (byte_to_Z ch) 8) (byte_to_Z cl)
        = Z.land (ptype + byte_to_Z lh + byte_to_Z ll + py_sum payload) 0xFFFF) /\
  (forall h0 h1 h2 h3 h4 h5 h6 h7 h8 more,
      rx w = [h0; h1; h2; h3; h4; h5; h6; h7; h8] ++ more ->
      byte_to_Z h0 <> Z.shiftr STARTCODE 8 \/ byte_to_Z h1 <> Z.land STARTCODE 0xFF ->
      _read_packet (S b) t w = (Raise (Exception "bad startcode"), set_rx more w)) /\
  (forall a1 a2 a3 a4 tb lh ll payload ch cl tail,
      rx w = [xef; x01; a1; a2; a3; a4; tb; lh; ll] ++ payload ++ [ch; cl] ++ tail ->
      Z.lor (Z.shiftl (byte_to_Z lh) 8) (byte_to_Z ll) = Z.of_nat (length payload) + 2 ->
      Z.lor (Z.shiftl (byte_to_Z ch) 8) (byte_to_Z cl)
      <> Z.land (byte_to_Z tb + byte_to_Z lh + byte_to_Z ll + py_sum payload) 0xFFFF ->
      _read_packet (S b) t w = (Raise (Exception "bad checksum"), set_rx tail w)).
Proof.
  split; [|split].
  - intros ptype payload w' E.
    apply _read_packet_inv in E. destruct E as [_ (bs & F & Hrx)].
    destruct F as (a1 & a2 & a3 & a4 & tb & lh & ll & ch & cl & -> & Ht & Hlen & Hcs).
    exists xef, x01, a1, a2, a3, a4, tb, lh, ll, ch, cl.
    rewrite Hrx, <- !app_assoc, be16_bytes, land_65535. auto.
  - intros h0 h1 h2 h3 h4 h5 h6 h7 h8 more Hrx Hbad.
    rewrite (_read_packet_header b t w h0 h1 h2 h3 h4 h5 h6 h7 h8 more Hrx).
    unfold marker_ok.
    change (Z.shiftr STARTCODE 8) with 0xEF in Hbad.
    change (Z.land STARTCODE 0xFF) with 0x01 in Hbad.
    destruct (byte_to_Z h0 =? 0xEF) eqn:M0; [|reflexivity].
    destruct (byte_to_Z h1 =? 0x01) eqn:M1; [|reflexivity].
    apply Z.eqb_eq in M0, M1. destruct Hbad; contradiction.
  - intros a1 a2 a3 a4 tb lh ll payload ch cl tail Hrx Hlen Hcs.
    rewrite (_read_packet_header b t w xef x01 a1 a2 a3 a4 tb lh ll
               (payload ++ [ch; cl] ++ tail) Hrx).
    change (marker_ok xef x01) with true. cbv iota.
    rewrite be16_bytes in Hlen, Hcs. rewrite land_65535 in Hcs.
    rewrite (packet_body_avail b t _ lh ll ch cl payload tail) by (auto).
    destruct (_ =? _) eqn:C.
    + apply Z.eqb_eq in C. contradiction.
    + destruct w; reflexivity.
Qed.

Lemma read_packet_checks_marker_and_checksum_witness :
  (exists h0 h1 a1 a2 a3 a4 tb lh ll ch cl,
      rx (world_rx ack_ok)
      = [h0; h1; a1; a2; a3; a4; tb; lh; ll] ++ [x00] ++ [ch; cl] ++ rx (world_rx []) /\
      byte_to_Z h0 = Z.shiftr STARTCODE 8 /\
      byte_to_Z h1 = Z.land STARTCODE 0xFF /\
      byte_to_Z tb = PACKET_ACK /\
      Z.lor (Z.shiftl (byte_to_Z ch) 8) (byte_to_Z cl)
      = Z.land (PACKET_ACK + byte_to_Z lh + byte_to_Z ll + py_sum [x00]) 0xFFFF) /\
  _read_packet 1 5000 (world_rx (xef :: x02 :: skipn 2 ack_ok))
  = (Raise (Exception "bad startcode"), world_rx [x00; x00; x0a]) /\
  _read_packet 1 5000 (world_rx (firstn 11 ack_ok ++ [x0b]))
  = (Raise (Exception "bad checksum"), world_rx []).
Proof.
  split; [|split].
  - apply (proj1 (read_packet_checks_marker_and_checksum 1 5000 (world_rx ack_ok))
             PACKET_ACK [x00] (world_rx [])).
    reflexivity.
  - apply (proj1 (proj2 (read_packet_checks_marker_and_checksum 0 5000
                           (world_rx (xef :: x02 :: skipn 2 ack_ok))))
             xef x02 xff xff xff xff x07 x00 x03 [x00; x00; x0a]).
    + reflexivity.
    + right. discriminate.
  - apply (proj2 (proj2 (read_packet_checks_marker_and_checksum 0 5000
                           (world_rx (firstn 11 ack_ok ++ [x0b]))))
             xff xff xff xff x07 x00 x03 [x00] x00 x0b []).
    + reflexivity.
    + reflexivity.
    + discriminate.
Defined.

(** C9.  The decoder is not total over headers with a valid marker: with a
    declared length of 0 it raises "timeout body" although nothing was
    missing (the header is consumed, no time passes); with a declared
    length of 1 it raises [IndexError] when it takes the checksum out of
    the one byte read; and whenever it returns a pair the declared length
    was at least 2. *)
Theorem read_packet_needs_length_two (b : nat) (t : Z) (w : World) :
  (forall a1 a2 a3 a4 tb tail,
      rx w = [xef; x01; a1; a2; a3; a4; tb; x00; x00] ++ tail ->
      _read_packet (S b) t w = (Raise (Exception "timeout body"), set_rx tail w)) /\
  (forall a1 a2 a3 a4 tb c tail,
      rx w = [xef; x01; a1; a2; a3; a4; tb; x00; x01] ++ c :: tail ->
      _read_packet (S b) t w = (Raise IndexError, set_rx tail w)) /\
  (forall ptype payload w',
      _read_packet b t w = (Ret (ptype, payload), w') ->
      exists h0 h1 h2 h3 h4 h5 h6 h7 h8 more,
        rx w = [h0; h1; h2; h3; h4; h5; h6; h7; h8] ++ more /\
        2 <= Z.lor (Z.shiftl (byte_to_Z h7) 8) (byte_to_Z h8)).
Proof.
  split; [|split].
  - intros a1 a2 a3 a4 tb tail Hrx.
    rewrite (_read_packet_header b t w xef x01 a1 a2 a3 a4 tb x00 x00 tail Hrx).
    change (marker_ok xef x01) with true. cbv iota.
    unfold packet_body. unfold bind at 1.
    rewrite _read_exact_zero by (vm_compute; discriminate).
    reflexivity.
  - intros a1 a2 a3 a4 tb c tail Hrx.
    rewrite (_read_packet_header b t w xef x01 a1 a2 a3 a4 tb x00 x01 (c :: tail) Hrx).
    change (marker_ok xef x01) with true. cbv iota.
    unfold packet_body. unfold bind at 1.
    change (Z.lor (Z.shiftl (byte_to_Z x00) 8) (byte_to_Z x01))
      with (Z.of_nat (length [c])).
    rewrite (_read_exact_avail b t [c] tail) by (reflexivity || discriminate).
    cbn [falsy bytes_of]. unfold bind at 1.
    rewrite py_getitem_short by (simpl; lia).
    destruct w; reflexivity.
  - intros ptype payload w' E.
    apply _read_packet_inv in E. destruct E as [_ (bs & F & Hrx)].
    destruct F as (a1 & a2 & a3 & a4 & tb & lh & ll & ch & cl & -> & Ht & Hlen & Hcs).
    exists xef, x01, a1, a2, a3, a4, tb, lh, ll, (payload ++ [ch; cl] ++ rx w').
    split.
    + rewrite Hrx, <- !app_assoc. reflexivity.
    + rewrite be16_bytes. lia.
Qed.

Lemma read_packet_needs_length_two_witness :
  _read_packet 1 5000 (world_rx [xef; x01; xff; xff; xff; xff; x07; x00; x00; x00; x07])
  = (Raise (Exception "timeout body"), world_rx [x00; x07]) /\
  _read_packet 1 5000 (world_rx [xef; x01; xff; xff; xff; xff; x07; x00; x01; x08])
  = (Raise IndexError, world_rx []) /\
  (exists h0 h1 h2 h3 h4 h5 h6 h7 h8 more,
      rx (world_rx ack_ok) = [h0; h1; h2; h3; h4; h5; h6; h7; h8] ++ more /\
      2 <= Z.lor (Z.shiftl (byte_to_Z h7) 8) (byte_to_Z h8)).
Proof.
  split; [|split].
  - apply (proj1 (read_packet_needs_length_two 0 5000
                    (world_rx [xef; x01; xff; xff; xff; xff; x07; x00; x00; x00; x07]))
             xff xff xff xff x07 [x00; x07]).
    reflexivity.
  - apply (proj1 (proj2 (read_packet_needs_length_two 0 5000
                    (world_rx [xef; x01; xff; xff; xff; xff; x07; x00; x01; x08])))
             xff xff xff xff x07 x08 []).
    reflexivity.
  - apply (proj2 (proj2 (read_packet_needs_length_two 1 5000 (world_rx ack_ok)))
             PACKET_ACK [x00] (world_rx [])).
    reflexivity.
Defined.

(** C4, as amended.  For an address of 32 bits, a packet type of one byte
    and a payload of at most 65533 bytes, [_write_packet] writes one frame
    and [_read_packet], given that frame, returns the same type and
    payload and consumes exactly the frame. *)
Theorem write_then_read_round_trip (address ptype : Z) (payload : list byte) (w : World) :
  0 <= address < 2 ^ 32 ->
  0 <= ptype < 256 ->
  Z.of_nat (length payload) <= 65533 ->
  exists frame w',
    _write_packet address ptype payload w = (Ret tt, w') /\
    log w' = log w ++ [EvUartWrite (rx w) frame] /\
    forall b t tail w2,
      rx w2 = frame ++ tail ->
      _read_packet (S b) t w2 = (Ret (ptype, payload), set_rx tail w2).
Proof.
  intros Haddr Hpt Hlen.
  destruct (_write_packet_frame address ptype payload w Haddr Hpt Hlen)
    as (frame & F & E).
  destruct (uart_write_spec frame w) as (w' & Ew & Hlog & _).
  exists frame, w'. split; [congruence|]. split; [exact Hlog|].
  intros b t tail w2 Hrx. eapply _read_packet_frame; eassumption.
Qed.

Lemma write_then_read_round_trip_witness :
  exists frame w',
    _write_packet SENSOR_ADDRESS PACKET_COMMAND [x0a] (world_rx []) = (Ret tt, w') /\
    log w' = log (world_rx []) ++ [EvUartWrite (rx (world_rx [])) frame] /\
    forall b t tail w2,
      rx w2 = frame ++ tail ->
      _read_packet (S b) t w2 = (Ret (PACKET_COMMAND, [x0a]), set_rx tail w2).
Proof.
  apply (write_then_read_round_trip SENSOR_ADDRESS PACKET_COMMAND [x0a] (world_rx [])).
  - vm_compute. split; [discriminate|reflexivity].
  - vm_compute. split; [discriminate|reflexivity].
  - vm_compute. discriminate.
Defined.

(** C4 as stated does not hold for every payload: a payload of 65534 bytes
    is written with a length field of 0, and decoding the bytes written
    raises "timeout body" instead of returning the pair. *)
Lemma round_trip_fails_for_long_payload :
  fst (_write_packet SENSOR_ADDRESS PACKET_COMMAND long_payload (world_rx [])) = Ret tt /\
  firstn 9 long_frame = [xef; x01; xff; xff; xff; xff; x01; x00; x00] /\
  fst (_read_packet 3 5000 (world_rx long_frame)) = Raise (Exception "timeout body").
Proof.
  split; [|split]; vm_compute; reflexivity.
Qed.

(* ------------------------------------------------------------------ *)
(** ** The streaming bridge *)

Lemma net_op_ok (w : World) :
  hd true (net w) = true -> net_op w = (Ret tt, pop_net w).
Proof.
  unfold net_op, pop_net. destruct w as [c r s p co n ns cc l]; simpl.
  destruct n as [|[|] n]; simpl; intros E; try discriminate; reflexivity.
Qed.

Lemma sock_send_ok (s : nat) (data : list byte) (w : World) :
  hd true (net w) = true ->
  sock_send s data w = (Ret tt, emit (EvSendBody s data) (pop_net w)).
Proof.
  intros E. unfold sock_send, bind. rewrite (net_op_ok w E). reflexivity.
Qed.

(** The command is written as one frame; the sensor's answer joins the
    receive buffer; the rest of the call runs from there. *)
Lemma stream_command (n : nat) (address : Z) (sock : nat) (w : World) :
  0 <= address < 2 ^ 32 ->
  exists cmd w1,
    stream_upimage_to_http n address sock w = after_command n sock w1 /\
    log w1 = log w ++ [EvUartWrite (rx w) cmd] /\
    rx w1 = rx w ++ hd [] (sensor w) /\
    net w1 = net w.
Proof.
  intros Haddr.
  destruct (_write_packet_frame address PACKET_COMMAND [x0a] w Haddr)
    as (cmd & _ & E); [vm_compute; split; congruence|vm_compute; congruence|].
  destruct (uart_write_spec cmd w) as (w1 & Ew & Hlog & Hrx & Hnet).
  exists cmd, w1. split; [|auto].
  change (stream_upimage_to_http n address sock)
    with (c <- py_bytes [CMD_DOWNLOADIMAGE] ;;
          _write_packet address PACKET_COMMAND c ;;
          after_command n sock).
  unfold bind at 1. change (py_bytes [CMD_DOWNLOADIMAGE] w) with (@Ret (list byte) [x0a], w).
  cbv iota beta. unfold bind at 1. rewrite E, Ew. reflexivity.
Qed.

(** The first reply decides: anything but an ACK whose payload starts with
    0 is refused with the NACK exception; an ACK whose payload starts with
    0 opens the data loop. *)
Lemma after_command_reply (b : nat) (sock : nat) (w : World)
    (bs tail : list byte) (ptype : Z) (payload : list byte) :
  wire_frame bs ptype payload ->
  rx w = bs ++ tail ->
  after_command (S b) sock w
  = if (ptype =? PACKET_ACK) && (nack_code payload =? 0)
    then stream_loop (S b) (S b) sock 0 (set_rx tail w)
    else (Raise (Exception ("UpImage NACK code=" ++ fmt_02X (nack_code payload))),
          set_rx tail w).
Proof.
  intros F Hrx. unfold after_command. unfold bind at 1.
  rewrite (_read_packet_frame b 5000 bs tail ptype payload w F Hrx).
  cbn [fst snd].
  destruct (ptype =? PACKET_ACK); cbn [negb andb].
  - destruct payload as [|c payload]; [reflexivity|].
    unfold bind at 1. unfold bind at 1.
    rewrite (py_getitem_nth (c :: payload) 0 c) by reflexivity.
    unfold ret at 1. cbn [nack_code].
    destruct (byte_to_Z c =? 0); cbn [negb]; [reflexivity|].
    unfold bind at 1.
    rewrite (py_getitem_nth (c :: payload) 0 c) by reflexivity. reflexivity.
  - unfold bind at 1. unfold ret at 1.
    destruct payload as [|c payload]; [reflexivity|].
    unfold bind at 1.
    rewrite (py_getitem_nth (c :: payload) 0 c) by reflexivity. reflexivity.
Qed.

(** One DATA frame at the head of the receive buffer is forwarded, and the
    loop goes on. *)
Lemma stream_loop_data (k inner sock : nat) (sent : Z) (w : World)
    (bs rest payload : list byte) :
  wire_frame bs PACKET_DATA payload ->
  rx w = bs ++ rest ->
  hd true (net w) = true ->
  stream_loop (S k) (S inner) sock sent w
  = stream_loop k (S inner) sock (sent + Z.of_nat (length payload))
      (emit (EvSendBody sock payload) (pop_net (set_rx rest w))).
Proof.
  intros F Hrx Hnet. cbn [stream_loop]. unfold bind at 1.
  rewrite (_read_packet_frame inner 5000 bs rest PACKET_DATA payload w F Hrx).
  cbn [fst snd]. change (PACKET_DATA =? PACKET_DATA) with true.
  cbn [orb negb]. unfold bind at 1.
  rewrite sock_send_ok by exact Hnet.
  reflexivity.
Qed.

(** A DATA_END frame is forwarded and ends the loop. *)
Lemma stream_loop_end (k inner sock : nat) (sent : Z) (w : World)
    (bs rest payload : list byte) :
  wire_frame bs PACKET_DATA_END payload ->
  rx w = bs ++ rest ->
  hd true (net w) = true ->
  stream_loop (S k) (S inner) sock sent w
  = (Ret (sent + Z.of_nat (length payload)),
     emit (EvSendBody sock payload) (pop_net (set_rx rest w))).
Proof.
  intros F Hrx Hnet. cbn [stream_loop]. unfold bind at 1.
  rewrite (_read_packet_frame inner 5000 bs rest PACKET_DATA_END payload w F Hrx).
  cbn [fst snd]. change (PACKET_DATA_END =? PACKET_DATA) with false.
  change (PACKET_DATA_END =? PACKET_DATA_END) with true.
  cbn [orb negb]. unfold bind at 1.
  rewrite sock_send_ok by exact Hnet.
  reflexivity.
Qed.

(** A frame of any other type ends the call with the unexpected-packet
    exception, and nothing of it is forwarded. *)
Lemma stream_loop_other (k inner sock : nat) (sent : Z) (w : World)
    (bs rest payload : list byte) (ptype : Z) :
  wire_frame bs ptype payload ->
  rx w = bs ++ rest ->
  ptype <> PACKET_DATA -> ptype <> PACKET_DATA_END ->
  stream_loop (S k) (S inner) sock sent w
  = (Raise (Exception ("unexpected packet " ++ fmt_02X ptype)), set_rx rest w).
Proof.
  intros F Hrx H1 H2. cbn [stream_loop]. unfold bind at 1.
  rewrite (_read_packet_frame inner 5000 bs rest ptype payload w F Hrx).
  cbn [fst snd].
  apply Z.eqb_neq in H1, H2. rewrite H1, H2. reflexivity.
Qed.

(** A run of DATA frames is forwarded payload by payload. *)
Lemma stream_loop_run (inner sock : nat) (frames : list (list byte * list byte)) :
  forall (k : nat) (sent : Z) (w : World) (rest : list byte),
    Forall (fun f => wire_frame (fst f) PACKET_DATA (snd f)) frames ->
    rx w = concat (map fst frames) ++ rest ->
    Forall (eq true) (firstn (length frames) (net w)) ->
    exists w1,
      stream_loop (length frames + k) (S inner) sock sent w
      = stream_loop k (S inner) sock (sent + total_length (map snd frames)) w1 /\
      log w1 = log w ++ map (EvSendBody sock) (map snd frames) /\
      rx w1 = rest /\
      net w1 = skipn (length frames) (net w).
Proof.
  induction frames as [|[bs p] frames IH]; intros k sent w rest HF Hrx Hnet.
  - exists w. simpl. rewrite Z.add_0_r, app_nil_r. auto.
  - inversion HF as [|? ? F1 HF']; subst. cbn [fst snd] in F1.
    cbn [map concat fst] in Hrx. rewrite <- app_assoc in Hrx.
    assert (Hhd : hd true (net w) = true).
    { destruct (net w) as [|x ?]; [reflexivity|].
      simpl in Hnet. inversion Hnet; subst. reflexivity. }
    cbn [length plus].
    rewrite (stream_loop_data _ inner sock sent w bs _ p F1 Hrx Hhd).
    destruct (IH k (sent + Z.of_nat (length p))
                (emit (EvSendBody sock p) (pop_net (set_rx (concat (map fst frames) ++ rest) w)))
                rest HF') as (w1 & E & Hlog & Hrx1 & Hnet1).
    + reflexivity.
    + wsimpl. unfold pop_net. wsimpl.
      destruct (net w) as [|x l]; [destruct (length frames); constructor|].
      simpl in Hnet. inversion Hnet; subst. assumption.
    + exists w1. split; [|split; [|split]].
      * rewrite E. cbn [map snd total_length fold_right].
        unfold total_length. f_equal. lia.
      * rewrite Hlog. wsimpl. unfold pop_net. wsimpl.
        cbn [map snd]. rewrite <- app_assoc. reflexivity.
      * exact Hrx1.
      * rewrite Hnet1. unfold pop_net. wsimpl.
        destruct (net w); [destruct (length frames); reflexivity|reflexivity].
Qed.

Lemma sink_sends (sock : nat) (ps : list (list byte)) :
  sink sock (map (EvSendBody sock) ps) = concat ps.
Proof.
  unfold sink. induction ps as [|p ps IH]; [reflexivity|].
  cbn [map flat_map concat]. rewrite Nat.eqb_refl, IH. reflexivity.
Qed.

Lemma firstn_true_S (n : nat) (l : list bool) :
  Forall (eq true) (firstn (S n) l) ->
  Forall (eq true) (firstn n l) /\ hd true (skipn n l) = true.
Proof.
  revert l. induction n as [|n IH]; intros l Hl.
  - split; [constructor|]. destruct l; [reflexivity|].
    simpl in Hl. inversion Hl; subst. reflexivity.
  - destruct l as [|x l]; [split; [constructor|reflexivity]|].
    change (firstn (S (S n)) (x :: l)) with (x :: firstn (S n) l) in Hl.
    inversion Hl; subst. destruct (IH l) as [A B]; [assumption|].
    split; [simpl; constructor; auto|exact B].
Qed.

Lemma total_length_snoc (ps : list (list byte)) (p : list byte) :
  total_length (ps ++ [p]) = total_length ps + Z.of_nat (length p).
Proof.
  unfold total_length. induction ps as [|q ps IH]; cbn [app fold_right]; lia.
Qed.

(** C2.  After an ACK whose status byte is 0, a run of DATA frames closed
    by one DATA_END frame is relayed whole: the call returns the sum of the
    payload lengths, the request body receives the payloads concatenated in
    arrival order, and the bytes behind the DATA_END frame stay unread.  If
    instead of the closing frame a frame of another type arrives, the call
    raises the unexpected-packet exception, having forwarded the DATA
    payloads before it. *)
Theorem stream_relays_payloads_in_order
    (b : nat) (address : Z) (sock : nat) (w : World)
    (ack ack_rest : list byte) (frames : list (list byte * list byte))
    (last_bs last_p tail : list byte) (last_type : Z) :
  0 <= address < 2 ^ 32 ->
  wire_frame ack PACKET_ACK (x00 :: ack_rest) ->
  Forall (fun f => wire_frame (fst f) PACKET_DATA (snd f)) frames ->
  wire_frame last_bs last_type last_p ->
  rx w ++ hd [] (sensor w) = ack ++ concat (map fst frames) ++ last_bs ++ tail ->
  Forall (eq true) (firstn (S (length frames)) (net w)) ->
  (length frames <= b)%nat ->
  (last_type = PACKET_DATA_END ->
   exists cmd w',
     stream_upimage_to_http (S b) address sock w
     = (Ret (total_length (map snd frames ++ [last_p])), w') /\
     log w' = log w ++ EvUartWrite (rx w) cmd
                       :: map (EvSendBody sock) (map snd frames ++ [last_p]) /\
     sink sock (log w') = sink sock (log w) ++ concat (map snd frames ++ [last_p]) /\
     rx w' = tail) /\
  (last_type <> PACKET_DATA -> last_type <> PACKET_DATA_END ->
   exists cmd w',
     stream_upimage_to_http (S b) address sock w
     = (Raise (Exception ("unexpected packet " ++ fmt_02X last_type)), w') /\
     log w' = log w ++ EvUartWrite (rx w) cmd
                       :: map (EvSendBody sock) (map snd frames) /\
     sink sock (log w') = sink sock (log w) ++ concat (map snd frames) /\
     rx w' = tail).
Proof.
  intros Haddr Fack Fdata Flast Hrx Hnet Hb.
  destruct (stream_command (S b) address sock w Haddr)
    as (cmd & w1 & E & Hlog1 & Hrx1 & Hnet1).
  rewrite Hrx in Hrx1.
  rewrite E, (after_command_reply b sock w1 ack _ PACKET_ACK (x00 :: ack_rest) Fack Hrx1).
  change ((PACKET_ACK =? PACKET_ACK) && (nack_code (x00 :: ack_rest) =? 0)) with true.
  cbv iota.
  destruct (firstn_true_S _ _ Hnet) as [Hnet_run Hnet_last].
  destruct (stream_loop_run b sock frames (S (b - length frames)) 0
              (set_rx (concat (map fst frames) ++ last_bs ++ tail) w1)
              (last_bs ++ tail) Fdata)
    as (w2 & E2 & Hlog2 & Hrx2 & Hnet2).
  { reflexivity. }
  { wsimpl. rewrite Hnet1. exact Hnet_run. }
  replace (length frames + S (b - length frames))%nat with (S b) in E2 by lia.
  rewrite E2. wsimpl. rewrite Hnet1 in Hnet2. rewrite Hlog1 in Hlog2.
  assert (Hsink : forall ps,
             sink sock ((log w ++ [EvUartWrite (rx w) cmd]) ++ map (EvSendBody sock) ps)
             = sink sock (log w) ++ concat ps).
  { intros ps. unfold sink. rewrite !flat_map_app. fold (sink sock (log w)).
    fold (sink sock (map (EvSendBody sock) ps)). rewrite sink_sends.
    cbn [flat_map]. rewrite !app_nil_r. reflexivity. }
  split.
  - intros ->.
    rewrite (stream_loop_end _ b sock _ w2 last_bs tail last_p Flast Hrx2)
      by (rewrite Hnet2; exact Hnet_last).
    eexists cmd, _. split; [|split; [|split]].
    + rewrite total_length_snoc, Z.add_0_l. reflexivity.
    + wsimpl. unfold pop_net. wsimpl. rewrite Hlog2, map_app.
      cbn [map]. rewrite <- !app_assoc. reflexivity.
    + wsimpl. unfold pop_net. wsimpl. rewrite Hlog2.
      rewrite <- (Hsink (map snd frames ++ [last_p])), map_app.
      cbn [map]. rewrite <- !app_assoc. reflexivity.
    + reflexivity.
  - intros H1 H2.
    rewrite (stream_loop_other _ b sock _ w2 last_bs tail last_p last_type Flast Hrx2 H1 H2).
    eexists cmd, _. split; [reflexivity|]. wsimpl. rewrite Hlog2. split; [|split].
    + rewrite <- app_assoc. reflexivity.
    + apply Hsink.
    + reflexivity.
Qed.

(** Shows that concrete bytes are a well-formed frame. *)
Ltac frame_tac :=
  unfold wire_frame; do 9 eexists; split; [reflexivity|repeat split].

Lemma stream_relays_payloads_in_order_witness :
  (exists cmd w',
      stream_upimage_to_http 2 SENSOR_ADDRESS 0
        (world_sensor (ack_ok ++ data_11_22 ++ data_end_33 ++ [x55]))
      = (Ret 3, w') /\
      log w' = [] ++ EvUartWrite [] cmd :: [EvSendBody 0 [x11; x22]; EvSendBody 0 [x33]] /\
      sink 0 (log w') = [] ++ [x11; x22; x33] /\
      rx w' = [x55]) /\
  (exists cmd w',
      stream_upimage_to_http 2 SENSOR_ADDRESS 0
        (world_sensor (ack_ok ++ data_11_22 ++ nack_01 ++ [x55]))
      = (Raise (Exception "unexpected packet 07"), w') /\
      log w' = [] ++ EvUartWrite [] cmd :: [EvSendBody 0 [x11; x22]] /\
      sink 0 (log w') = [] ++ [x11; x22] /\
      rx w' = [x55]).
Proof.
  split.
  - apply (proj1 (stream_relays_payloads_in_order 1 SENSOR_ADDRESS 0
                    (world_sensor (ack_ok ++ data_11_22 ++ data_end_33 ++ [x55]))
                    ack_ok [] [(data_11_22, [x11; x22])] data_end_33 [x33] [x55]
                    PACKET_DATA_END
                    ltac:(vm_compute; split; congruence)
                    ltac:(frame_tac)
                    ltac:(repeat constructor; frame_tac)
                    ltac:(frame_tac)
                    ltac:(reflexivity)
                    ltac:(constructor)
                    ltac:(simpl; lia))).
    reflexivity.
  - apply (proj2 (stream_relays_payloads_in_order 1 SENSOR_ADDRESS 0
                    (world_sensor (ack_ok ++ data_11_22 ++ nack_01 ++ [x55]))
                    ack_ok [] [(data_11_22, [x11; x22])] nack_01 [x01] [x55]
                    PACKET_ACK
                    ltac:(vm_compute; split; congruence)
                    ltac:(frame_tac)
                    ltac:(repeat constructor; frame_tac)
                    ltac:(frame_tac)
                    ltac:(reflexivity)
                    ltac:(constructor)
                    ltac:(simpl; lia))).
    + discriminate.
    + discriminate.
Defined.

(** C5, as amended.  The first reply to the download command decides the
    call.  Only an ACK whose payload starts with 0x00 lets the data loop
    start.  Every other reply - an ACK with another first payload byte, an
    ACK without payload, or a frame of another type - ends the call with
    the same exception, "UpImage NACK code=XX", where XX is the first
    payload byte (or -1 for an empty payload), and nothing is forwarded to
    the request body. *)
Theorem first_reply_decides (b : nat) (address : Z) (sock : nat) (w : World)
    (bs tail : list byte) (ptype : Z) (payload : list byte) :
  0 <= address < 2 ^ 32 ->
  wire_frame bs ptype payload ->
  rx w ++ hd [] (sensor w) = bs ++ tail ->
  exists cmd w1,
    log w1 = log w ++ [EvUartWrite (rx w) cmd] /\
    sink sock (log w1) = sink sock (log w) /\
    rx w1 = tail /\
    (ptype = PACKET_ACK /\ nack_code payload = 0x00 ->
     stream_upimage_to_http (S b) address sock w = stream_loop (S b) (S b) sock 0 w1) /\
    (ptype <> PACKET_ACK \/ nack_code payload <> 0x00 ->
     stream_upimage_to_http (S b) address sock w
     = (Raise (Exception ("UpImage NACK code=" ++ fmt_02X (nack_code payload))), w1)).
Proof.
  intros Haddr F Hrx.
  destruct (stream_command (S b) address sock w Haddr)
    as (cmd & w1 & E & Hlog1 & Hrx1 & Hnet1).
  rewrite Hrx in Hrx1.
  rewrite E, (after_command_reply b sock w1 bs tail ptype payload F Hrx1).
  exists cmd, (set_rx tail w1). wsimpl. split; [exact Hlog1|]. split.
  { rewrite Hlog1. unfold sink. rewrite flat_map_app. cbn [flat_map].
    rewrite !app_nil_r. reflexivity. }
  split; [reflexivity|]. split.
  - intros [-> ->]. reflexivity.
  - intros Hbad.
    destruct (ptype =? PACKET_ACK) eqn:E1; [|reflexivity].
    destruct (nack_code payload =? 0) eqn:E2; [|reflexivity].
    apply Z.eqb_eq in E1, E2. destruct Hbad; contradiction.
Qed.

Lemma first_reply_decides_witness :
  (exists cmd w1,
      log w1 = log (world_sensor nack_01) ++ [EvUartWrite [] cmd] /\
      sink 0 (log w1) = [] /\
      stream_upimage_to_http 1 SENSOR_ADDRESS 0 (world_sensor nack_01)
      = (Raise (Exception "UpImage NACK code=01"), w1)) /\
  (exists cmd w1,
      log w1 = log (world_sensor ack_ok) ++ [EvUartWrite [] cmd] /\
      stream_upimage_to_http 1 SENSOR_ADDRESS 0 (world_sensor ack_ok)
      = stream_loop 1 1 0 0 w1).
Proof.
  split.
  - destruct (first_reply_decides 0 SENSOR_ADDRESS 0 (world_sensor nack_01)
                nack_01 [] PACKET_ACK [x01])
      as (cmd & w1 & Hlog & Hsink & _ & _ & Hbad).
    + vm_compute. split; congruence.
    + frame_tac.
    + reflexivity.
    + exists cmd, w1. split; [exact Hlog|]. split; [exact Hsink|].
      apply Hbad. right. discriminate.
  - destruct (first_reply_decides 0 SENSOR_ADDRESS 0 (world_sensor ack_ok)
                ack_ok [] PACKET_ACK [x00])
      as (cmd & w1 & Hlog & _ & _ & Hgo & _).
    + vm_compute. split; congruence.
    + frame_tac.
    + reflexivity.
    + exists cmd, w1. split; [exact Hlog|].
      apply Hgo. split; reflexivity.
Defined.

(** C5 as stated does not hold for a reply of another type: a DATA frame
    in place of the ACK raises the very exception a refusing ACK with the
    same payload raises, not an unexpected-type one. *)
Lemma non_ack_reply_raises_nack_exception :
  fst (stream_upimage_to_http 1 SENSOR_ADDRESS 0 (world_sensor data_01))
  = Raise (Exception "UpImage NACK code=01") /\
  fst (stream_upimage_to_http 1 SENSOR_ADDRESS 0 (world_sensor nack_01))
  = Raise (Exception "UpImage NACK code=01").
Proof.
  split; vm_compute; reflexivity.
Qed.

(** C10.  An ACK with an empty payload in reply to the download command
    ends the call with the NACK exception reporting code -1 (the payload
    is not indexed), and nothing is forwarded to the request body. *)
Theorem empty_ack_reports_minus_one (b : nat) (address : Z) (sock : nat) (w : World)
    (bs tail : list byte) :
  0 <= address < 2 ^ 32 ->
  wire_frame bs PACKET_ACK [] ->
  rx w ++ hd [] (sensor w) = bs ++ tail ->
  exists cmd w',
    stream_upimage_to_http (S b) address sock w
    = (Raise (Exception "UpImage NACK code=-1"), w') /\
    log w' = log w ++ [EvUartWrite (rx w) cmd] /\
    sink sock (log w') = sink sock (log w).
Proof.
  intros Haddr F Hrx.
  destruct (stream_command (S b) address sock w Haddr)
    as (cmd & w1 & E & Hlog1 & Hrx1 & Hnet1).
  rewrite Hrx in Hrx1.
  rewrite E, (after_command_reply b sock w1 bs tail PACKET_ACK [] F Hrx1).
  exists cmd, (set_rx tail w1). wsimpl. split; [reflexivity|]. split; [exact Hlog1|].
  rewrite Hlog1. unfold sink. rewrite flat_map_app. cbn [flat_map].
  rewrite !app_nil_r. reflexivity.
Qed.

Lemma empty_ack_reports_minus_one_witness :
  exists cmd w',
    stream_upimage_to_http 1 SENSOR_ADDRESS 0 (world_sensor ack_empty)
    = (Raise (Exception "UpImage NACK code=-1"), w') /\
    log w' = log (world_sensor ack_empty)
             ++ [EvUartWrite (rx (world_sensor ack_empty)) cmd] /\
    sink 0 (log w') = sink 0 (log (world_sensor ack_empty)).
Proof.
  apply (empty_ack_reports_minus_one 0 SENSOR_ADDRESS 0 (world_sensor ack_empty)
           ack_empty []).
  - vm_compute. split; congruence.
  - frame_tac.
  - reflexivity.
Defined.

(* ------------------------------------------------------------------ *)
(** ** What a computation adds to the log *)

Lemma grows_same (P : event -> Prop) (w w' : World) :
  log w' = log w -> grows P w w'.
Proof. intros E. exists []. rewrite app_nil_r. auto. Qed.

Lemma grows_refl (P : event -> Prop) (w : World) : grows P w w.
Proof. apply grows_same. reflexivity. Qed.

Lemma grows_trans (P : event -> Prop) (w1 w2 w3 : World) :
  grows P w1 w2 -> grows P w2 w3 -> grows P w1 w3.
Proof.
  intros (n1 & E1 & F1) (n2 & E2 & F2). exists (n1 ++ n2).
  rewrite E2, E1, app_assoc. split; [reflexivity|]. apply Forall_app; auto.
Qed.

Lemma grows_weaken (P Q : event -> Prop) (w w' : World) :
  (forall e, P e -> Q e) -> grows P w w' -> grows Q w w'.
Proof.
  intros HPQ (new & E & F). exists new. split; [exact E|].
  eapply Forall_impl; eassumption.
Qed.

Lemma grows_emit_after (P : event -> Prop) (e : event) (w w1 : World) :
  log w1 = log w -> P e -> grows P w (emit e w1).
Proof.
  intros E He. exists [e]. wsimpl. rewrite E. split; [reflexivity|].
  constructor; auto.
Qed.

Lemma grows_emit (P : event -> Prop) (e : event) (w : World) :
  P e -> grows P w (emit e w).
Proof. apply grows_emit_after. reflexivity. Qed.

Lemma grows_uart_only (P : event -> Prop) (w w' : World) :
  uart_only w w' -> grows P w w'.
Proof. intros U. apply grows_same. apply (uart_only_fields w w' U). Qed.

Section Emits.
Variable P : event -> Prop.

Lemma emits_ret {A} (a : A) : emits P (ret a).
Proof. intros w. apply grows_refl. Qed.

Lemma emits_raise {A} (e : exn) : emits P (@raise A e).
Proof. intros w. apply grows_refl. Qed.

Lemma emits_diverge {A} : emits P (@diverge A).
Proof. intros w. apply grows_refl. Qed.

Lemma emits_get {A} (f : World -> A) : emits P (get f).
Proof. intros w. apply grows_refl. Qed.

Lemma emits_bind {A B} (m : M A) (k : A -> M B) :
  emits P m -> (forall a, emits P (k a)) -> emits P (bind m k).
Proof.
  intros Hm Hk w. unfold bind. specialize (Hm w).
  destruct (m w) as [[a|e|] w1]; cbn [snd] in *; try exact Hm.
  eapply grows_trans; [exact Hm|apply Hk].
Qed.

Lemma emits_try {A} (m : M A) : emits P m -> emits P (try_ m).
Proof.
  intros Hm w. unfold try_. specialize (Hm w).
  destruct (m w) as [[a|e|] w1]; exact Hm.
Qed.

Lemma emits_sleep (d : Z) : emits P (sleep_ms d).
Proof. intros w. apply grows_same. reflexivity. Qed.

Lemma emits_ticks : emits P ticks_ms.
Proof. apply emits_get. Qed.

Lemma emits_print (m : message) : P (EvPrint m) -> emits P (print m).
Proof. intros H w. apply grows_emit. exact H. Qed.

Lemma emits_readImage : (forall b, P (EvProbe b)) -> emits P readImage.
Proof.
  intros H w. unfold readImage.
  destruct (probes w); apply grows_emit_after; solve [reflexivity|apply H].
Qed.

Lemma emits_read_cmd_nb : (forall c, P (EvPoll c)) -> emits P read_cmd_nb.
Proof.
  intros H w. unfold read_cmd_nb.
  destruct (console w); apply grows_emit_after; solve [reflexivity|apply H].
Qed.

Lemma emits_net_op : emits P net_op.
Proof.
  intros w. unfold net_op. destruct (net w) as [|[|] ?];
    apply grows_same; reflexivity.
Qed.

Lemma emits_socket_new : emits P socket_new.
Proof. intros w. apply grows_same. reflexivity. Qed.

Lemma emits_sock_connect (s : nat) :
  (forall ok, P (EvConnect s ok)) -> emits P (sock_connect s).
Proof.
  intros H w. unfold sock_connect, net_op.
  destruct (net w) as [|[|] ?]; cbn [snd];
    apply grows_emit_after; solve [reflexivity|apply H].
Qed.

Lemma emits_sock_send_head (s : nat) (lines : list string) :
  P (EvSendHead s lines) -> emits P (sock_send_head s lines).
Proof.
  intros H. apply emits_bind; [apply emits_net_op|].
  intros _ w. apply grows_emit. exact H.
Qed.

Lemma emits_sock_send (s : nat) (data : list byte) :
  P (EvSendBody s data) -> emits P (sock_send s data).
Proof.
  intros H. apply emits_bind; [apply emits_net_op|].
  intros _ w. apply grows_emit. exact H.
Qed.

Lemma emits_sock_close (s : nat) : P (EvClose s) -> emits P (sock_close s).
Proof. intros H w. apply grows_emit. exact H. Qed.

Lemma emits_uart_any : emits P uart_any.
Proof. apply emits_get. Qed.

Lemma emits_uart_read_all : emits P uart_read_all.
Proof.
  intros w. unfold uart_read_all. destruct (rx w); apply grows_same; reflexivity.
Qed.

Lemma emits_read_packet (b : nat) (t : Z) : emits P (_read_packet b t).
Proof.
  intros w. destruct (_read_packet b t w) as [r w'] eqn:E.
  apply _read_packet_inv in E. apply grows_uart_only. apply E.
Qed.

Lemma emits_py_getitem (bs : list byte) (i : Z) : emits P (py_getitem bs i).
Proof.
  intros w. unfold py_getitem.
  destruct (_ && _); [destruct (nth_error _ _)|]; apply grows_refl.
Qed.
End Emits.

(** One step of structural reasoning about [emits]. *)
Ltac emits_step :=
  first
    [ apply emits_ret | apply emits_raise | apply emits_diverge
    | apply emits_sleep | apply emits_ticks | apply emits_get
    | apply emits_net_op | apply emits_socket_new
    | apply emits_uart_any | apply emits_uart_read_all
    | apply emits_read_packet | apply emits_py_getitem
    | apply emits_try
    | apply emits_print; solve [simpl; auto]
    | apply emits_readImage; solve [intros; simpl; auto]
    | apply emits_read_cmd_nb; solve [intros; simpl; auto]
    | apply emits_sock_connect; solve [intros; simpl; auto]
    | apply emits_sock_send_head; solve [simpl; auto]
    | apply emits_sock_send; solve [simpl; auto]
    | apply emits_sock_close; solve [simpl; auto]
    | apply emits_bind; [|intros ?]
    | match goal with
      | |- emits _ (if ?c then _ else _) => destruct c
      | |- emits _ (match ?x with _ => _ end) => destruct x
      end ].

Lemma ensure_idle_loop_emits (n : nat) :
  forall q start, emits probe_event (ensure_idle_loop n q start).
Proof.
  induction n as [|n IH]; intros q start; cbn [ensure_idle_loop].
  - emits_step.
  - repeat (emits_step; try apply IH).
Qed.

Lemma ensure_idle_emits (n : nat) (q : Z) : emits probe_event (ensure_idle n q).
Proof. apply ensure_idle_loop_emits. Qed.

Lemma ensure_idle_loop_no_raise (n : nat) :
  forall q start w, no_raise (fst (ensure_idle_loop n q start w)).
Proof.
  induction n as [|n IH]; intros q start w; cbn [ensure_idle_loop]; [exact I|].
  unfold bind at 1. unfold readImage.
  destruct (probes w) as [|[[|] ? ?] ?]; cbn [negb present];
    unfold bind, sleep_ms, modify, ticks_ms, get, ret;
    try apply IH;
    destruct start; cbn -[Z.geb ensure_idle_loop];
    match goal with |- context [if ?c then _ else _] => destruct c end;
    try exact I; apply IH.
Qed.

Lemma wait_for_lift_loop_emits (n : nat) :
  forall t t0, emits idle_event (wait_for_lift_loop n t t0).
Proof.
  induction n as [|n IH]; intros t t0; cbn [wait_for_lift_loop].
  - emits_step.
  - repeat (emits_step; try apply IH).
Qed.

Lemma wait_for_lift_emits (n : nat) (t : Z) : emits idle_event (wait_for_lift n t).
Proof.
  unfold wait_for_lift. repeat (emits_step; try apply wait_for_lift_loop_emits).
Qed.

Lemma wait_for_lift_loop_no_raise (n : nat) :
  forall t t0 w, no_raise (fst (wait_for_lift_loop n t t0 w)).
Proof.
  induction n as [|n IH]; intros t t0 w; cbn [wait_for_lift_loop]; [exact I|].
  unfold bind at 1. unfold readImage.
  destruct (probes w) as [|[[|] ? ?] ?]; cbn [negb present]; try exact I.
  unfold bind, sleep_ms, modify, ticks_ms, get, print, ret.
  cbn -[Z.gtb wait_for_lift_loop].
  match goal with |- context [if ?c then _ else _] => destruct c end;
    [exact I|apply IH].
Qed.

(** [flush_uart] leaves the receive buffer empty and the log alone. *)
Lemma flush_uart_spec (n : nat) (w : World) :
  log (snd (flush_uart n w)) = log w /\
  match fst (flush_uart n w) with
  | Ret _ => rx (snd (flush_uart n w)) = []
  | Raise _ => False
  | Diverge => True
  end.
Proof.
  unfold flush_uart, bind, try_.
  assert (H : forall n w,
             log (snd (flush_uart_loop n w)) = log w /\
             match fst (flush_uart_loop n w) with
             | Ret _ => rx (snd (flush_uart_loop n w)) = []
             | Raise _ => False
             | Diverge => True
             end).
  { clear. induction n as [|n IH]; intros w; cbn [flush_uart_loop];
      unfold bind, uart_any, get, uart_read_all;
      destruct (rx w) as [|x xs] eqn:Hrx; cbn -[flush_uart_loop];
      rewrite ?Hrx; cbn -[flush_uart_loop]; auto.
    destruct (IH (set_rx [] w)) as [A B]. split; [exact A|exact B]. }
  specialize (H n w).
  destruct (flush_uart_loop n w) as [[[]|e|] w1]; cbn [fst snd] in *; tauto.
Qed.

(* ------------------------------------------------------------------ *)
(** ** Waiting for the finger *)


Lemma polling_cycles_idle (cs : list (option string)) :
  no_stop cs -> Forall idle_event (polling_cycles cs).
Proof.
  induction 1 as [|c cs Hc _ IH]; [constructor|].
  cbn [polling_cycles flat_map app]. constructor; [exact I|].
  constructor; [exact Hc|exact IH].
Qed.

(** The polling loop: cycles that found no finger and no stop command,
    closed by a probe that found the finger, or by a cycle that sampled a
    stop command. *)
Lemma wait_for_finger_loop_shape (n : nat) :
  forall w,
  exists cs,
    no_stop cs /\
    match wait_for_finger_loop n (Some read_cmd_nb) w with
    | (Ret st, w') =>
        (st = ("ok", None) /\
         log w' = log w ++ polling_cycles cs ++ [EvProbe true; EvPrint MsgCaptured]) \/
        (exists c, st = ("abort", c) /\ is_stop_cmd c = true /\
                   log w' = log w ++ polling_cycles cs ++ [EvProbe false; EvPoll c])
    | (Raise _, _) => False
    | (Diverge, w') => log w' = log w ++ polling_cycles cs
    end.
Proof.
  induction n as [|n IH]; intros w; cbn [wait_for_finger_loop].
  - exists []. split; [constructor|]. unfold diverge. cbn. rewrite app_nil_r. reflexivity.
  - unfold bind at 1.
    assert (Hprobe : exists p w1, readImage w = (Ret p, w1) /\ log w1 = log w ++ [EvProbe p]).
    { unfold readImage. destruct (probes w); eexists _, _; split; reflexivity. }
    destruct Hprobe as (p & w1 & -> & Hl1).
    destruct p; cbn [negb].
    + exists []. split; [constructor|]. left. split; [reflexivity|].
      unfold bind, print, modify, ret. wsimpl. rewrite Hl1, <- app_assoc. reflexivity.
    + unfold bind at 1.
      assert (Hpoll : exists c w2, read_cmd_nb w1 = (Ret c, w2) /\ log w2 = log w1 ++ [EvPoll c]).
      { unfold read_cmd_nb. destruct (console w1); eexists _, _; split; reflexivity. }
      destruct Hpoll as (c & w2 & -> & Hl2).
      destruct (is_stop_cmd c) eqn:Hc.
      * exists []. split; [constructor|]. right. exists c.
        split; [reflexivity|]. split; [exact Hc|].
        unfold ret. rewrite Hl2, Hl1, <- app_assoc. reflexivity.
      * unfold bind at 1. unfold sleep_ms at 1, modify at 1.
        destruct (IH (set_clock (clock w2 + 80) w2)) as (cs & Hcs & Hshape).
        exists (c :: cs). split; [constructor; assumption|].
        destruct (wait_for_finger_loop n (Some read_cmd_nb) (set_clock (clock w2 + 80) w2))
          as [[st|e|] w3]; wsimpl; try rewrite Hl2, Hl1 in Hshape;
          cbn [polling_cycles flat_map app] in *;
          fold (polling_cycles cs) in *; try rewrite <- !app_assoc in Hshape;
          cbn [app] in *.
        -- destruct Hshape as [[-> E]|(c' & -> & Hc' & E)].
           ++ left. split; [reflexivity|].
              rewrite E, <- ?app_assoc. reflexivity.
           ++ right. exists c'. split; [reflexivity|]. split; [exact Hc'|].
              rewrite E, <- ?app_assoc. reflexivity.
        -- exact Hshape.
        -- rewrite Hshape, <- ?app_assoc. reflexivity.
Qed.

(** [wait_for_finger] as a whole: the announcement, the probes of the
    debounce phase, then the polling loop. *)
Lemma wait_for_finger_shape (n : nat) (w : World) :
  exists idle cs,
    Forall probe_event idle /\ no_stop cs /\
    match wait_for_finger n (Some read_cmd_nb) w with
    | (Ret st, w') =>
        (st = ("ok", None) /\
         log w' = log w ++ EvPrint MsgPlaceFinger :: idle ++ polling_cycles cs
                        ++ [EvProbe true; EvPrint MsgCaptured]) \/
        (exists c, st = ("abort", c) /\ is_stop_cmd c = true /\
                   log w' = log w ++ EvPrint MsgPlaceFinger :: idle ++ polling_cycles cs
                                  ++ [EvProbe false; EvPoll c])
    | (Raise _, _) => False
    | (Diverge, w') =>
        log w' = log w ++ EvPrint MsgPlaceFinger :: idle ++ polling_cycles cs
    end.
Proof.
  unfold wait_for_finger. unfold bind at 1. unfold print at 1, modify at 1.
  set (w0 := emit (EvPrint MsgPlaceFinger) w).
  unfold bind at 1.
  pose proof (ensure_idle_emits n QUIET_MS w0) as (idle & Hidle & Fidle).
  pose proof (ensure_idle_loop_no_raise n QUIET_MS None w0) as Hnr.
  fold (ensure_idle n QUIET_MS) in Hnr.
  destruct (ensure_idle n QUIET_MS w0) as [[[]|e|] w1]; cbn [fst snd] in *.
  - destruct (wait_for_finger_loop_shape n w1) as (cs & Hcs & Hshape).
    exists idle, cs. split; [exact Fidle|]. split; [exact Hcs|].
    destruct (wait_for_finger_loop n (Some read_cmd_nb) w1) as [[st|e|] w2];
      try rewrite Hidle in Hshape; subst w0; wsimpl;
      try rewrite <- !app_assoc in Hshape; cbn [app] in Hshape.
    + destruct Hshape as [[-> E]|(c' & -> & Hc' & E)].
      * left. split; [reflexivity|].
        rewrite E, <- ?app_assoc. reflexivity.
      * right. exists c'. split; [reflexivity|]. split; [exact Hc'|].
        rewrite E, <- ?app_assoc. reflexivity.
    + exact Hshape.
    + rewrite Hshape, <- ?app_assoc. reflexivity.
  - contradiction.
  - exists idle, []. split; [exact Fidle|]. split; [constructor|].
    rewrite Hidle. subst w0. wsimpl. rewrite <- app_assoc, app_nil_r. reflexivity.
Qed.

Lemma probe_idle (l : list event) : Forall probe_event l -> Forall idle_event l.
Proof.
  apply Forall_impl. intros [] H; try contradiction; exact I.
Qed.

(** What the mode loops need of [wait_for_finger]. *)
Lemma wait_for_finger_spec (n : nat) (w : World) :
  match wait_for_finger n (Some read_cmd_nb) w with
  | (Ret st, w') =>
      (st = ("ok", None) /\ grows idle_event w w') \/
      (exists c pre, st = ("abort", c) /\ is_stop_cmd c = true /\
                     Forall idle_event pre /\ log w' = log w ++ pre ++ [EvPoll c])
  | (Raise _, _) => False
  | (Diverge, w') => grows idle_event w w'
  end.
Proof.
  destruct (wait_for_finger_shape n w) as (idle & cs & Fidle & Hcs & Hshape).
  apply probe_idle in Fidle. apply polling_cycles_idle in Hcs.
  destruct (wait_for_finger n (Some read_cmd_nb) w) as [[st|e|] w']; [|exact Hshape|].
  - destruct Hshape as [[-> E]|(c & -> & Hc & E)].
    + left. split; [reflexivity|]. eexists. split; [exact E|].
      constructor; [exact I|]. apply Forall_app. split; [exact Fidle|].
      apply Forall_app. split; [exact Hcs|]. repeat constructor.
    + right. exists c, (EvPrint MsgPlaceFinger :: idle ++ polling_cycles cs ++ [EvProbe false]).
      split; [reflexivity|]. split; [exact Hc|]. split.
      * constructor; [exact I|]. apply Forall_app. split; [exact Fidle|].
        apply Forall_app. split; [exact Hcs|]. repeat constructor.
      * rewrite E. cbn [app]. rewrite <- !app_assoc. reflexivity.
  - eexists. split; [exact Hshape|].
    constructor; [exact I|]. apply Forall_app. split; assumption.
Qed.

(* ------------------------------------------------------------------ *)
(** ** Uploading one image *)

Lemma http_post_start_emits (headers : list (string * string)) :
  emits (upload_event headers) (http_post_start HOST PORT PATH PACKED_LEN headers).
Proof. unfold http_post_start. repeat emits_step. Qed.

Lemma http_post_start_rx (headers : list (string * string)) (w : World) :
  rx (snd (http_post_start HOST PORT PATH PACKED_LEN headers w)) = rx w.
Proof.
  destruct w as [c r s p co n ns cc l].
  destruct n as [|[|] [|[|] ?]]; reflexivity.
Qed.

Lemma http_post_finish_spec (headers : list (string * string)) (s : nat) (w : World) :
  fst (http_post_finish s w) = Ret tt /\
  grows (upload_event headers) w (snd (http_post_finish s w)).
Proof.
  unfold http_post_finish, bind, try_, sock_recv, sock_close, net_op, modify, ret.
  destruct (net w) as [|[|] ?]; cbn [fst snd]; (split; [reflexivity|]);
    apply grows_emit_after; solve [reflexivity|exact I].
Qed.

Lemma stream_loop_emits (P : event -> Prop) (inner sock : nat) :
  (forall d, P (EvSendBody sock d)) ->
  forall b sent, emits P (stream_loop b inner sock sent).
Proof.
  intros HP. induction b as [|b IH]; intros sent; cbn [stream_loop].
  - emits_step.
  - repeat (emits_step; try apply IH).
Qed.

Lemma after_command_emits (P : event -> Prop) (n sock : nat) :
  (forall d, P (EvSendBody sock d)) -> emits P (after_command n sock).
Proof.
  intros HP. unfold after_command.
  repeat (emits_step; try (apply stream_loop_emits; exact HP)).
Qed.

(** From an empty receive buffer, streaming logs a drained command write
    and body sends. *)
Lemma stream_events (headers : list (string * string)) (n sock : nat) (w : World) :
  rx w = [] ->
  grows (upload_event headers) w (snd (stream_upimage_to_http n SENSOR_ADDRESS sock w)).
Proof.
  intros Hrx.
  destruct (stream_command n SENSOR_ADDRESS sock w) as (cmd & w1 & E & Hlog & _).
  { vm_compute. split; congruence. }
  rewrite E. eapply grows_trans.
  - exists [EvUartWrite (rx w) cmd]. split; [exact Hlog|].
    constructor; [exact Hrx|constructor].
  - apply after_command_emits. intros d. exact I.
Qed.

(** The [try:] block: everything up to the report is upload traffic; the
    report comes last and only when the transfer completed. *)
Lemma try_upload_spec (n : nat) (headers : list (string * string))
    (report : Z -> M unit) (w : World) :
  rx w = [] ->
  (forall sent w0, fst (report sent w0) = Ret tt) ->
  exists w1,
    grows (upload_event headers) w w1 /\
    match try_upload n headers report w with
    | (Ret (_, inl sent), w') => w' = snd (report sent w1)
    | (Ret (_, inr _), w') => w' = w1
    | (Raise _, _) => False
    | (Diverge, w') => w' = w1
    end.
Proof.
  intros Hrx Hreport. unfold try_upload. unfold bind at 1. unfold try_ at 1.
  pose proof (http_post_start_emits headers w) as G1.
  pose proof (http_post_start_rx headers w) as R1.
  destruct (http_post_start HOST PORT PATH PACKED_LEN headers w) as [[sock|e|] w1];
    cbn [fst snd] in *.
  2:{ exists w1. split; [exact G1|reflexivity]. }
  2:{ exists w1. split; [exact G1|reflexivity]. }
  unfold bind at 1. unfold try_ at 1. unfold bind at 1.
  pose proof (stream_events headers n sock w1 ltac:(congruence)) as G2.
  destruct (stream_upimage_to_http n SENSOR_ADDRESS sock w1) as [[sent|e|] w2];
    cbn [fst snd] in *.
  2:{ exists w2. split; [eapply grows_trans; eassumption|reflexivity]. }
  2:{ exists w2. split; [eapply grows_trans; eassumption|reflexivity]. }
  unfold bind at 1.
  destruct (http_post_finish_spec headers sock w2) as [F3 G3].
  destruct (http_post_finish sock w2) as [[[]|e|] w3]; cbn [fst snd] in *;
    try discriminate F3.
  exists w3. split; [eapply grows_trans; [|exact G3]; eapply grows_trans; eassumption|].
  unfold bind at 1. specialize (Hreport sent w3).
  destruct (report sent w3) as [[[]|e|] w4] eqn:Er; cbn [fst snd] in *;
    try discriminate Hreport.
  unfold bind, ret. cbn [fst snd]. rewrite Er. reflexivity.
Qed.

(* ------------------------------------------------------------------ *)
(** ** Counting reports *)

Lemma count_app (f : event -> bool) (a b : list event) :
  count f (a ++ b) = (count f a + count f b)%nat.
Proof. unfold count. rewrite filter_app, length_app. reflexivity. Qed.

Lemma count_none (f : event -> bool) (l : list event) :
  Forall (fun e => f e = false) l -> count f l = 0%nat.
Proof.
  unfold count. induction 1 as [|e l He _ IH]; [reflexivity|].
  cbn [filter]. rewrite He. exact IH.
Qed.

Lemma step_trans (P : event -> Prop) (s1 e1 t1 s2 e2 t2 : nat) (w1 w2 w3 : World) :
  step P s1 e1 t1 w1 w2 -> step P s2 e2 t2 w2 w3 ->
  step P (s1 + s2) (e1 + e2) (t1 + t2) w1 w3.
Proof.
  intros (n1 & E1 & F1 & A1 & B1 & C1) (n2 & E2 & F2 & A2 & B2 & C2).
  exists (n1 ++ n2). rewrite E2, E1, app_assoc, !count_app.
  split; [reflexivity|]. split; [apply Forall_app; auto|]. lia.
Qed.

Lemma step_chain (P : event -> Prop) (s1 e1 t1 s2 e2 t2 s e t : nat)
    (w1 w2 w3 : World) :
  step P s1 e1 t1 w1 w2 -> step P s2 e2 t2 w2 w3 ->
  s = (s1 + s2)%nat -> e = (e1 + e2)%nat -> t = (t1 + t2)%nat ->
  step P s e t w1 w3.
Proof. intros H1 H2 -> -> ->. eapply step_trans; eassumption. Qed.

Lemma step_emit (P : event -> Prop) (e : event) (w : World) :
  P e ->
  step P (count is_saved [e]) (count is_error [e]) (count is_stop_poll [e])
       w (emit e w).
Proof.
  intros He. exists [e]. split; [reflexivity|]. split; [constructor; auto|auto].
Qed.

Lemma step_plain (P Q : event -> Prop) (w w' : World) :
  (forall e, Q e -> P e /\ uncounted e) ->
  grows Q w w' -> step P 0 0 0 w w'.
Proof.
  intros HQ (new & E & F). exists new. split; [exact E|].
  split; [eapply Forall_impl; [|exact F]; intros e He; apply HQ; exact He|].
  repeat split; apply count_none; (eapply Forall_impl; [|exact F]);
    intros e He; apply HQ in He; apply He.
Qed.

Lemma step_grows (P : event -> Prop) (s e t : nat) (w w' : World) :
  step P s e t w w' -> grows P w w'.
Proof. intros (new & E & F & _). exists new. auto. Qed.

Lemma idle_uncounted (e : event) : idle_event e -> uncounted e.
Proof.
  destruct e as [[]| | | | | | |]; cbn; intros H; try contradiction;
    repeat split; auto.
Qed.

Lemma upload_uncounted (headers : list (string * string)) (e : event) :
  upload_event headers e -> uncounted e.
Proof.
  destruct e as [[]| | | | | | |]; cbn; intros H; try contradiction;
    repeat split; auto.
Qed.

(* ------------------------------------------------------------------ *)
(** ** One capture cycle *)

Lemma wait_for_lift_spec (n : nat) (t : Z) (w : World) :
  no_raise (fst (wait_for_lift n t w)) /\
  grows idle_event w (snd (wait_for_lift n t w)).
Proof.
  split; [|apply wait_for_lift_emits].
  unfold wait_for_lift, bind, print, modify, ticks_ms, get.
  apply wait_for_lift_loop_no_raise.
Qed.

Lemma ensure_idle_spec (n : nat) (q : Z) (w : World) :
  no_raise (fst (ensure_idle n q w)) /\
  grows idle_event w (snd (ensure_idle n q w)).
Proof.
  split; [apply ensure_idle_loop_no_raise|].
  eapply grows_weaken; [|apply ensure_idle_emits].
  intros [] H; try contradiction; exact I.
Qed.

Lemma read_cmd_nb_spec (w : World) :
  exists c w', read_cmd_nb w = (Ret c, w') /\
               log w' = log w ++ [EvPoll c] /\ rx w' = rx w.
Proof.
  unfold read_cmd_nb. destruct (console w); eexists _, _; repeat split.
Qed.

Section Cycle.
Variable P : event -> Prop.
Hypothesis P_idle : forall e, idle_event e -> P e.
Hypothesis P_poll : forall c, P (EvPoll c).
Hypothesis P_command : forall c, P (EvPrint (MsgCommand c)).

Lemma idle_plain (e : event) : idle_event e -> P e /\ uncounted e.
Proof. intros H. split; [apply P_idle; exact H|apply idle_uncounted; exact H]. Qed.

(** The tail of a cycle logs nothing that counts, except the poll that
    samples a stop command, when it returns; and it leaves the receive
    buffer empty. *)
Lemma cycle_tail_spec {A : Type} (n : nat) (f : control -> A) (w : World) :
  match cycle_tail n f w with
  | (Ret a, w') =>
      rx w' = [] /\
      ((a = f Next /\ step P 0 0 0 w w') \/
       (exists c, a = f (Return c) /\ is_stop_cmd c = true /\ step P 0 0 1 w w'))
  | (Raise _, _) => False
  | (Diverge, w') => grows P w w'
  end.
Proof.
  unfold cycle_tail. unfold bind at 1.
  destruct (wait_for_lift_spec n 7000 w) as [N1 G1].
  destruct (wait_for_lift n 7000 w) as [[[]|e|] w1]; cbn [fst snd] in *;
    [|contradiction|eapply grows_weaken; [exact P_idle|exact G1]].
  unfold bind at 1.
  destruct (ensure_idle_spec n QUIET_MS w1) as [N2 G2].
  pose proof (grows_trans _ _ _ _ G1 G2) as G12.
  destruct (ensure_idle n QUIET_MS w1) as [[[]|e|] w2]; cbn [fst snd] in *;
    [|contradiction|eapply grows_weaken; [exact P_idle|exact G12]].
  unfold bind at 1.
  destruct (flush_uart_spec n w2) as [L3 R3].
  assert (G13 : grows idle_event w (snd (flush_uart n w2)))
    by (eapply grows_trans; [exact G12|apply grows_same; exact L3]).
  destruct (flush_uart n w2) as [[[]|e|] w3]; cbn [fst snd] in *;
    [|contradiction|eapply grows_weaken; [exact P_idle|exact G13]].
  unfold bind at 1.
  destruct (read_cmd_nb_spec w3) as (c & w4 & -> & L4 & R4).
  pose proof (step_plain P idle_event w w3 idle_plain G13) as S13.
  assert (S34 : step P 0 0 (if is_stop_cmd c then 1 else 0) w3 w4).
  { exists [EvPoll c]. split; [exact L4|]. split; [constructor; auto|].
    unfold count. cbn [filter is_saved is_error is_stop_poll].
    destruct (is_stop_cmd c); auto. }
  destruct (is_stop_cmd c) eqn:Hc.
  - unfold bind, print, modify, ret. wsimpl. split; [congruence|].
    right. exists c. split; [reflexivity|]. split; [exact Hc|].
    eapply step_chain; [exact S13| |reflexivity..].
    eapply step_chain; [exact S34| |reflexivity..].
    apply (step_emit P (EvPrint (MsgCommand c)) w4). apply P_command.
  - unfold ret. split; [congruence|]. left. split; [reflexivity|].
    eapply step_chain; [exact S13|exact S34|reflexivity..].
Qed.
End Cycle.

Lemma detect_body_unfold (n : nat) (pid k : Z) :
  detect_body n pid k
  = (st <- wait_for_finger n (Some read_cmd_nb) ;;
     if String.eqb (fst st) "abort" then
       print (MsgCommand (snd st)) ;; ret (k, Return (snd st))
     else
       flush_uart n ;;
       r <- try_upload n (detect_headers pid k)
              (fun sent => print (MsgSaved (k + 1) SAMPLES_PER_PERSON sent)) ;;
       detect_after n k r).
Proof. reflexivity. Qed.

Lemma cls_body_unfold (n : nat) :
  cls_body n
  = (st <- wait_for_finger n (Some read_cmd_nb) ;;
     if String.eqb (fst st) "abort" then
       print (MsgCommand (snd st)) ;; ret (Return (snd st))
     else
       flush_uart n ;;
       counter <- get cls_counter ;;
       r <- try_upload n (cls_headers counter)
              (fun sent =>
                 print (MsgSent ("test_img_" ++ str counter) sent) ;;
                 modify (fun w => set_cls_counter (cls_counter w + 1) w)) ;;
       cls_after n r).
Proof. reflexivity. Qed.

Lemma detect_event_idle (pid k : Z) (e : event) :
  idle_event e -> detect_event pid k e.
Proof. destruct e as [[]| | | | | | |]; cbn; auto; contradiction. Qed.

Lemma detect_event_upload (pid k : Z) (e : event) :
  upload_event (detect_headers pid k) e -> detect_event pid k e /\ uncounted e.
Proof.
  intros H. split; [|eapply upload_uncounted; exact H].
  destruct e as [[]| | | | | | |]; cbn in *; auto; contradiction.
Qed.

Lemma cls_event_idle (e : event) : idle_event e -> cls_event e.
Proof. destruct e as [[]| | | | | | |]; cbn; auto; contradiction. Qed.

Lemma cls_event_upload (counter : Z) (e : event) :
  upload_event (cls_headers counter) e -> cls_event e.
Proof.
  destruct e as [[]| | | | | | |]; cbn; auto; try contradiction.
  intros ->. exists counter. reflexivity.
Qed.

(** What [detect_after] adds: on success nothing that counts before the
    tail; on failure the closing of the socket and one error report. *)
Lemma detect_after_spec (n : nat) (pid k : Z) (r : option nat * (Z + exn)) (w : World) :
  match detect_after n k r w with
  | (Ret (k', ctl), w') =>
      exists e t,
        step (detect_event pid k) 0 e t w w' /\
        match snd r with
        | inl _ => k' = k + 1 /\ e = 0%nat
        | inr _ => k' = k /\ e = 1%nat
        end /\
        match ctl with
        | Next => t = 0%nat /\ rx w' = []
        | Return c => is_stop_cmd c = true /\ t = 1%nat
        end
  | (Raise _, _) => False
  | (Diverge, w') => grows (detect_event pid k) w w'
  end.
Proof.
  set (P := detect_event pid k).
  assert (Htail : forall (k0 : Z) (w0 : World),
             match cycle_tail n (fun ctl => (k0, ctl)) w0 with
             | (Ret (k', ctl), w') =>
                 exists t, step P 0 0 t w0 w' /\ k' = k0 /\
                           match ctl with
                           | Next => t = 0%nat /\ rx w' = []
                           | Return c => is_stop_cmd c = true /\ t = 1%nat
                           end
             | (Raise _, _) => False
             | (Diverge, w') => grows P w0 w'
             end).
  { intros k0 w0.
    pose proof (cycle_tail_spec P (detect_event_idle pid k) (fun _ => I) (fun _ => I)
                  n (fun ctl => (k0, ctl)) w0) as T.
    destruct (cycle_tail n (fun ctl => (k0, ctl)) w0) as [[[k' ctl]|e|] w']; auto.
    destruct T as [Rx [[E S]|(c & E & Hc & S)]]; inversion E; subst.
    - exists 0%nat. auto.
    - exists 1%nat. auto. }
  destruct r as [sock [sent|x]]; cbn [detect_after snd].
  - specialize (Htail (k + 1) w).
    destruct (cycle_tail n (fun ctl => (k + 1, ctl)) w) as [[[k' ctl]|e|] w']; auto.
    destruct Htail as (t & S & -> & Hctl). exists 0%nat, t. auto.
  - unfold bind at 1.
    assert (Hfin : exists w1,
               (match sock with Some s => http_post_finish s | None => ret tt end) w
               = (Ret tt, w1) /\ step P 0 0 0 w w1).
    { destruct sock as [s|].
      - destruct (http_post_finish_spec (detect_headers pid k) s w) as [F G].
        destruct (http_post_finish s w) as [[[]|?|] w1]; try discriminate F.
        exists w1. split; [reflexivity|].
        eapply step_plain; [apply detect_event_upload|exact G].
      - exists w. split; [reflexivity|].
        eapply step_plain; [apply idle_plain; apply detect_event_idle|apply grows_refl]. }
    destruct Hfin as (w1 & -> & S1).
    unfold bind at 1. unfold print at 1, modify at 1.
    pose proof (step_emit P (EvPrint (MsgUploadError x)) w1 I) as S2.
    change (count is_saved _) with 0%nat in S2.
    change (count is_error _) with 1%nat in S2.
    change (count is_stop_poll _) with 0%nat in S2.
    pose proof (step_trans _ _ _ _ _ _ _ _ _ _ S1 S2) as S12.
    specialize (Htail k (emit (EvPrint (MsgUploadError x)) w1)).
    destruct (cycle_tail n (fun ctl => (k, ctl)) _) as [[[k' ctl]|e|] w'].
    + destruct Htail as (t & S & -> & Hctl). exists 1%nat, t.
      split; [|auto].
      eapply step_chain; [exact S12|exact S|reflexivity..].
    + exact Htail.
    + eapply grows_trans; [eapply step_grows; exact S12|exact Htail].
Qed.

(** One pass through the body of the detect loop. *)
Lemma detect_body_spec (n : nat) (pid k : Z) (w : World) :
  match detect_body n pid k w with
  | (Ret (k', ctl), w') =>
      exists s e t,
        step (detect_event pid k) s e t w w' /\
        k' = k + Z.of_nat s /\
        match ctl with
        | Next => t = 0%nat /\ (s + e = 1)%nat /\ rx w' = []
        | Return c => is_stop_cmd c = true /\ t = 1%nat /\ (s + e <= 1)%nat
        end
  | (Raise _, _) => False
  | (Diverge, w') => grows (detect_event pid k) w w'
  end.
Proof.
  set (P := detect_event pid k).
  rewrite detect_body_unfold. unfold bind at 1.
  pose proof (wait_for_finger_spec n w) as S1.
  destruct (wait_for_finger n (Some read_cmd_nb) w) as [[st|e|] w1];
    [|exact S1|eapply grows_weaken; [apply detect_event_idle|exact S1]].
  destruct S1 as [[-> G1]|(c & pre & -> & Hc & Fpre & L1)]; cbn [fst snd].
  - change (String.eqb "ok" "abort") with false. cbv iota.
    pose proof (step_plain P idle_event w w1
                  (idle_plain P (detect_event_idle pid k)) G1) as St1.
    unfold bind at 1.
    destruct (flush_uart_spec n w1) as [L2 R2].
    assert (St2 : step P 0 0 0 w (snd (flush_uart n w1))).
    { eapply step_chain; [exact St1| |reflexivity..].
      eapply step_plain; [apply idle_plain; apply detect_event_idle|].
      apply grows_same. exact L2. }
    destruct (flush_uart n w1) as [[[]|e|] w2]; cbn [fst snd] in *;
      [|contradiction|eapply step_grows; exact St2].
    unfold bind at 1.
    destruct (try_upload_spec n (detect_headers pid k)
                (fun sent => print (MsgSaved (k + 1) SAMPLES_PER_PERSON sent))
                w2 R2 (fun _ _ => eq_refl)) as (w3 & G3 & T).
    assert (St3 : step P 0 0 0 w w3).
    { eapply step_chain; [exact St2| |reflexivity..].
      eapply step_plain; [apply detect_event_upload|exact G3]. }
    destruct (try_upload n (detect_headers pid k) _ w2) as [[[sock [sent|x]]|e|] w4];
      [| |contradiction|subst w4; eapply step_grows; exact St3].
    + subst w4. unfold print, modify. cbn [snd].
      pose proof (step_emit P (EvPrint (MsgSaved (k + 1) SAMPLES_PER_PERSON sent)) w3
                    (conj eq_refl eq_refl)) as St4.
      change (count is_saved _) with 1%nat in St4.
      change (count is_error _) with 0%nat in St4.
      change (count is_stop_poll _) with 0%nat in St4.
      pose proof (step_trans _ _ _ _ _ _ _ _ _ _ St3 St4) as St34.
      pose proof (detect_after_spec n pid k (sock, inl sent)
                    (emit (EvPrint (MsgSaved (k + 1) SAMPLES_PER_PERSON sent)) w3)) as T5.
      destruct (detect_after n k (sock, inl sent) _) as [[[k' ctl]|e|] w5].
      * destruct T5 as (e5 & t5 & S5 & [-> ->] & Hctl). cbn [snd] in *.
        exists 1%nat, 0%nat, t5.
        split; [eapply step_chain; [exact St34|exact S5|reflexivity..]|].
        split; [reflexivity|].
        destruct ctl; [destruct Hctl as [? ->]|destruct Hctl as [-> ?]]; auto.
      * exact T5.
      * eapply grows_trans; [eapply step_grows; exact St34|exact T5].
    + subst w4.
      pose proof (detect_after_spec n pid k (sock, inr x) w3) as T5.
      destruct (detect_after n k (sock, inr x) w3) as [[[k' ctl]|e|] w5].
      * destruct T5 as (e5 & t5 & S5 & [-> ->] & Hctl). cbn [snd] in *.
        exists 0%nat, 1%nat, t5.
        split; [eapply step_chain; [exact St3|exact S5|reflexivity..]|].
        split; [lia|].
        destruct ctl; [destruct Hctl as [? ->]|destruct Hctl as [-> ?]]; auto.
      * exact T5.
      * eapply grows_trans; [eapply step_grows; exact St3|exact T5].
  - change (String.eqb "abort" "abort") with true. cbv iota.
    unfold bind, print, modify, ret.
    exists 0%nat, 0%nat, 1%nat. split; [|split; [lia|auto]].
    exists (pre ++ [EvPoll c; EvPrint (MsgCommand c)]). wsimpl.
    split; [rewrite L1, <- !app_assoc; reflexivity|]. split.
    + apply Forall_app. split.
      * eapply Forall_impl; [apply detect_event_idle|exact Fpre].
      * repeat constructor.
    + rewrite !count_app.
      rewrite !(count_none _ pre)
        by (eapply Forall_impl; [|exact Fpre]; intros ? He;
            apply idle_uncounted in He; apply He).
      unfold count. cbn [filter is_saved is_error is_stop_poll]. rewrite Hc. auto.
Qed.

(** One pass through the body of the classification loop. *)
Lemma cls_body_spec (n : nat) (w : World) :
  match cls_body n w with
  | (Ret ctl, w') => grows cls_event w w' /\ (ctl = Next -> rx w' = [])
  | (Raise _, _) => False
  | (Diverge, w') => grows cls_event w w'
  end.
Proof.
  rewrite cls_body_unfold. unfold bind at 1.
  pose proof (wait_for_finger_spec n w) as S1.
  destruct (wait_for_finger n (Some read_cmd_nb) w) as [[st|e|] w1];
    [|exact S1|eapply grows_weaken; [apply cls_event_idle|exact S1]].
  destruct S1 as [[-> G1]|(c & pre & -> & Hc & Fpre & L1)]; cbn [fst snd].
  - change (String.eqb "ok" "abort") with false. cbv iota.
    apply (grows_weaken _ _ _ _ cls_event_idle) in G1.
    unfold bind at 1.
    destruct (flush_uart_spec n w1) as [L2 R2].
    assert (G2 : grows cls_event w (snd (flush_uart n w1)))
      by (eapply grows_trans; [exact G1|apply grows_same; exact L2]).
    destruct (flush_uart n w1) as [[[]|e|] w2]; cbn [fst snd] in *;
      [|contradiction|exact G2].
    unfold bind at 1. unfold get at 1.
    set (counter := cls_counter w2).
    unfold bind at 1.
    destruct (try_upload_spec n (cls_headers counter)
                (fun sent =>
                   print (MsgSent ("test_img_" ++ str counter) sent) ;;
                   modify (fun w => set_cls_counter (cls_counter w + 1) w))
                w2 R2 (fun _ _ => eq_refl)) as (w3 & G3 & T).
    apply (grows_weaken _ _ _ _ (cls_event_upload counter)) in G3.
    pose proof (grows_trans _ _ _ _ G2 G3) as G23.
    destruct (try_upload n (cls_headers counter) _ w2) as [[[sock r]|e|] w4];
      [|contradiction|subst w4; exact G23].
    assert (G4 : grows cls_event w w4).
    { destruct r as [sent|x]; subst w4; [|exact G23].
      eapply grows_trans; [exact G23|].
      apply grows_emit_after; [reflexivity|exact I]. }
    clear T. unfold cls_after. unfold bind at 1.
    assert (Hfin : exists w5,
               (match (sock, r) with
                | (sock, inr e) =>
                    match sock with
                    | Some s => http_post_finish s
                    | None => ret tt
                    end ;; print (MsgUploadError e)
                | (_, inl _) => ret tt
                end) w4 = (Ret tt, w5) /\ grows cls_event w4 w5).
    { destruct r as [sent|x]; [exists w4; split; [reflexivity|apply grows_refl]|].
      unfold bind, print, modify. destruct sock as [s|].
      - destruct (http_post_finish_spec (cls_headers counter) s w4) as [F G].
        destruct (http_post_finish s w4) as [[[]|?|] w5]; try discriminate F.
        eexists. split; [reflexivity|].
        eapply grows_trans; [eapply grows_weaken; [apply cls_event_upload|exact G]|].
        apply grows_emit. exact I.
      - eexists. split; [reflexivity|]. apply grows_emit. exact I. }
    destruct Hfin as (w5 & -> & G5).
    pose proof (grows_trans _ _ _ _ G4 G5) as G45.
    pose proof (cycle_tail_spec cls_event cls_event_idle (fun _ => I) (fun _ => I)
                  n (fun ctl => ctl) w5) as T6.
    destruct (cycle_tail n (fun ctl => ctl) w5) as [[ctl|e|] w6].
    + destruct T6 as [Rx [[-> S]|(c & -> & Hc & S)]].
      * split; [|auto]. eapply grows_trans; [exact G45|eapply step_grows; exact S].
      * split; [|discriminate].
        eapply grows_trans; [exact G45|eapply step_grows; exact S].
    + exact T6.
    + eapply grows_trans; [exact G45|exact T6].
  - change (String.eqb "abort" "abort") with true. cbv iota.
    unfold bind, print, modify, ret. split; [|discriminate].
    exists (pre ++ [EvPoll c; EvPrint (MsgCommand c)]). wsimpl.
    split; [rewrite L1, <- !app_assoc; reflexivity|].
    apply Forall_app. split.
    + eapply Forall_impl; [apply cls_event_idle|exact Fpre].
    + repeat constructor.
Qed.

Lemma detect_mode_event_of (pid k : Z) (e : event) :
  detect_event pid k e -> detect_mode_event pid e.
Proof.
  destruct e as [[]| | | | | | |]; cbn; auto. intros ->. exists k. reflexivity.
Qed.

Lemma step_weaken (P Q : event -> Prop) (s e t : nat) (w w' : World) :
  (forall x, P x -> Q x) -> step P s e t w w' -> step Q s e t w w'.
Proof.
  intros HPQ (new & E & F & C). exists new. split; [exact E|].
  split; [eapply Forall_impl; eassumption|exact C].
Qed.

(** The detect loop: the final value of [collected] is the initial one
    plus the number of saved reports; the loop runs to its end only with
    [collected] at [SAMPLES_PER_PERSON] and no stop command sampled, and
    returns a command only when one was sampled. *)
Lemma detect_loop_spec (n : nat) (pid : Z) :
  forall (cycles : nat) (k : Z) (w : World),
    k <= SAMPLES_PER_PERSON ->
    match detect_loop n cycles pid k w with
    | (Ret r, w') =>
        exists s e t,
          step (detect_mode_event pid) s e t w w' /\
          k + Z.of_nat s <= SAMPLES_PER_PERSON /\
          match r with
          | None => k + Z.of_nat s = SAMPLES_PER_PERSON /\ t = 0%nat
          | Some cmd => is_stop_cmd cmd = true /\ t = 1%nat
          end
    | (Raise _, _) => False
    | (Diverge, w') => grows (detect_mode_event pid) w w'
    end.
Proof.
  induction cycles as [|cycles IH]; intros k w Hk; cbn [detect_loop].
  - destruct (k <? SAMPLES_PER_PERSON) eqn:C.
    + apply grows_refl.
    + apply Z.ltb_ge in C. exists 0%nat, 0%nat, 0%nat.
      split; [|split; [lia|split; [lia|reflexivity]]].
      exists []. rewrite app_nil_r. repeat split; auto.
  - destruct (k <? SAMPLES_PER_PERSON) eqn:C.
    + apply Z.ltb_lt in C. unfold bind at 1.
      pose proof (detect_body_spec n pid k w) as B.
      destruct (detect_body n pid k w) as [[[k' ctl]|e|] w1];
        [|exact B|eapply grows_weaken; [apply detect_mode_event_of|exact B]].
      destruct B as (s1 & e1 & t1 & S1 & -> & Hctl).
      apply (step_weaken _ _ _ _ _ _ _ (detect_mode_event_of pid k)) in S1.
      destruct ctl as [cmd|].
      * destruct Hctl as (Hc & -> & Hse). unfold ret.
        exists s1, e1, 1%nat. split; [exact S1|]. split; [lia|auto].
      * destruct Hctl as (-> & Hse & Rx).
        specialize (IH (k + Z.of_nat s1) w1 ltac:(lia)).
        destruct (detect_loop n cycles pid (k + Z.of_nat s1) w1) as [[r|e|] w2].
        -- destruct IH as (s2 & e2 & t2 & S2 & Hle & Hr).
           exists (s1 + s2)%nat, (e1 + e2)%nat, t2.
           split; [eapply step_chain; [exact S1|exact S2|reflexivity..]|].
           split; [lia|]. destruct r; [exact Hr|]. split; [lia|apply Hr].
        -- exact IH.
        -- eapply grows_trans; [eapply step_grows; exact S1|exact IH].
    + apply Z.ltb_ge in C. exists 0%nat, 0%nat, 0%nat.
      split; [|split; [lia|split; [lia|reflexivity]]].
      exists []. rewrite app_nil_r. repeat split; auto.
Qed.

Lemma detect_mode_emits (n : nat) (pid : Z) :
  emits (detect_mode_event pid) (detect_mode n pid).
Proof.
  intros w. unfold detect_mode. unfold bind at 1. unfold print at 1, modify at 1.
  eapply grows_trans;
    [apply (grows_emit _ (EvPrint (MsgDetectStart pid SAMPLES_PER_PERSON))); exact I|].
  set (w0 := emit _ w). unfold bind at 1.
  pose proof (detect_loop_spec n pid n 0 w0 ltac:(vm_compute; discriminate)) as L.
  destruct (detect_loop n n pid 0 w0) as [[r|e|] w1]; [|contradiction|exact L].
  destruct L as (s & e & t & S & _). apply step_grows in S.
  destruct r as [cmd|]; cbn [snd].
  - exact S.
  - unfold bind, print, modify, ret. cbn [snd].
    eapply grows_trans; [exact S|apply grows_emit; exact I].
Qed.

Lemma cls_loop_emits (n : nat) :
  forall cycles, emits cls_event (cls_loop n cycles).
Proof.
  induction cycles as [|cycles IH]; intros w; cbn [cls_loop].
  - apply grows_refl.
  - unfold bind at 1. pose proof (cls_body_spec n w) as B.
    destruct (cls_body n w) as [[ctl|e|] w1]; [|contradiction|exact B].
    destruct B as [G _]. destruct ctl; cbn [snd].
    + exact G.
    + eapply grows_trans; [exact G|apply IH].
Qed.

Lemma cls_mode_emits (n : nat) : emits cls_event (cls_mode n).
Proof.
  unfold cls_mode. apply emits_bind; [apply emits_print; exact I|].
  intros _. apply cls_loop_emits.
Qed.

(* ------------------------------------------------------------------ *)
(** ** The capture orchestrator: claims *)



(** C7.  Every request head sent in detect mode contains the line
    "X-Person-Id: <person_id>" of the session's subject; no request head
    sent in classification mode contains a line that starts with
    "X-Person-Id". *)
Theorem subject_header_in_detect_only (n : nat) (pid : Z) (w : World) :
  grows (has_subject_header pid) w (snd (detect_mode n pid w)) /\
  grows lacks_subject_header w (snd (cls_mode n w)).
Proof.
  split.
  - eapply grows_weaken; [|apply detect_mode_emits].
    intros [[]| | | | | | |]; cbn -[request_lines]; auto.
    intros (k & ->). unfold request_lines, detect_headers.
    apply in_or_app. right. apply in_or_app. left.
    cbn [map]. do 3 right. left. reflexivity.
  - eapply grows_weaken; [|apply cls_mode_emits].
    intros [[]| | | | | | |]; cbn -[request_lines]; auto.
    intros (counter & ->). unfold request_lines, cls_headers.
    cbn [map app]. repeat constructor.
Qed.

Lemma ensure_idle_loop_console (n : nat) :
  forall q start w, console (snd (ensure_idle_loop n q start w)) = console w.
Proof.
  induction n as [|n IH]; intros q start w; cbn [ensure_idle_loop]; [reflexivity|].
  unfold bind at 1. unfold readImage.
  destruct (probes w) as [|[[|] ? ?] ?]; cbn [negb present];
    unfold bind, sleep_ms, modify, ticks_ms, get, ret;
    try (rewrite IH; reflexivity);
    destruct start; cbn -[Z.geb ensure_idle_loop];
    match goal with |- context [if ?c then _ else _] => destruct c end;
    try reflexivity; rewrite IH; reflexivity.
Qed.




Lemma step_counts (P : event -> Prop) (s e t : nat) (w w' : World) :
  step P s e t w w' ->
  exists new,
    log w' = log w ++ new /\ Forall P new /\
    count is_saved new = s /\ count is_error new = e /\ count is_stop_poll new = t.
Proof. exact (fun H => H). Qed.

Lemma detect_event_index (pid k : Z) (e : event) :
  detect_event pid k e -> cycle_index pid k e.
Proof.
  destruct e as [[]| | | | | | |]; cbn -[request_lines]; auto.
  intros ->. unfold request_lines, detect_headers.
  apply in_or_app. right. apply in_or_app. left.
  cbn [map]. do 5 right. left. reflexivity.
Qed.

(** C6, as amended.  In detect mode:
    - a pass through the loop body changes [collected] by the number of
      saved reports it prints, which is 1 when the transfer succeeded and
      0 when it failed (one error report) or when the wait for the finger
      was aborted; the request head it sends and the report it prints
      carry the sample index [collected + 1], so the cycle after a failed
      one asks for the same file name;
    - after K consecutive successful cycles from 0, [collected] is K, and
      K is at most [SAMPLES_PER_PERSON];
    - the loop runs to its end exactly when [collected] has reached
      [SAMPLES_PER_PERSON] and no stop command was sampled; when one is
      sampled, also just after the last capture, the mode returns that
      command instead;
    - with [collected] at [SAMPLES_PER_PERSON] the loop ends at once. *)
Theorem detect_counts_saved_captures (n : nat) (pid : Z) :
  (forall k w k' ctl w',
      detect_body n pid k w = (Ret (k', ctl), w') ->
      exists new,
        log w' = log w ++ new /\
        k' = k + Z.of_nat (count is_saved new) /\
        (count is_saved new + count is_error new <= 1)%nat /\
        (ctl = Next -> (count is_saved new + count is_error new = 1)%nat) /\
        Forall (cycle_index pid k) new) /\
  (forall K w k w',
      successes n pid K (0, w) (k, w') ->
      k = Z.of_nat K /\ k <= SAMPLES_PER_PERSON) /\
  (forall cycles k w r w',
      k <= SAMPLES_PER_PERSON ->
      detect_loop n cycles pid k w = (Ret r, w') ->
      exists new,
        log w' = log w ++ new /\
        k + Z.of_nat (count is_saved new) <= SAMPLES_PER_PERSON /\
        (r = None <->
         k + Z.of_nat (count is_saved new) = SAMPLES_PER_PERSON /\
         count is_stop_poll new = 0%nat) /\
        (forall cmd, r = Some cmd ->
                     is_stop_cmd cmd = true /\ count is_stop_poll new = 1%nat)) /\
  (forall cycles w,
      detect_loop n cycles pid SAMPLES_PER_PERSON w = (Ret None, w)).
Proof.
  split; [|split; [|split]].
  - intros k w k' ctl w' E. pose proof (detect_body_spec n pid k w) as B.
    rewrite E in B. destruct B as (s & e & t & S & -> & Hctl).
    destruct (step_counts _ _ _ _ _ _ S) as (new & L & F & <- & <- & <-).
    exists new. split; [exact L|]. split; [reflexivity|].
    split; [destruct ctl; lia|]. split.
    + intros ->. apply Hctl.
    + eapply Forall_impl; [apply detect_event_index|exact F].
  - assert (H : forall K s s',
               successes n pid K s s' ->
               fst s' = fst s + Z.of_nat K /\
               (fst s <= SAMPLES_PER_PERSON -> fst s' <= SAMPLES_PER_PERSON)).
    { induction 1 as [s|K s k1 w1 k2 w2 new _ IH Hlt E L He]; cbn [fst] in *.
      - split; [lia|auto].
      - destruct IH as [-> _].
        pose proof (detect_body_spec n pid (fst s + Z.of_nat K) w1) as B.
        rewrite E in B. destruct B as (s1 & e1 & t1 & S & -> & _ & Hse & _).
        destruct (step_counts _ _ _ _ _ _ S) as (new' & L' & _ & _ & He' & _).
        rewrite L in L'. apply app_inv_head in L'. subst new'.
        split; lia. }
    intros K w k w' Hs. apply H in Hs. cbn [fst] in Hs.
    destruct Hs as [-> Hle]. split; [lia|].
    apply Hle. vm_compute. discriminate.
  - intros cycles k w r w' Hk E.
    pose proof (detect_loop_spec n pid cycles k w Hk) as L. rewrite E in L.
    destruct L as (s & e & t & S & Hle & Hr).
    destruct (step_counts _ _ _ _ _ _ S) as (new & L & _ & <- & _ & <-).
    exists new. split; [exact L|]. split; [exact Hle|]. split.
    + destruct r as [cmd|]; split; try tauto; try discriminate.
      intros [_ H0]. destruct Hr as [_ H1]. congruence.
    + intros cmd ->. exact Hr.
  - intros cycles w. destruct cycles; cbn [detect_loop];
      rewrite Z.ltb_irrefl; reflexivity.
Qed.

Lemma detect_counts_saved_captures_witness :
  (exists new,
      log (snd (detect_body 30 7 0 world_one_capture))
      = log world_one_capture ++ new /\
      1 = 0 + Z.of_nat (count is_saved new) /\
      (count is_saved new + count is_error new <= 1)%nat /\
      (Next = Next -> (count is_saved new + count is_error new = 1)%nat) /\
      Forall (cycle_index 7 0) new) /\
  (exists new,
      log (snd (detect_body 30 7 0 world_failed_transfer))
      = log world_failed_transfer ++ new /\
      0 = 0 + Z.of_nat (count is_saved new) /\
      (count is_saved new + count is_error new <= 1)%nat /\
      (Next = Next -> (count is_saved new + count is_error new = 1)%nat) /\
      Forall (cycle_index 7 0) new).
Proof.
  split.
  - apply (proj1 (detect_counts_saved_captures 30 7) 0 world_one_capture 1 Next).
    vm_compute. reflexivity.
  - apply (proj1 (detect_counts_saved_captures 30 7) 0 world_failed_transfer 0 Next).
    vm_compute. reflexivity.
Defined.

(** C6 as stated does not hold at the last capture: when "stop" is sampled
    right after [collected] has reached [SAMPLES_PER_PERSON], the loop body
    returns the command and the mode ends with it, not normally.  Three
    captures are saved and [detect_mode] returns "stop". *)
Lemma stop_after_last_capture_preempts_completion :
  fst (detect_body 30 7 2 world_capture_then_stop)
  = Ret (SAMPLES_PER_PERSON, Return (Some "stop")) /\
  fst (detect_mode 30 7 world_three_captures_then_stop) = Ret (Some "stop") /\
  count is_saved (log (snd (detect_mode 30 7 world_three_captures_then_stop))) = 3%nat /\
  In (EvPrint (MsgSaved 3 SAMPLES_PER_PERSON 1))
     (log (snd (detect_mode 30 7 world_three_captures_then_stop))) /\
  ~ In (EvPrint (MsgDetectComplete SAMPLES_PER_PERSON 7))
       (log (snd (detect_mode 30 7 world_three_captures_then_stop))).
Proof.
  split; [vm_compute; reflexivity|].
  split; [vm_compute; reflexivity|].
  split; [vm_compute; reflexivity|].
  split.
  - vm_compute. repeat (first [left; reflexivity|right]).
  - vm_compute. intros H.
    repeat (destruct H as [H|H]; [discriminate H|]). exact H.
Qed.

(* ================================================================== *)
(** * Further properties of the code *)

(* ------------------------------------------------------------------ *)
(** ** The packet codec *)

Lemma be16_wrap (n : Z) : ((n / 256) mod 256) * 256 + n mod 256 = n mod 65536.
Proof. Z.div_mod_to_equations. lia. Qed.

Lemma be16_reduces_modulo_65536_aux (n : Z) (w : World) :
  exists hi lo,
    _be16 n w = (Ret [hi; lo], w) /\
    byte_to_Z hi * 256 + byte_to_Z lo = n mod 65536.
Proof.
  destruct (_be16_spec n w) as (hi & lo & E & Vhi & Vlo).
  exists hi, lo. split; [exact E|]. rewrite Vhi, Vlo. apply be16_wrap.
Qed.

(** X1.  [_be16] never raises: for every integer, negative or large, it
    gives two bytes, the big-endian form of the number reduced modulo
    65536. *)
Theorem be16_reduces_modulo_65536 (n : Z) (w : World) :
  exists hi lo,
    _be16 n w = (Ret [hi; lo], w) /\
    byte_to_Z hi * 256 + byte_to_Z lo = n mod 65536.
Proof.
  destruct (_be16_spec n w) as (hi & lo & E & Vhi & Vlo).
  exists hi, lo. split; [exact E|]. rewrite Vhi, Vlo.
  Z.div_mod_to_equations. lia.
Qed.

Lemma to_bytes4_big_value (n : Z) (w : World) :
  0 <= n < 2 ^ 32 ->
  exists a1 a2 a3 a4,
    to_bytes4_big n w = (Ret [a1; a2; a3; a4], w) /\
    ((byte_to_Z a1 * 256 + byte_to_Z a2) * 256 + byte_to_Z a3) * 256 + byte_to_Z a4 = n.
Proof.
  intros Hn. unfold to_bytes4_big.
  replace (0 <=? n) with true by (symmetry; apply Z.leb_le; lia).
  replace (n <? 2 ^ 32) with true by (symmetry; apply Z.ltb_lt; lia).
  cbn [andb]. rewrite !land_255, !Z.shiftr_div_pow2 by lia.
  change (2 ^ 24) with 16777216. change (2 ^ 16) with 65536. change (2 ^ 8) with 256.
  destruct (byte_of_Z_some ((n / 16777216) mod 256)) as (a1 & E1 & V1);
    [apply Z.mod_pos_bound; lia|].
  destruct (byte_of_Z_some ((n / 65536) mod 256)) as (a2 & E2 & V2);
    [apply Z.mod_pos_bound; lia|].
  destruct (byte_of_Z_some ((n / 256) mod 256)) as (a3 & E3 & V3);
    [apply Z.mod_pos_bound; lia|].
  destruct (byte_of_Z_some (n mod 256)) as (a4 & E4 & V4);
    [apply Z.mod_pos_bound; lia|].
  exists a1, a2, a3, a4. unfold py_bytes, bind, ret.
  rewrite E1, E2, E3, E4. split; [reflexivity|].
  rewrite V1, V2, V3, V4. change (2 ^ 32) with 4294967296 in Hn.
  Z.div_mod_to_equations. lia.
Qed.

(** X2.  [_write_packet] writes a frame in one [uart.write] or writes
    nothing.  With a 32-bit address and a one-byte type it writes, for a
    payload of any length, the marker EF 01, the address big-endian, the
    type, the length field (payload length + 2, reduced modulo 65536), the
    payload and the checksum (type + length bytes + payload bytes, reduced
    modulo 65536) - payload length + 11 bytes in all.  With a type outside
    0..255 it raises [ValueError] and writes nothing. *)
Theorem write_packet_layout (address ptype : Z) (payload : list byte) (w : World) :
  0 <= address < 2 ^ 32 ->
  (0 <= ptype < 256 ->
   exists a1 a2 a3 a4 t lh ll ch cl w',
     _write_packet address ptype payload w = (Ret tt, w') /\
     log w' = log w ++ [EvUartWrite (rx w)
                          ([xef; x01; a1; a2; a3; a4; t; lh; ll] ++ payload ++ [ch; cl])] /\
     ((byte_to_Z a1 * 256 + byte_to_Z a2) * 256 + byte_to_Z a3) * 256 + byte_to_Z a4
     = address /\
     byte_to_Z t = ptype /\
     byte_to_Z lh * 256 + byte_to_Z ll = (Z.of_nat (length payload) + 2) mod 65536 /\
     byte_to_Z ch * 256 + byte_to_Z cl
     = (ptype + byte_to_Z lh + byte_to_Z ll + py_sum payload) mod 65536) /\
  (~ 0 <= ptype < 256 ->
   _write_packet address ptype payload w = (Raise ValueError, w)).
Proof.
  intros Haddr. split.
  - intros Hpt. unfold _write_packet.
    unfold bind at 1.
    change (_be16 STARTCODE w) with (@Ret (list byte) [xef; x01], w). cbv iota beta.
    destruct (to_bytes4_big_value address w Haddr) as (a1 & a2 & a3 & a4 & Ea & Va).
    unfold bind at 1. rewrite Ea.
    destruct (byte_of_Z_some ptype Hpt) as (tb & Et & Vt).
    unfold bind at 1. unfold py_bytes at 1. rewrite Et.
    unfold bind at 1. unfold ret at 1. unfold ret at 1.
    destruct (be16_reduces_modulo_65536_aux (Z.of_nat (length payload) + 2) w)
      as (lh & ll & El & Vl).
    unfold bind at 1. rewrite El.
    cbn [app].
    unfold bind at 1.
    change (-2) with (- Z.of_nat 2).
    rewrite (py_getitem_neg _ 2 lh); [|simpl; lia|reflexivity].
    unfold bind at 1.
    change (-1) with (- Z.of_nat 1).
    rewrite (py_getitem_neg _ 1 ll); [|simpl; lia|reflexivity].
    rewrite land_65535.
    destruct (be16_reduces_modulo_65536_aux
                ((ptype + byte_to_Z lh + byte_to_Z ll + py_sum payload) mod 65536) w)
      as (ch & cl & Ec & Vc).
    unfold bind at 1. rewrite Ec.
    destruct (uart_write_spec ([xef; x01; a1; a2; a3; a4; tb; lh; ll] ++ payload ++ [ch; cl]) w)
      as (w' & Ew & Hlog & _).
    exists a1, a2, a3, a4, tb, lh, ll, ch, cl, w'.
    split; [exact Ew|]. split; [exact Hlog|]. split; [exact Va|].
    split; [exact Vt|]. split; [exact Vl|].
    rewrite Vc. apply Z.mod_mod. lia.
  - intros Hpt. unfold _write_packet.
    unfold bind at 1.
    change (_be16 STARTCODE w) with (@Ret (list byte) [xef; x01], w). cbv iota beta.
    destruct (to_bytes4_big_value address w Haddr) as (a1 & a2 & a3 & a4 & Ea & Va).
    unfold bind at 1. rewrite Ea.
    unfold bind at 1. unfold py_bytes at 1.
    assert (E : byte_of_Z ptype = None).
    { unfold byte_of_Z.
      destruct (0 <=? ptype) eqn:E1; [|reflexivity].
      destruct (ptype <? 256) eqn:E2; [|reflexivity].
      apply Z.leb_le in E1. apply Z.ltb_lt in E2. lia. }
    rewrite E. reflexivity.
Qed.

Lemma write_packet_layout_witness :
  (exists a1 a2 a3 a4 t lh ll ch cl w',
      _write_packet SENSOR_ADDRESS PACKET_COMMAND [x0a] (world_rx [x55]) = (Ret tt, w') /\
      log w' = log (world_rx [x55])
               ++ [EvUartWrite (rx (world_rx [x55]))
                     ([xef; x01; a1; a2; a3; a4; t; lh; ll] ++ [x0a] ++ [ch; cl])] /\
      ((byte_to_Z a1 * 256 + byte_to_Z a2) * 256 + byte_to_Z a3) * 256 + byte_to_Z a4
      = SENSOR_ADDRESS /\
      byte_to_Z t = PACKET_COMMAND /\
      byte_to_Z lh * 256 + byte_to_Z ll = (Z.of_nat (length [x0a]) + 2) mod 65536 /\
      byte_to_Z ch * 256 + byte_to_Z cl
      = (PACKET_COMMAND + byte_to_Z lh + byte_to_Z ll + py_sum [x0a]) mod 65536) /\
  _write_packet SENSOR_ADDRESS 256 [x0a] (world_rx [x55]) = (Raise ValueError, world_rx [x55]).
Proof.
  split.
  - apply (proj1 (write_packet_layout SENSOR_ADDRESS PACKET_COMMAND [x0a] (world_rx [x55])
                    ltac:(vm_compute; split; congruence))).
    vm_compute. split; congruence.
  - apply (proj2 (write_packet_layout SENSOR_ADDRESS 256 [x0a] (world_rx [x55])
                    ltac:(vm_compute; split; congruence))).
    vm_compute. intros [_ H]. discriminate H.
Defined.

Lemma set_clock_twice (c1 c2 : Z) (w : World) :
  set_clock c1 (set_clock c2 w) = set_clock c1 w.
Proof. destruct w; reflexivity. Qed.

(** With nothing waiting and nothing arriving, the read loop gives up once
    the deadline has passed. *)
Lemma _read_exact_loop_starved (b : nat) :
  forall (n t t0 : Z) (buf : list byte) (w : World),
    rx w = [] ->
    Z.of_nat (length buf) < n ->
    0 <= clock w - t0 <= t + 1 ->
    2000 * Z.of_nat b >= t - (clock w - t0) + 2000 ->
    exists c,
      _read_exact_loop b n t t0 buf w = (Ret None, set_clock c w) /\
      t < c - t0 <= t + 2001.
Proof.
  induction b as [|b IH]; intros n t t0 buf w Hrx Hlen Hd Hb; [lia|].
  cbn [_read_exact_loop].
  replace (Z.of_nat (length buf) <? n) with true by (symmetry; apply Z.ltb_lt; lia).
  unfold bind at 1. unfold uart_read. rewrite Hrx.
  unfold bind at 1. unfold ticks_ms, get. wsimpl.
  unfold ticks_diff, UART_TIMEOUT_MS.
  destruct (clock w + 2000 - t0 >? t) eqn:C.
  - exists (clock w + 2000). split; [reflexivity|].
    apply Z.gtb_lt in C. lia.
  - assert (Hle : clock w + 2000 - t0 <= t).
    { rewrite Z.gtb_ltb in C. apply Z.ltb_ge in C. exact C. }
    unfold bind at 1. unfold sleep_ms, modify. wsimpl.
    destruct (IH n t t0 buf (set_clock (clock w + 2000 + 1) (set_clock (clock w + 2000) w)))
      as (c & E & Hc).
    + wsimpl. exact Hrx.
    + exact Hlen.
    + wsimpl. lia.
    + wsimpl. lia.
    + exists c. rewrite E, !set_clock_twice. auto.
Qed.

Lemma read_exact_times_out_and_drops_aux (b : nat) (n t : Z) (w : World) :
  0 <= t ->
  Z.of_nat (length (rx w)) < n ->
  2000 * (Z.of_nat b - 1) >= t + 2000 ->
  exists c,
    _read_exact b n t w = (Ret None, set_clock c (set_rx [] w)) /\
    t < c - clock w <= t + 2001.
Proof.
  intros Ht Hlen Hb. unfold _read_exact, bind, ticks_ms, get.
  destruct (rx w) as [|x xs] eqn:Hrx.
  - destruct (_read_exact_loop_starved b n t (clock w) [] w Hrx) as (c & E & Hc);
      [simpl in *; lia|lia|lia|].
    exists c. rewrite E. split; [|exact Hc].
    f_equal. destruct w; simpl in *; subst; reflexivity.
  - destruct b as [|b]; [lia|]. cbn [_read_exact_loop].
    replace (Z.of_nat (length (@nil byte)) <? n) with true
      by (symmetry; apply Z.ltb_lt; simpl; lia).
    unfold bind at 1. unfold uart_read. rewrite Hrx.
    assert (Hk : (length (x :: xs) <= Z.to_nat (n - Z.of_nat (length (@nil byte))))%nat)
      by (simpl length in *; lia).
    rewrite firstn_all2, skipn_all2 by exact Hk. cbn [app].
    destruct (_read_exact_loop_starved b n t (clock w) (x :: xs) (set_rx [] w))
      as (c & E & Hc); [reflexivity|exact Hlen|wsimpl; lia|wsimpl; lia|].
    exists c. rewrite E. split; [reflexivity|exact Hc].
Qed.

(** X3.  When fewer than [n] bytes are waiting and no more arrive,
    [_read_exact] returns [None] - given a budget of loop passes that
    covers the deadline - between [timeout_ms] and [timeout_ms] + 2001 ms
    after the call, and the bytes it had read are gone from the receive
    buffer: they are neither returned nor put back. *)
Theorem read_exact_times_out_and_drops (b : nat) (n t : Z) (w : World) :
  0 <= t ->
  Z.of_nat (length (rx w)) < n ->
  2000 * (Z.of_nat b - 1) >= t + 2000 ->
  exists c,
    _read_exact b n t w = (Ret None, set_clock c (set_rx [] w)) /\
    t < c - clock w <= t + 2001.
Proof.
  intros Ht Hlen Hb.
  destruct (read_exact_times_out_and_drops_aux b n t w Ht Hlen Hb) as (c & E & Hc).
  exists c. split; [exact E|exact Hc].
Qed.

Lemma read_exact_times_out_and_drops_witness :
  exists c,
    _read_exact 5 9 5000 (world_rx [xef; x01; xff])
    = (Ret None, set_clock c (set_rx [] (world_rx [xef; x01; xff]))) /\
    5000 < c - clock (world_rx [xef; x01; xff]) <= 5000 + 2001.
Proof.
  apply (read_exact_times_out_and_drops 5 9 5000 (world_rx [xef; x01; xff])).
  - lia.
  - simpl. lia.
  - lia.
Defined.

(** X4.  An exact read that succeeds returns exactly the number of bytes
    asked for (none for a count of zero or less), taken in order from the
    head of the receive buffer; the bytes behind them stay, and nothing but
    the clock and the receive buffer changes. *)
Theorem read_exact_returns_the_head (b : nat) (n t : Z) (w w' : World) (bs : list byte) :
  _read_exact b n t w = (Ret (Some bs), w') ->
  rx w = bs ++ rx w' /\
  Z.of_nat (length bs) = Z.max 0 n /\
  uart_only w w'.
Proof.
  intros E. apply _read_exact_inv in E. destruct E as [U [Hrx Hlen]]. auto.
Qed.

Lemma read_exact_returns_the_head_witness :
  rx (world_rx [x01; x02; x03]) = [x01; x02] ++ rx (world_rx [x03]) /\
  Z.of_nat (length [x01; x02]) = Z.max 0 2 /\
  uart_only (world_rx [x01; x02; x03]) (world_rx [x03]).
Proof.
  apply (read_exact_returns_the_head 1 2 3000 (world_rx [x01; x02; x03]) (world_rx [x03])
           [x01; x02]).
  reflexivity.
Defined.

(** X5.  [_read_packet] reports a starved read by its place: "timeout
    header" when fewer than nine bytes arrive, "timeout body" when the
    header is good and fewer bytes follow than it declares.  Either way
    the bytes that did arrive are consumed. *)
Theorem read_packet_timeouts (b : nat) (t : Z) (w : World) :
  0 <= t ->
  2000 * (Z.of_nat b - 1) >= t + 2000 ->
  (Z.of_nat (length (rx w)) < 9 ->
   exists c,
     _read_packet b t w = (Raise (Exception "timeout header"), set_clock c (set_rx [] w)) /\
     t < c - clock w <= t + 2001) /\
  (forall a1 a2 a3 a4 tb lh ll rest,
      rx w = [xef; x01; a1; a2; a3; a4; tb; lh; ll] ++ rest ->
      Z.of_nat (length rest) < byte_to_Z lh * 256 + byte_to_Z ll ->
      exists c,
        _read_packet b t w = (Raise (Exception "timeout body"), set_clock c (set_rx [] w)) /\
        t < c - clock w <= t + 2001).
Proof.
  intros Ht Hb. split.
  - intros Hlen.
    destruct (read_exact_times_out_and_drops_aux b 9 t w Ht Hlen Hb) as (c & E & Hc).
    exists c. split; [|exact Hc].
    unfold _read_packet. unfold bind at 1. rewrite E. reflexivity.
  - intros a1 a2 a3 a4 tb lh ll rest Hrx Hlen.
    destruct b as [|b]; [lia|].
    rewrite (_read_packet_header b t w xef x01 a1 a2 a3 a4 tb lh ll rest Hrx).
    change (marker_ok xef x01) with true. cbv iota.
    unfold packet_body. rewrite be16_bytes. unfold bind at 1.
    destruct (read_exact_times_out_and_drops_aux (S b) (byte_to_Z lh * 256 + byte_to_Z ll) t
                (set_rx rest w) Ht) as (c & E & Hc); [exact Hlen|exact Hb|].
    exists c. rewrite E. split; [|exact Hc].
    reflexivity.
Qed.

Lemma read_packet_timeouts_witness :
  (exists c,
      _read_packet 5 5000 (world_rx [xef; x01; xff])
      = (Raise (Exception "timeout header"),
         set_clock c (set_rx [] (world_rx [xef; x01; xff]))) /\
      5000 < c - clock (world_rx [xef; x01; xff]) <= 5000 + 2001) /\
  (exists c,
      _read_packet 5 5000 (world_rx (firstn 10 ack_ok))
      = (Raise (Exception "timeout body"),
         set_clock c (set_rx [] (world_rx (firstn 10 ack_ok)))) /\
      5000 < c - clock (world_rx (firstn 10 ack_ok)) <= 5000 + 2001).
Proof.
  split.
  - apply (proj1 (read_packet_timeouts 5 5000 (world_rx [xef; x01; xff])
                    ltac:(lia) ltac:(lia))).
    simpl. lia.
  - apply (proj2 (read_packet_timeouts 5 5000 (world_rx (firstn 10 ack_ok))
                    ltac:(lia) ltac:(lia))
             xff xff xff xff x07 x00 x03 [x00]).
    + reflexivity.
    + vm_compute. reflexivity.
Defined.

(** X6.  [_read_packet] never looks at the four address bytes: two
    receive buffers that differ only there are decoded alike. *)
Theorem read_packet_ignores_address (b : nat) (t : Z) (w : World)
    (a1 a2 a3 a4 c1 c2 c3 c4 tb lh ll : byte) (more : list byte) :
  _read_packet (S b) t (set_rx ([xef; x01; a1; a2; a3; a4; tb; lh; ll] ++ more) w)
  = _read_packet (S b) t (set_rx ([xef; x01; c1; c2; c3; c4; tb; lh; ll] ++ more) w).
Proof.
  rewrite (_read_packet_header b t
             (set_rx ([xef; x01; a1; a2; a3; a4; tb; lh; ll] ++ more) w)
             xef x01 a1 a2 a3 a4 tb lh ll more) by reflexivity.
  rewrite (_read_packet_header b t
             (set_rx ([xef; x01; c1; c2; c3; c4; tb; lh; ll] ++ more) w)
             xef x01 c1 c2 c3 c4 tb lh ll more) by reflexivity.
  destruct w; reflexivity.
Qed.

Lemma py_sum_app (a b : list byte) : py_sum (a ++ b) = py_sum a + py_sum b.
Proof.
  unfold py_sum. induction a as [|x a IH]; simpl; [reflexivity|]. rewrite IH. lia.
Qed.

Lemma py_sum_perm (p p' : list byte) : Permutation p p' -> py_sum p = py_sum p'.
Proof.
  unfold py_sum. induction 1; simpl; lia.
Qed.

(** X7.  The checksum catches every change of one payload byte: a frame
    that was well-formed with byte [x] at some place of its payload and
    arrives with another byte [y] there raises "bad checksum". *)
Theorem corrupted_payload_byte_is_detected (b : nat) (t : Z) (w : World)
    (a1 a2 a3 a4 tb lh ll x y ch cl : byte) (p1 p2 tail : list byte) :
  x <> y ->
  byte_to_Z lh * 256 + byte_to_Z ll = Z.of_nat (length (p1 ++ x :: p2)) + 2 ->
  byte_to_Z ch * 256 + byte_to_Z cl
  = (byte_to_Z tb + byte_to_Z lh + byte_to_Z ll + py_sum (p1 ++ x :: p2)) mod 65536 ->
  rx w = [xef; x01; a1; a2; a3; a4; tb; lh; ll] ++ (p1 ++ y :: p2) ++ [ch; cl] ++ tail ->
  _read_packet (S b) t w = (Raise (Exception "bad checksum"), set_rx tail w).
Proof.
  intros Hxy Hlen Hcs Hrx.
  rewrite (_read_packet_header b t w xef x01 a1 a2 a3 a4 tb lh ll
             ((p1 ++ y :: p2) ++ [ch; cl] ++ tail) Hrx).
  change (marker_ok xef x01) with true. cbv iota.
  rewrite (packet_body_avail b t _ lh ll ch cl (p1 ++ y :: p2) tail).
  2:{ reflexivity. }
  2:{ rewrite Hlen, !length_app. reflexivity. }
  destruct (_ =? _) eqn:C; [|destruct w; reflexivity].
  exfalso. apply Z.eqb_eq in C. rewrite Hcs in C.
  rewrite !py_sum_app in C. unfold py_sum in C at 2 4. cbn [fold_right] in C.
  fold (py_sum p2) in C.
  assert (Hne : byte_to_Z x <> byte_to_Z y)
    by (intros E; apply Hxy; apply byte_to_Z_inj; exact E).
  pose proof (byte_to_Z_range x). pose proof (byte_to_Z_range y).
  revert C. generalize (byte_to_Z tb + byte_to_Z lh + byte_to_Z ll). intros base C.
  Z.div_mod_to_equations. lia.
Qed.

Lemma corrupted_payload_byte_is_detected_witness :
  _read_packet 1 5000
    (world_rx ([xef; x01; xff; xff; xff; xff; x02; x00; x04]
               ++ ([x11] ++ x23 :: []) ++ [x00; x39] ++ [x55]))
  = (Raise (Exception "bad checksum"),
     set_rx [x55]
       (world_rx ([xef; x01; xff; xff; xff; xff; x02; x00; x04]
                  ++ ([x11] ++ x23 :: []) ++ [x00; x39] ++ [x55]))).
Proof.
  apply (corrupted_payload_byte_is_detected 0 5000 _
           xff xff xff xff x02 x00 x04 x22 x23 x00 x39 [x11] [] [x55]).
  - discriminate.
  - reflexivity.
  - reflexivity.
  - reflexivity.
Defined.

(** X8.  The checksum cannot tell two payloads apart that have the same
    length and the same byte sum modulo 65536: the header and checksum of
    a well-formed frame carrying [p] are accepted with [p'] in its place.
    A payload whose bytes arrive in another order is such a one. *)
Theorem same_sum_payload_is_accepted (b : nat) (t : Z) (w : World)
    (a1 a2 a3 a4 tb lh ll ch cl : byte) (p p' tail : list byte) :
  byte_to_Z lh * 256 + byte_to_Z ll = Z.of_nat (length p) + 2 ->
  byte_to_Z ch * 256 + byte_to_Z cl
  = (byte_to_Z tb + byte_to_Z lh + byte_to_Z ll + py_sum p) mod 65536 ->
  rx w = [xef; x01; a1; a2; a3; a4; tb; lh; ll] ++ p' ++ [ch; cl] ++ tail ->
  (length p' = length p ->
   py_sum p' mod 65536 = py_sum p mod 65536 ->
   _read_packet (S b) t w = (Ret (byte_to_Z tb, p'), set_rx tail w)) /\
  (Permutation p p' ->
   _read_packet (S b) t w = (Ret (byte_to_Z tb, p'), set_rx tail w)).
Proof.
  intros Hlen Hcs Hrx.
  assert (H : length p' = length p ->
              py_sum p' mod 65536 = py_sum p mod 65536 ->
              _read_packet (S b) t w = (Ret (byte_to_Z tb, p'), set_rx tail w)).
  { intros Hl Hs.
    rewrite (_read_packet_header b t w xef x01 a1 a2 a3 a4 tb lh ll
               (p' ++ [ch; cl] ++ tail) Hrx).
    change (marker_ok xef x01) with true. cbv iota.
    rewrite (packet_body_avail b t _ lh ll ch cl p' tail).
    2:{ reflexivity. }
    2:{ rewrite Hlen, Hl. reflexivity. }
    replace ((byte_to_Z tb + byte_to_Z lh + byte_to_Z ll + py_sum p') mod 65536)
      with ((byte_to_Z tb + byte_to_Z lh + byte_to_Z ll + py_sum p) mod 65536).
    - rewrite Hcs, Z.eqb_refl. destruct w; reflexivity.
    - rewrite (Z.add_mod _ (py_sum p)), (Z.add_mod _ (py_sum p')) by lia.
      rewrite Hs. reflexivity. }
  split; [exact H|].
  intros Hperm. apply H.
  - symmetry. apply Permutation_length. exact Hperm.
  - rewrite (py_sum_perm p p' Hperm). reflexivity.
Qed.

Lemma same_sum_payload_is_accepted_witness :
  _read_packet 1 5000
    (world_rx ([xef; x01; xff; xff; xff; xff; x02; x00; x04]
               ++ [x22; x11] ++ [x00; x39] ++ [x55]))
  = (Ret (byte_to_Z x02, [x22; x11]),
     set_rx [x55]
       (world_rx ([xef; x01; xff; xff; xff; xff; x02; x00; x04]
                  ++ [x22; x11] ++ [x00; x39] ++ [x55]))) /\
  _read_packet 1 5000
    (world_rx ([xef; x01; xff; xff; xff; xff; x02; x00; x04]
               ++ [x10; x23] ++ [x00; x39] ++ [x55]))
  = (Ret (byte_to_Z x02, [x10; x23]),
     set_rx [x55]
       (world_rx ([xef; x01; xff; xff; xff; xff; x02; x00; x04]
                  ++ [x10; x23] ++ [x00; x39] ++ [x55]))).
Proof.
  split.
  - apply (proj2 (same_sum_payload_is_accepted 0 5000
                    (world_rx ([xef; x01; xff; xff; xff; xff; x02; x00; x04]
                               ++ [x22; x11] ++ [x00; x39] ++ [x55]))
                    xff xff xff xff x02 x00 x04 x00 x39 [x11; x22] [x22; x11] [x55]
                    ltac:(reflexivity) ltac:(reflexivity) ltac:(reflexivity))).
    apply perm_swap.
  - apply (proj1 (same_sum_payload_is_accepted 0 5000
                    (world_rx ([xef; x01; xff; xff; xff; xff; x02; x00; x04]
                               ++ [x10; x23] ++ [x00; x39] ++ [x55]))
                    xff xff xff xff x02 x00 x04 x00 x39 [x11; x22] [x10; x23] [x55]
                    ltac:(reflexivity) ltac:(reflexivity) ltac:(reflexivity)));
      reflexivity.
Defined.

(* ------------------------------------------------------------------ *)
(** ** The finger helpers *)





Lemma ensure_idle_loop_stuck (n : nat) :
  forall (q : Z) (start : option Z) (w : World),
    (n <= length (probes w))%nat ->
    Forall (fun e => present e = true) (firstn n (probes w)) ->
    fst (ensure_idle_loop n q start w) = Diverge /\
    log (snd (ensure_idle_loop n q start w)) = log w ++ repeat (EvProbe true) n.
Proof.
  induction n as [|n IH]; intros q start w Hlen Hall.
  - cbn. rewrite app_nil_r. auto.
  - destruct (probes w) as [|e more] eqn:Hp; [simpl in Hlen; lia|].
    cbn [firstn] in Hall. inversion Hall as [|? ? He Hmore]; subst.
    assert (E : exists w0,
               ensure_idle_loop (S n) q start w = ensure_idle_loop n q None w0 /\
               probes w0 = more /\ log w0 = log w ++ [EvProbe true]).
    { eexists. split.
      - cbn [ensure_idle_loop]. unfold bind at 1. unfold readImage.
        rewrite Hp, He. cbn [negb]. unfold bind at 1. reflexivity.
      - split; reflexivity. }
    destruct E as (w0 & E & Hp0 & L0). rewrite E.
    destruct (IH q None w0) as [A B].
    + rewrite Hp0. simpl in Hlen. lia.
    + rewrite Hp0. exact Hmore.
    + rewrite A, B, L0, <- app_assoc. auto.
Qed.

(** X10.  [ensure_idle] has no timeout: as long as every probe finds the
    finger on the sensor it neither returns nor logs anything but probes,
    however many passes it is given - and so [wait_for_finger], which
    starts with it, does not return either and does not sample the console
    meanwhile. *)
Theorem ensure_idle_waits_while_finger_stays (n : nat) (q : Z) (w : World) :
  (n <= length (probes w))%nat ->
  Forall (fun e => present e = true) (firstn n (probes w)) ->
  fst (ensure_idle n q w) = Diverge /\
  log (snd (ensure_idle n q w)) = log w ++ repeat (EvProbe true) n /\
  fst (wait_for_finger n (Some read_cmd_nb) w) = Diverge /\
  console (snd (wait_for_finger n (Some read_cmd_nb) w)) = console w.
Proof.
  intros Hlen Hall.
  destruct (ensure_idle_loop_stuck n q None w Hlen Hall) as [A B].
  split; [exact A|]. split; [exact B|].
  unfold wait_for_finger. unfold bind at 1 3. unfold print at 1 2, modify at 1 2.
  unfold bind at 1 2.
  destruct (ensure_idle_loop_stuck n QUIET_MS None (emit (EvPrint MsgPlaceFinger) w)
              Hlen Hall) as [A' _].
  pose proof (ensure_idle_loop_console n QUIET_MS None (emit (EvPrint MsgPlaceFinger) w))
    as Hc.
  fold (ensure_idle n QUIET_MS) in A', Hc.
  destruct (ensure_idle n QUIET_MS (emit (EvPrint MsgPlaceFinger) w)) as [[[]|e|] w1];
    cbn [fst snd] in *; try discriminate A'.
  split; [reflexivity|exact Hc].
Qed.

Lemma ensure_idle_waits_while_finger_stays_witness :
  fst (ensure_idle 50 QUIET_MS
         (set_console [Some "stop"] (set_probes (map finger (repeat true 50)) (world_rx []))))
  = Diverge /\
  log (snd (ensure_idle 50 QUIET_MS
         (set_console [Some "stop"] (set_probes (map finger (repeat true 50)) (world_rx [])))))
  = log (set_console [Some "stop"] (set_probes (map finger (repeat true 50)) (world_rx [])))
    ++ repeat (EvProbe true) 50 /\
  fst (wait_for_finger 50 (Some read_cmd_nb)
         (set_console [Some "stop"] (set_probes (map finger (repeat true 50)) (world_rx []))))
  = Diverge /\
  console (snd (wait_for_finger 50 (Some read_cmd_nb)
         (set_console [Some "stop"] (set_probes (map finger (repeat true 50)) (world_rx [])))))
  = console (set_console [Some "stop"]
               (set_probes (map finger (repeat true 50)) (world_rx []))).
Proof.
  apply (ensure_idle_waits_while_finger_stays 50 QUIET_MS
           (set_console [Some "stop"] (set_probes (map finger (repeat true 50)) (world_rx [])))).
  - vm_compute. repeat constructor.
  - vm_compute. repeat constructor.
Defined.




(** X12.  [flush_uart] never raises and, given one pass of its loop,
    returns with the receive buffer empty and everything else as it was:
    nothing is logged, no time passes. *)
Theorem flush_uart_empties_the_buffer (n : nat) (w : World) :
  (1 <= n)%nat ->
  flush_uart n w = (Ret tt, set_rx [] w).
Proof.
  intros Hn. destruct n as [|n]; [lia|].
  unfold flush_uart, bind, try_. cbn [flush_uart_loop].
  unfold bind, uart_any, get, uart_read_all.
  destruct (rx w) as [|x xs] eqn:Hrx; cbn -[flush_uart_loop].
  - unfold ret. f_equal. destruct w; simpl in *; subst; reflexivity.
  - rewrite Hrx. cbn -[flush_uart_loop].
    destruct n; cbn [flush_uart_loop]; unfold bind, uart_any, get; reflexivity.
Qed.

Lemma flush_uart_empties_the_buffer_witness :
  flush_uart 1 (world_rx data_11_22) = (Ret tt, set_rx [] (world_rx data_11_22)).
Proof.
  apply (flush_uart_empties_the_buffer 1 (world_rx data_11_22)). lia.
Defined.

(* ------------------------------------------------------------------ *)
(** ** Requests and transfers *)

Lemma http_post_start_cases (host : string) (port : Z) (path : string) (body_len : Z)
    (headers : list (string * string)) (w : World) :
  exists w',
    (hd true (net w) = false /\
     http_post_start host port path body_len headers w = (Raise OSError, w') /\
     log w' = log w ++ [EvConnect (next_sock w) false]) \/
    (hd true (net w) = true /\ hd true (tl (net w)) = false /\
     http_post_start host port path body_len headers w = (Raise OSError, w') /\
     log w' = log w ++ [EvConnect (next_sock w) true]) \/
    (hd true (net w) = true /\ hd true (tl (net w)) = true /\
     http_post_start host port path body_len headers w = (Ret (next_sock w), w') /\
     log w' = log w ++ [EvConnect (next_sock w) true;
                        EvSendHead (next_sock w)
                          (request_lines host port path body_len headers)] /\
     rx w' = rx w /\ next_sock w' = S (next_sock w)).
Proof.
  exists (snd (http_post_start host port path body_len headers w)).
  destruct w as [c r s p co n ns cc l].
  destruct n as [|[|] [|[|] n]];
    cbn [net hd tl];
    first
      [ left; split; [reflexivity|]; split; [reflexivity|]; reflexivity
      | right; left; split; [reflexivity|]; split; [reflexivity|];
        split; [reflexivity|]; reflexivity
      | right; right; split; [reflexivity|]; split; [reflexivity|];
        split; [reflexivity|]; split; [cbn; rewrite <- app_assoc; reflexivity|];
        split; reflexivity ].
Qed.

(** X13.  [http_post_start] has three outcomes, decided by the first two
    socket operations.  A refused connect raises [OSError] after the
    attempt alone; a connect that succeeds followed by a failing send of
    the request head raises [OSError] as well, with the socket connected
    and not handed to anybody; otherwise the socket just created is
    returned, the head having been sent in one piece. *)
Theorem http_post_start_outcomes (host : string) (port : Z) (path : string) (body_len : Z)
    (headers : list (string * string)) (w : World) :
  (hd true (net w) = false ->
   exists w',
     http_post_start host port path body_len headers w = (Raise OSError, w') /\
     log w' = log w ++ [EvConnect (next_sock w) false]) /\
  (hd true (net w) = true -> hd true (tl (net w)) = false ->
   exists w',
     http_post_start host port path body_len headers w = (Raise OSError, w') /\
     log w' = log w ++ [EvConnect (next_sock w) true]) /\
  (hd true (net w) = true -> hd true (tl (net w)) = true ->
   exists w',
     http_post_start host port path body_len headers w = (Ret (next_sock w), w') /\
     log w' = log w ++ [EvConnect (next_sock w) true;
                        EvSendHead (next_sock w)
                          (request_lines host port path body_len headers)]).
Proof.
  destruct (http_post_start_cases host port path body_len headers w)
    as (w' & [(H1 & E & L)|[(H1 & H2 & E & L)|(H1 & H2 & E & L & _)]]);
    (split; [|split]); intros; try congruence; exists w'; auto.
Qed.

Lemma http_post_start_outcomes_witness :
  (exists w',
     http_post_start HOST PORT PATH PACKED_LEN (cls_headers 1)
       (set_net [false] (world_rx [])) = (Raise OSError, w') /\
     log w' = log (set_net [false] (world_rx []))
              ++ [EvConnect (next_sock (set_net [false] (world_rx []))) false]) /\
  (exists w',
     http_post_start HOST PORT PATH PACKED_LEN (cls_headers 1)
       (set_net [true; false] (world_rx [])) = (Raise OSError, w') /\
     log w' = log (set_net [true; false] (world_rx []))
              ++ [EvConnect (next_sock (set_net [true; false] (world_rx []))) true]) /\
  (exists w',
     http_post_start HOST PORT PATH PACKED_LEN (cls_headers 1) (world_rx [])
     = (Ret (next_sock (world_rx [])), w') /\
     log w' = log (world_rx [])
              ++ [EvConnect (next_sock (world_rx [])) true;
                  EvSendHead (next_sock (world_rx []))
                    (request_lines HOST PORT PATH PACKED_LEN (cls_headers 1))]).
Proof.
  split; [|split].
  - apply (proj1 (http_post_start_outcomes HOST PORT PATH PACKED_LEN (cls_headers 1)
                    (set_net [false] (world_rx [])))).
    reflexivity.
  - apply (proj1 (proj2 (http_post_start_outcomes HOST PORT PATH PACKED_LEN (cls_headers 1)
                           (set_net [true; false] (world_rx []))))).
    + reflexivity.
    + reflexivity.
  - apply (proj2 (proj2 (http_post_start_outcomes HOST PORT PATH PACKED_LEN (cls_headers 1)
                           (world_rx [])))).
    + reflexivity.
    + reflexivity.
Defined.

Lemma http_post_finish_log (s : nat) (w : World) :
  exists w',
    http_post_finish s w = (Ret tt, w') /\
    log w' = log w ++ [EvClose s] /\
    rx w' = rx w /\ net w' = tl (net w) /\ next_sock w' = next_sock w /\
    cls_counter w' = cls_counter w.
Proof.
  exists (snd (http_post_finish s w)).
  destruct w as [c r se p co n ns cc l].
  destruct n as [|[|] n]; (split; [reflexivity|]); repeat split.
Qed.

(** X14.  [http_post_finish] never raises: whether reading the response
    succeeds or fails, the call returns normally, the socket is closed
    exactly once, and the receive buffer of the UART is not touched. *)
Theorem http_post_finish_always_closes (s : nat) (w : World) :
  exists w',
    http_post_finish s w = (Ret tt, w') /\
    log w' = log w ++ [EvClose s] /\
    rx w' = rx w.
Proof.
  destruct (http_post_finish_log s w) as (w' & E & L & R & _).
  exists w'. auto.
Qed.

Lemma total_length_cons (p : list byte) (ps : list (list byte)) :
  total_length (p :: ps) = Z.of_nat (length p) + total_length ps.
Proof. reflexivity. Qed.

Lemma stream_loop_shape (inner sock : nat) :
  forall (b : nat) (sent : Z) (w : World) r w',
    stream_loop b inner sock sent w = (r, w') ->
    exists ps,
      log w' = log w ++ map (EvSendBody sock) ps /\
      match r with
      | Ret n => n = sent + total_length ps
      | _ => True
      end.
Proof.
  induction b as [|b IH]; intros sent w r w' E.
  - inversion E; subst. exists []. cbn. rewrite app_nil_r. auto.
  - cbn [stream_loop] in E. unfold bind at 1 in E.
    destruct (_read_packet inner 5000 w) as [r1 w1] eqn:E1.
    destruct (_read_packet_inv _ _ _ _ _ E1) as [U _].
    apply uart_only_fields in U. destruct U as (L1 & _).
    destruct r1 as [[pt pl]|e|]; cbn [fst snd] in E;
      [|inversion E; subst; exists []; cbn; rewrite app_nil_r; auto..].
    destruct (negb ((pt =? PACKET_DATA) || (pt =? PACKET_DATA_END))).
    + inversion E; subst. exists []. cbn. rewrite app_nil_r. auto.
    + unfold bind at 1 in E.
      destruct (sock_send sock pl w1) as [r2 w2] eqn:E2.
      assert (H2 : (exists e, r2 = Raise e /\ log w2 = log w1) \/
                   (r2 = Ret tt /\ log w2 = log w1 ++ [EvSendBody sock pl])).
      { unfold sock_send, bind, net_op, modify in E2.
        destruct (net w1) as [|[|] more]; inversion E2; subst; eauto. }
      destruct H2 as [(e & -> & L2)|[-> L2]].
      * inversion E; subst. exists []. cbn. rewrite app_nil_r.
        split; [congruence|exact I].
      * destruct (pt =? PACKET_DATA_END).
        -- inversion E; subst. exists [pl]. rewrite L2, L1, total_length_cons.
           split; [reflexivity|]. change (total_length []) with 0. lia.
        -- apply IH in E. destruct E as (ps & L & R).
           exists (pl :: ps). rewrite L, L2, L1, <- app_assoc.
           split; [reflexivity|].
           destruct r; auto. rewrite total_length_cons. lia.
Qed.

Lemma after_command_shape (n sock : nat) (w : World) r w' :
  after_command n sock w = (r, w') ->
  exists ps,
    log w' = log w ++ map (EvSendBody sock) ps /\
    match r with
    | Ret n => n = total_length ps
    | _ => True
    end.
Proof.
  intros E.
  destruct (_read_packet n 5000 w) as [r1 w1] eqn:E1.
  destruct (_read_packet_inv _ _ _ _ _ E1) as [U F].
  apply uart_only_fields in U. destruct U as (L1 & _).
  destruct r1 as [[pt pl]|e|].
  - destruct F as (bs & F & Hrx).
    destruct n as [|b]; [discriminate E1|].
    rewrite (after_command_reply b sock w bs (rx w1) pt pl F Hrx) in E.
    destruct ((pt =? PACKET_ACK) && (nack_code pl =? 0)).
    + apply stream_loop_shape in E. destruct E as (ps & L & R).
      exists ps. split; [exact L|]. destruct r; auto.
    + inversion E; subst. exists []. cbn. rewrite app_nil_r. auto.
  - unfold after_command in E. unfold bind at 1 in E. rewrite E1 in E.
    inversion E; subst. exists []. cbn. rewrite app_nil_r. auto.
  - unfold after_command in E. unfold bind at 1 in E. rewrite E1 in E.
    inversion E; subst. exists []. cbn. rewrite app_nil_r. auto.
Qed.

Lemma stream_command_bytes (n sock : nat) (w : World) :
  exists w1,
    stream_upimage_to_http n SENSOR_ADDRESS sock w = after_command n sock w1 /\
    log w1 = log w ++ [EvUartWrite (rx w) upimage_command] /\
    rx w1 = rx w ++ hd [] (sensor w) /\
    net w1 = net w.
Proof.
  destruct (uart_write_spec upimage_command w) as (w1 & Ew & Hlog & Hrx & Hnet).
  exists w1. split; [|auto].
  change (stream_upimage_to_http n SENSOR_ADDRESS sock)
    with (c <- py_bytes [CMD_DOWNLOADIMAGE] ;;
          _write_packet SENSOR_ADDRESS PACKET_COMMAND c ;;
          after_command n sock).
  unfold bind at 1. change (py_bytes [CMD_DOWNLOADIMAGE] w) with (@Ret (list byte) [x0a], w).
  cbv iota beta. unfold bind at 1.
  change (_write_packet SENSOR_ADDRESS PACKET_COMMAND [x0a] w)
    with (uart_write upimage_command w).
  rewrite Ew. reflexivity.
Qed.

Lemma stream_shape (n sock : nat) (w : World) :
  exists ps,
    log (snd (stream_upimage_to_http n SENSOR_ADDRESS sock w))
    = log w ++ EvUartWrite (rx w) upimage_command :: map (EvSendBody sock) ps /\
    match fst (stream_upimage_to_http n SENSOR_ADDRESS sock w) with
    | Ret sent => sent = total_length ps /\ sent = Z.of_nat (length (concat ps))
    | _ => True
    end.
Proof.
  destruct (stream_command_bytes n sock w) as (w1 & E & L1 & _).
  rewrite E.
  destruct (after_command n sock w1) as [r w'] eqn:E'.
  destruct (after_command_shape n sock w1 r w' E') as (ps & L & R).
  exists ps. cbn [fst snd]. rewrite L, L1, <- app_assoc. split; [reflexivity|].
  destruct r; auto.
  split; [exact R|]. rewrite R. clear.
  induction ps as [|p ps IH]; [reflexivity|].
  rewrite total_length_cons, IH. cbn [concat]. rewrite length_app. lia.
Qed.

(** X15.  Whatever the sensor answers and however the call ends,
    [stream_upimage_to_http] with the sensor's address writes the download
    command EF 01 FF FF FF FF 01 00 03 0A 00 0E exactly once, first, and
    after it logs nothing but body sends on the socket it was given; when
    it returns, the number it returns is the number of bytes it sent. *)
Theorem stream_sends_what_it_counts (n sock : nat) (w : World) :
  exists ps,
    log (snd (stream_upimage_to_http n SENSOR_ADDRESS sock w))
    = log w ++ EvUartWrite (rx w) upimage_command :: map (EvSendBody sock) ps /\
    match fst (stream_upimage_to_http n SENSOR_ADDRESS sock w) with
    | Ret sent => sent = total_length ps /\ sent = Z.of_nat (length (concat ps))
    | _ => True
    end.
Proof. exact (stream_shape n sock w). Qed.

Lemma stream_loop_send_fails (k inner sock : nat) (sent : Z) (w : World)
    (bs rest payload : list byte) (ptype : Z) :
  wire_frame bs ptype payload ->
  rx w = bs ++ rest ->
  ptype = PACKET_DATA \/ ptype = PACKET_DATA_END ->
  hd true (net w) = false ->
  stream_loop (S k) (S inner) sock sent w
  = (Raise OSError, pop_net (set_rx rest w)).
Proof.
  intros F Hrx Ht Hnet. cbn [stream_loop]. unfold bind at 1.
  rewrite (_read_packet_frame inner 5000 bs rest ptype payload w F Hrx).
  cbn [fst snd].
  assert (C : negb ((ptype =? PACKET_DATA) || (ptype =? PACKET_DATA_END)) = false)
    by (destruct Ht as [-> | ->]; reflexivity).
  rewrite C. unfold bind at 1. unfold sock_send, bind, net_op, pop_net.
  destruct w as [c r s p co n ns cc l]. cbn in Hnet |- *.
  destruct n as [|[|] n]; try discriminate Hnet. reflexivity.
Qed.

(** X16.  A [sock.send] that fails in the middle of a transfer ends the
    call with [OSError]: the payloads of the frames before it have been
    forwarded, the payload of the frame in hand has been read from the UART
    and is lost, and the frames behind it stay unread in the receive
    buffer. *)
Theorem send_failure_aborts_transfer
    (b sock : nat) (w : World)
    (ack ack_rest : list byte) (frames : list (list byte * list byte))
    (cur_bs cur_p tail : list byte) (cur_type : Z) :
  wire_frame ack PACKET_ACK (x00 :: ack_rest) ->
  Forall (fun f => wire_frame (fst f) PACKET_DATA (snd f)) frames ->
  wire_frame cur_bs cur_type cur_p ->
  cur_type = PACKET_DATA \/ cur_type = PACKET_DATA_END ->
  rx w ++ hd [] (sensor w) = ack ++ concat (map fst frames) ++ cur_bs ++ tail ->
  Forall (eq true) (firstn (length frames) (net w)) ->
  hd true (skipn (length frames) (net w)) = false ->
  (length frames <= b)%nat ->
  exists w',
    stream_upimage_to_http (S b) SENSOR_ADDRESS sock w = (Raise OSError, w') /\
    log w' = log w ++ EvUartWrite (rx w) upimage_command
                      :: map (EvSendBody sock) (map snd frames) /\
    rx w' = tail.
Proof.
  intros Fack Fdata Fcur Ht Hrx Hnet Hfail Hb.
  destruct (stream_command_bytes (S b) sock w) as (w1 & E & Hlog1 & Hrx1 & Hnet1).
  rewrite Hrx in Hrx1.
  rewrite E, (after_command_reply b sock w1 ack _ PACKET_ACK (x00 :: ack_rest) Fack Hrx1).
  change ((PACKET_ACK =? PACKET_ACK) && (nack_code (x00 :: ack_rest) =? 0)) with true.
  cbv iota.
  destruct (stream_loop_run b sock frames (S (b - length frames)) 0
              (set_rx (concat (map fst frames) ++ cur_bs ++ tail) w1)
              (cur_bs ++ tail) Fdata)
    as (w2 & E2 & Hlog2 & Hrx2 & Hnet2).
  { reflexivity. }
  { wsimpl. rewrite Hnet1. exact Hnet. }
  replace (length frames + S (b - length frames))%nat with (S b) in E2 by lia.
  rewrite E2. wsimpl. rewrite Hnet1 in Hnet2. rewrite Hlog1 in Hlog2.
  rewrite (stream_loop_send_fails _ b sock _ w2 cur_bs tail cur_p cur_type Fcur Hrx2 Ht)
    by (rewrite Hnet2; exact Hfail).
  eexists. split; [reflexivity|]. unfold pop_net. wsimpl.
  rewrite Hlog2, <- app_assoc. split; reflexivity.
Qed.

Lemma send_failure_aborts_transfer_witness :
  exists w',
    stream_upimage_to_http 2 SENSOR_ADDRESS 0
      (set_net [true; false]
         (world_sensor (ack_ok ++ data_11_22 ++ data_end_33 ++ data_01)))
    = (Raise OSError, w') /\
    log w' = log (set_net [true; false]
                    (world_sensor (ack_ok ++ data_11_22 ++ data_end_33 ++ data_01)))
             ++ EvUartWrite
                  (rx (set_net [true; false]
                         (world_sensor (ack_ok ++ data_11_22 ++ data_end_33 ++ data_01))))
                  upimage_command
                :: map (EvSendBody 0) (map snd [(data_11_22, [x11; x22])]) /\
    rx w' = data_01.
Proof.
  apply (send_failure_aborts_transfer 1 0
           (set_net [true; false]
              (world_sensor (ack_ok ++ data_11_22 ++ data_end_33 ++ data_01)))
           ack_ok [] [(data_11_22, [x11; x22])] data_end_33 [x33] data_01
           PACKET_DATA_END).
  - frame_tac.
  - repeat constructor; frame_tac.
  - frame_tac.
  - right. reflexivity.
  - reflexivity.
  - repeat constructor.
  - reflexivity.
  - simpl. lia.
Defined.

(* ------------------------------------------------------------------ *)
(** ** The session across a capture cycle *)

Lemma keeps_ret {A} (a : A) : keeps (ret a).
Proof. intros w. reflexivity. Qed.

Lemma keeps_raise {A} (e : exn) : keeps (@raise A e).
Proof. intros w. reflexivity. Qed.

Lemma keeps_diverge {A} : keeps (@diverge A).
Proof. intros w. reflexivity. Qed.

Lemma keeps_get {A} (f : World -> A) : keeps (get f).
Proof. intros w. reflexivity. Qed.

Lemma keeps_bind {A B} (m : M A) (k : A -> M B) :
  keeps m -> (forall a, keeps (k a)) -> keeps (bind m k).
Proof.
  intros Hm Hk w. unfold bind. specialize (Hm w).
  destruct (m w) as [[a|e|] w1]; cbn [snd] in *; try exact Hm.
  rewrite Hk. exact Hm.
Qed.

Lemma keeps_try {A} (m : M A) : keeps m -> keeps (try_ m).
Proof.
  intros Hm w. unfold try_. specialize (Hm w).
  destruct (m w) as [[a|e|] w1]; exact Hm.
Qed.

Lemma keeps_sleep (d : Z) : keeps (sleep_ms d).
Proof. intros w. reflexivity. Qed.

Lemma keeps_print (m : message) : keeps (print m).
Proof. intros w. reflexivity. Qed.

Lemma keeps_readImage : keeps readImage.
Proof. intros w. unfold readImage. destruct (probes w); reflexivity. Qed.

Lemma keeps_read_cmd_nb : keeps read_cmd_nb.
Proof. intros w. unfold read_cmd_nb. destruct (console w); reflexivity. Qed.

Lemma keeps_uart_read_all : keeps uart_read_all.
Proof. intros w. unfold uart_read_all. destruct (rx w); reflexivity. Qed.

Lemma keeps_uart_write (data : list byte) : keeps (uart_write data).
Proof. intros w. unfold uart_write. destruct (sensor w); reflexivity. Qed.

Lemma keeps_net_op : keeps net_op.
Proof. intros w. unfold net_op. destruct (net w) as [|[|] ?]; reflexivity. Qed.

Lemma keeps_sock_send (s : nat) (data : list byte) : keeps (sock_send s data).
Proof.
  apply keeps_bind; [apply keeps_net_op|]. intros _ w. reflexivity.
Qed.

Lemma keeps_read_packet (b : nat) (t : Z) : keeps (_read_packet b t).
Proof.
  intros w. destruct (_read_packet b t w) as [r w'] eqn:E.
  apply _read_packet_inv in E. destruct E as [U _].
  apply uart_only_fields in U. unfold session. cbn [snd].
  destruct U as (_ & _ & _ & _ & _ & -> & ->). reflexivity.
Qed.

(** One step of structural reasoning about [keeps]. *)
Ltac keeps_step :=
  first
    [ apply keeps_ret | apply keeps_raise | apply keeps_diverge
    | apply keeps_sleep | apply keeps_get | apply keeps_print
    | apply keeps_readImage | apply keeps_read_cmd_nb
    | apply keeps_uart_read_all | apply keeps_uart_write
    | apply keeps_net_op | apply keeps_sock_send | apply keeps_read_packet
    | apply keeps_try
    | apply keeps_bind; [|intros ?]
    | match goal with
      | |- keeps (if ?c then _ else _) => destruct c
      | |- keeps (match ?x with _ => _ end) => destruct x
      end ].

Lemma ensure_idle_loop_keeps (n : nat) :
  forall q start, keeps (ensure_idle_loop n q start).
Proof.
  induction n as [|n IH]; intros q start; cbn [ensure_idle_loop].
  - keeps_step.
  - unfold ticks_ms. repeat (keeps_step; try apply IH).
Qed.

Lemma wait_for_finger_loop_keeps (n : nat) :
  keeps (wait_for_finger_loop n (Some read_cmd_nb)).
Proof.
  induction n as [|n IH]; cbn [wait_for_finger_loop].
  - keeps_step.
  - repeat (keeps_step; try apply IH).
Qed.

Lemma wait_for_finger_keeps (n : nat) : keeps (wait_for_finger n (Some read_cmd_nb)).
Proof.
  unfold wait_for_finger. keeps_step; [keeps_step|].
  keeps_step; [apply ensure_idle_loop_keeps|apply wait_for_finger_loop_keeps].
Qed.

Lemma wait_for_lift_loop_keeps (n : nat) :
  forall t t0, keeps (wait_for_lift_loop n t t0).
Proof.
  induction n as [|n IH]; intros t t0; cbn [wait_for_lift_loop].
  - keeps_step.
  - unfold ticks_ms. repeat (keeps_step; try apply IH).
Qed.

Lemma wait_for_lift_keeps (n : nat) (t : Z) : keeps (wait_for_lift n t).
Proof.
  unfold wait_for_lift, ticks_ms. keeps_step; [keeps_step|].
  keeps_step; [keeps_step|apply wait_for_lift_loop_keeps].
Qed.

Lemma flush_uart_loop_keeps (n : nat) : keeps (flush_uart_loop n).
Proof.
  induction n as [|n IH]; cbn [flush_uart_loop]; unfold uart_any;
    repeat (keeps_step; try apply IH).
Qed.

Lemma flush_uart_keeps (n : nat) : keeps (flush_uart n).
Proof.
  unfold flush_uart. keeps_step; [|keeps_step].
  keeps_step. apply flush_uart_loop_keeps.
Qed.

Lemma stream_loop_keeps (inner sock : nat) :
  forall b sent, keeps (stream_loop b inner sock sent).
Proof.
  induction b as [|b IH]; intros sent; cbn [stream_loop].
  - keeps_step.
  - repeat (keeps_step; try apply IH).
Qed.

Lemma py_getitem_keeps (bs : list byte) (i : Z) : keeps (py_getitem bs i).
Proof.
  intros w. unfold py_getitem.
  destruct (_ && _); [destruct (nth_error _ _)|]; reflexivity.
Qed.

Lemma after_command_keeps (n sock : nat) : keeps (after_command n sock).
Proof.
  unfold after_command.
  repeat (first [apply py_getitem_keeps|keeps_step]; try apply stream_loop_keeps).
Qed.

Lemma stream_keeps (n sock : nat) : keeps (stream_upimage_to_http n SENSOR_ADDRESS sock).
Proof.
  intros w.
  change (stream_upimage_to_http n SENSOR_ADDRESS sock w)
    with ((uart_write upimage_command ;; after_command n sock) w).
  revert w. apply keeps_bind; [apply keeps_uart_write|].
  intros _. apply after_command_keeps.
Qed.

Lemma cycle_tail_keeps {A : Type} (n : nat) (f : control -> A) : keeps (cycle_tail n f).
Proof.
  unfold cycle_tail.
  keeps_step; [apply wait_for_lift_keeps|].
  keeps_step; [apply ensure_idle_loop_keeps|].
  keeps_step; [apply flush_uart_keeps|].
  repeat keeps_step.
Qed.

Lemma http_post_start_session (host : string) (port : Z) (path : string) (body_len : Z)
    (headers : list (string * string)) (w : World) :
  session (snd (http_post_start host port path body_len headers w))
  = (S (next_sock w), cls_counter w).
Proof.
  destruct w as [c r s p co n ns cc l].
  destruct n as [|[|] [|[|] ?]]; reflexivity.
Qed.

(* ------------------------------------------------------------------ *)
(** ** What a capture cycle achieves *)

Lemma summary_log (w w' : World) (new t : list event) :
  log w' = log w ++ new -> filter significant new = t -> summary w w' t.
Proof. intros L F. exists new. auto. Qed.

Lemma summary_chain (w1 w2 w3 : World) (t1 t2 t : list event) :
  summary w1 w2 t1 -> summary w2 w3 t2 -> t = t1 ++ t2 -> summary w1 w3 t.
Proof.
  intros (n1 & L1 & F1) (n2 & L2 & F2) ->. exists (n1 ++ n2).
  rewrite L2, L1, app_assoc, filter_app, F1, F2. auto.
Qed.

Lemma filter_quiet (l : list event) :
  Forall quiet l -> filter significant l = [].
Proof.
  induction 1 as [|e l He _ IH]; [reflexivity|].
  cbn [filter]. rewrite He. exact IH.
Qed.

Lemma summary_quiet (w w' : World) : grows quiet w w' -> summary w w' [].
Proof. intros (new & L & F). exists new. split; [exact L|apply filter_quiet; exact F]. Qed.

Lemma summary_same (w w' : World) : log w' = log w -> summary w w' [].
Proof. intros L. exists []. rewrite app_nil_r. auto. Qed.

Lemma idle_quiet (e : event) : idle_event e -> quiet e.
Proof. destruct e as [[]| | | | | | |]; cbn; intros H; try contradiction; reflexivity. Qed.

Lemma wait_for_finger_summary (n : nat) (w : World) :
  match wait_for_finger n (Some read_cmd_nb) w with
  | (Ret st, w') =>
      summary w w' [] /\ session w' = session w /\
      (st = ("ok", None) \/ exists c, st = ("abort", c) /\ is_stop_cmd c = true)
  | (Raise _, _) => False
  | (Diverge, _) => True
  end.
Proof.
  pose proof (wait_for_finger_spec n w) as H.
  pose proof (wait_for_finger_keeps n w) as K.
  destruct (wait_for_finger n (Some read_cmd_nb) w) as [[st|e|] w']; cbn [snd] in K; auto.
  split; [|split; [exact K|]].
  - destruct H as [[_ G]|(c & pre & _ & _ & F & L)].
    + apply summary_quiet. eapply grows_weaken; [exact idle_quiet|exact G].
    + apply (summary_log w w' (pre ++ [EvPoll c])); [exact L|].
      rewrite filter_app, filter_quiet; [reflexivity|].
      eapply Forall_impl; [exact idle_quiet|exact F].
  - destruct H as [[-> _]|(c & pre & -> & Hc & _)]; eauto.
Qed.

Lemma flush_uart_summary (n : nat) (w : World) :
  match flush_uart n w with
  | (Ret _, w') => summary w w' [] /\ session w' = session w
  | (Raise _, _) => False
  | (Diverge, _) => True
  end.
Proof.
  destruct (flush_uart_spec n w) as [L R].
  pose proof (flush_uart_keeps n w) as K.
  destruct (flush_uart n w) as [[[]|e|] w']; cbn [fst snd] in *; auto.
  split; [apply summary_same; exact L|exact K].
Qed.

Lemma cycle_tail_summary {A : Type} (n : nat) (f : control -> A) (w : World) :
  match cycle_tail n f w with
  | (Ret a, w') =>
      summary w w' [] /\ session w' = session w /\
      (a = f Next \/ exists c, a = f (Return c) /\ is_stop_cmd c = true)
  | (Raise _, _) => False
  | (Diverge, _) => True
  end.
Proof.
  pose proof (cycle_tail_spec quiet idle_quiet (fun _ => eq_refl) (fun _ => eq_refl) n f w)
    as H.
  pose proof (cycle_tail_keeps n f w) as K.
  destruct (cycle_tail n f w) as [[a|e|] w']; cbn [snd] in K; auto.
  destruct H as [_ H]. split; [|split; [exact K|]].
  - apply summary_quiet.
    destruct H as [[_ S]|(c & _ & _ & S)]; eapply step_grows; exact S.
  - destruct H as [[-> _]|(c & -> & Hc & _)]; eauto.
Qed.

Lemma filter_sends (sock : nat) (ps : list (list byte)) :
  filter significant (map (EvSendBody sock) ps) = map (EvSendBody sock) ps.
Proof.
  induction ps as [|p ps IH]; [reflexivity|].
  cbn [map filter significant]. rewrite IH. reflexivity.
Qed.

Lemma stream_summary (n sock : nat) (w : World) :
  exists ps,
    summary w (snd (stream_upimage_to_http n SENSOR_ADDRESS sock w))
      (map (EvSendBody sock) ps) /\
    match fst (stream_upimage_to_http n SENSOR_ADDRESS sock w) with
    | Ret sent => sent = total_length ps
    | _ => True
    end /\
    session (snd (stream_upimage_to_http n SENSOR_ADDRESS sock w)) = session w.
Proof.
  destruct (stream_shape n sock w) as (ps & L & R).
  exists ps. split; [|split; [|apply stream_keeps]].
  - apply (summary_log _ _ _ _ L). cbn [filter significant]. apply filter_sends.
  - destruct (fst (stream_upimage_to_http n SENSOR_ADDRESS sock w)); auto. apply R.
Qed.

(** The [try:] block by its outcome: what it logged of significance, the
    value of [sock] it leaves, and the session after it. *)
Lemma try_upload_summary (n : nat) (headers : list (string * string))
    (report : Z -> M unit) (msg : Z -> message) (w : World) :
  (forall sent, significant (EvPrint (msg sent)) = true) ->
  (forall sent w0,
      fst (report sent w0) = Ret tt /\
      log (snd (report sent w0)) = log w0 ++ [EvPrint (msg sent)]) ->
  exists w1,
    session w1 = (S (next_sock w), cls_counter w) /\
    match try_upload n headers report w with
    | (Ret (sock, inl sent), w') =>
        sock = Some (next_sock w) /\ w' = snd (report sent w1) /\
        exists ps,
          sent = total_length ps /\
          summary w w'
            (EvConnect (next_sock w) true
             :: EvSendHead (next_sock w) (request_lines HOST PORT PATH PACKED_LEN headers)
             :: map (EvSendBody (next_sock w)) ps
             ++ [EvClose (next_sock w); EvPrint (msg sent)])
    | (Ret (sock, inr _), w') =>
        w' = w1 /\
        ((sock = None /\ exists ok, summary w w' [EvConnect (next_sock w) ok]) \/
         (sock = Some (next_sock w) /\
          exists ps,
            summary w w'
              (EvConnect (next_sock w) true
               :: EvSendHead (next_sock w)
                    (request_lines HOST PORT PATH PACKED_LEN headers)
               :: map (EvSendBody (next_sock w)) ps)))
    | (Raise _, _) => False
    | (Diverge, _) => True
    end.
Proof.
  intros Hmsg Hreport. unfold try_upload. unfold bind at 1. unfold try_ at 1.
  pose proof (http_post_start_session HOST PORT PATH PACKED_LEN headers w) as Hs.
  destruct (http_post_start_cases HOST PORT PATH PACKED_LEN headers w)
    as (w1 & [(H1 & E & L)|[(H1 & H2 & E & L)|(H1 & H2 & E & L & _)]]);
    rewrite E in *; cbn [fst snd] in *.
  - exists w1. split; [exact Hs|]. unfold ret. split; [reflexivity|].
    left. split; [reflexivity|]. exists false.
    apply (summary_log _ _ _ _ L). reflexivity.
  - exists w1. split; [exact Hs|]. unfold ret. split; [reflexivity|].
    left. split; [reflexivity|]. exists true.
    apply (summary_log _ _ _ _ L). reflexivity.
  - assert (S1 : summary w w1
                   [EvConnect (next_sock w) true;
                    EvSendHead (next_sock w)
                      (request_lines HOST PORT PATH PACKED_LEN headers)])
      by (apply (summary_log _ _ _ _ L); reflexivity).
    unfold bind at 1. unfold try_ at 1. unfold bind at 1.
    destruct (stream_summary n (next_sock w) w1) as (ps & S2 & R2 & K2).
    destruct (stream_upimage_to_http n SENSOR_ADDRESS (next_sock w) w1)
      as [[sent|e|] w2]; cbn [fst snd] in *.
    + unfold bind at 1.
      destruct (http_post_finish_log (next_sock w) w2)
        as (w3 & E3 & L3 & _ & _ & N3 & C3).
      rewrite E3. unfold bind at 1.
      destruct (Hreport sent w3) as [F4 L4].
      destruct (report sent w3) as [[[]|e|] w4] eqn:E4; cbn [fst snd] in *;
        try discriminate F4.
      exists w3. split.
      { unfold session in *. rewrite N3, C3. congruence. }
      unfold ret. split; [reflexivity|]. split; [rewrite E4; reflexivity|].
      exists ps. split; [exact R2|].
      eapply summary_chain; [exact S1| |reflexivity].
      eapply summary_chain; [exact S2| |reflexivity].
      eapply summary_chain; [apply (summary_log _ _ _ _ L3); reflexivity| |reflexivity].
      apply (summary_log _ _ _ _ L4). cbn [filter]. rewrite Hmsg. reflexivity.
    + exists w2. split; [congruence|]. unfold ret. split; [reflexivity|].
      right. split; [reflexivity|]. exists ps.
      eapply summary_chain; [exact S1|exact S2|reflexivity].
    + exists w2. split; [congruence|exact I].
Qed.

Lemma summary_emit (e : event) (w : World) :
  summary w (emit e w) (filter significant [e]).
Proof. exists [e]. auto. Qed.

(** The handler's [if sock: http_post_finish(sock)]. *)
Lemma handler_summary (sock : option nat) (w : World) :
  exists w1,
    (match sock with Some s => http_post_finish s | None => ret tt end) w = (Ret tt, w1) /\
    summary w w1 (match sock with Some s => [EvClose s] | None => [] end) /\
    session w1 = session w.
Proof.
  destruct sock as [s|].
  - destruct (http_post_finish_log s w) as (w1 & E & L & _ & _ & N & C).
    exists w1. split; [exact E|]. split; [apply (summary_log _ _ _ _ L); reflexivity|].
    unfold session. congruence.
  - exists w. split; [reflexivity|]. split; [apply summary_same|]; reflexivity.
Qed.

Lemma detect_after_summary (n : nat) (k : Z) (r : option nat * (Z + exn)) (w : World) :
  match detect_after n k r w with
  | (Ret (k', ctl), w') =>
      summary w w' (match r with (Some s, inr _) => [EvClose s] | _ => [] end) /\
      session w' = session w /\
      k' = (match snd r with inl _ => k + 1 | inr _ => k end) /\
      match ctl with Return c => is_stop_cmd c = true | Next => True end
  | (Raise _, _) => False
  | (Diverge, _) => True
  end.
Proof.
  destruct r as [sock [sent|x]]; cbn [detect_after snd].
  - pose proof (cycle_tail_summary n (fun ctl => (k + 1, ctl)) w) as T.
    destruct (cycle_tail n (fun ctl => (k + 1, ctl)) w) as [[[k' ctl]|e|] w']; auto.
    destruct T as (S & K & T).
    split; [destruct sock; exact S|]. split; [exact K|].
    destruct T as [E|(c & E & Hc)]; inversion E; subst; auto.
  - unfold bind at 1.
    destruct (handler_summary sock w) as (w1 & -> & S1 & K1).
    unfold bind at 1. unfold print at 1, modify at 1.
    pose proof (cycle_tail_summary n (fun ctl => (k, ctl))
                  (emit (EvPrint (MsgUploadError x)) w1)) as T.
    destruct (cycle_tail n (fun ctl => (k, ctl)) _) as [[[k' ctl]|e|] w']; auto.
    destruct T as (S & K & T). split; [|split; [|]].
    + eapply summary_chain; [exact S1| |symmetry; apply app_nil_r].
      eapply summary_chain; [apply summary_emit|exact S|reflexivity].
    + rewrite K. exact K1.
    + destruct T as [E|(c & E & Hc)]; inversion E; subst; auto.
Qed.

Lemma cls_after_summary (n : nat) (r : option nat * (Z + exn)) (w : World) :
  match cls_after n r w with
  | (Ret ctl, w') =>
      summary w w' (match r with (Some s, inr _) => [EvClose s] | _ => [] end) /\
      session w' = session w /\
      match ctl with Return c => is_stop_cmd c = true | Next => True end
  | (Raise _, _) => False
  | (Diverge, _) => True
  end.
Proof.
  unfold cls_after. unfold bind at 1.
  assert (Hfin : exists w1,
             (match r with
              | (sock, inr e) =>
                  match sock with
                  | Some s => http_post_finish s
                  | None => ret tt
                  end ;; print (MsgUploadError e)
              | (_, inl _) => ret tt
              end) w = (Ret tt, w1) /\
             summary w w1 (match r with (Some s, inr _) => [EvClose s] | _ => [] end) /\
             session w1 = session w).
  { destruct r as [sock [sent|x]].
    - exists w. split; [reflexivity|].
      split; [destruct sock; apply summary_same; reflexivity|reflexivity].
    - destruct (handler_summary sock w) as (w1 & E & S1 & K1).
      exists (emit (EvPrint (MsgUploadError x)) w1).
      split; [unfold bind; rewrite E; reflexivity|]. split; [|exact K1].
      eapply summary_chain; [exact S1|apply summary_emit|].
      symmetry. apply app_nil_r. }
  destruct Hfin as (w1 & -> & S1 & K1).
  pose proof (cycle_tail_summary n (fun ctl => ctl) w1) as T.
  destruct (cycle_tail n (fun ctl => ctl) w1) as [[ctl|e|] w']; auto.
  destruct T as (S & K & T). split; [|split].
  - eapply summary_chain; [exact S1|exact S|symmetry; apply app_nil_r].
  - rewrite K. exact K1.
  - destruct T as [->|(c & -> & Hc)]; auto.
Qed.

Lemma saved_indices_sends (s : nat) (ps : list (list byte)) (tail : list event) :
  saved_indices (map (EvSendBody s) ps ++ tail) = saved_indices tail.
Proof. induction ps as [|p ps IH]; [reflexivity|exact IH]. Qed.

Lemma sent_names_sends (s : nat) (ps : list (list byte)) (tail : list event) :
  sent_names (map (EvSendBody s) ps ++ tail) = sent_names tail.
Proof. induction ps as [|p ps IH]; [reflexivity|exact IH]. Qed.

Lemma saved_indices_cycle (s : nat) (lines : list string) (ps : list (list byte))
    (tail : list event) :
  saved_indices (EvConnect s true :: EvSendHead s lines :: map (EvSendBody s) ps ++ tail)
  = saved_indices tail.
Proof. exact (saved_indices_sends s ps tail). Qed.

Lemma sent_names_cycle (s : nat) (lines : list string) (ps : list (list byte))
    (tail : list event) :
  sent_names (EvConnect s true :: EvSendHead s lines :: map (EvSendBody s) ps ++ tail)
  = sent_names tail.
Proof. exact (sent_names_sends s ps tail). Qed.

(** One pass through the body of the detect loop, by what it achieved. *)
Lemma detect_body_summary (n : nat) (pid k : Z) (w : World) :
  match detect_body n pid k w with
  | (Ret (k', ctl), w') =>
      exists t,
        summary w w' t /\
        cycle_summary (next_sock w)
          (request_lines HOST PORT PATH PACKED_LEN (detect_headers pid k))
          (MsgSaved (k + 1) SAMPLES_PER_PERSON) t /\
        k' = k + Z.of_nat (length (saved_indices t)) /\
        match ctl with Return c => is_stop_cmd c = true | Next => True end
  | (Raise _, _) => False
  | (Diverge, _) => True
  end.
Proof.
  rewrite detect_body_unfold. unfold bind at 1.
  pose proof (wait_for_finger_summary n w) as H0.
  destruct (wait_for_finger n (Some read_cmd_nb) w) as [[st|e|] w0]; auto.
  destruct H0 as (S0 & K0 & [->|(c & -> & Hc)]); cbn [fst snd].
  - change (String.eqb "ok" "abort") with false. cbv iota.
    unfold bind at 1.
    pose proof (flush_uart_summary n w0) as H1.
    destruct (flush_uart n w0) as [[[]|e|] w1]; auto.
    destruct H1 as [S1 K1].
    pose proof (summary_chain _ _ _ _ _ _ S0 S1 eq_refl) as S01.
    assert (Hn : next_sock w1 = next_sock w) by (unfold session in *; congruence).
    unfold bind at 1.
    destruct (try_upload_summary n (detect_headers pid k)
                (fun sent => print (MsgSaved (k + 1) SAMPLES_PER_PERSON sent))
                (MsgSaved (k + 1) SAMPLES_PER_PERSON) w1
                (fun _ => eq_refl) (fun _ _ => conj eq_refl eq_refl)) as (w2 & K2 & T).
    rewrite Hn in T.
    destruct (try_upload n (detect_headers pid k) _ w1) as [[[sock [sent|x]]|e|] w3]; auto.
    + destruct T as (-> & _ & ps & -> & S3).
      pose proof (detect_after_summary n k (Some (next_sock w), inl (total_length ps)) w3)
        as T4.
      destruct (detect_after n k _ w3) as [[[k' ctl]|e|] w4]; auto.
      destruct T4 as (S4 & _ & -> & Hctl). cbn [snd].
      exists (EvConnect (next_sock w) true
              :: EvSendHead (next_sock w)
                   (request_lines HOST PORT PATH PACKED_LEN (detect_headers pid k))
              :: map (EvSendBody (next_sock w)) ps
              ++ [EvClose (next_sock w);
                  EvPrint (MsgSaved (k + 1) SAMPLES_PER_PERSON (total_length ps))]).
      split.
      { eapply summary_chain; [exact S01| |reflexivity].
        eapply summary_chain; [exact S3|exact S4|symmetry; apply app_nil_r]. }
      split; [right; right; right; exists ps; reflexivity|].
      split; [rewrite saved_indices_cycle; reflexivity|exact Hctl].
    + destruct T as (-> & T).
      pose proof (detect_after_summary n k (sock, inr x) w2) as T4.
      destruct (detect_after n k _ w2) as [[[k' ctl]|e|] w4]; auto.
      destruct T4 as (S4 & _ & -> & Hctl). cbn [snd].
      destruct T as [(-> & ok & S3)|(-> & ps & S3)].
      * eexists. split.
        { eapply summary_chain; [exact S01| |reflexivity].
          eapply summary_chain; [exact S3|exact S4|reflexivity]. }
        split; [right; left; exists ok; reflexivity|].
        split; [cbn; lia|exact Hctl].
      * exists (EvConnect (next_sock w) true
                :: EvSendHead (next_sock w)
                     (request_lines HOST PORT PATH PACKED_LEN (detect_headers pid k))
                :: map (EvSendBody (next_sock w)) ps ++ [EvClose (next_sock w)]).
        split.
        { eapply summary_chain; [exact S01| |reflexivity].
          eapply summary_chain; [exact S3|exact S4|reflexivity]. }
        split; [right; right; left; exists ps; reflexivity|].
        split; [rewrite saved_indices_cycle; cbn; lia|exact Hctl].
  - change (String.eqb "abort" "abort") with true. cbv iota.
    unfold bind, print, modify, ret. exists [].
    split; [eapply summary_chain; [exact S0|apply summary_emit|reflexivity]|].
    split; [left; reflexivity|]. split; [cbn; lia|exact Hc].
Qed.

(** One pass through the body of the classification loop, by what it
    achieved. *)
Lemma cls_body_summary (n : nat) (w : World) :
  match cls_body n w with
  | (Ret ctl, w') =>
      exists t,
        summary w w' t /\
        cycle_summary (next_sock w)
          (request_lines HOST PORT PATH PACKED_LEN (cls_headers (cls_counter w)))
          (MsgSent ("test_img_" ++ str (cls_counter w))) t /\
        cls_counter w' = cls_counter w + Z.of_nat (length (sent_names t)) /\
        match ctl with Return c => is_stop_cmd c = true | Next => True end
  | (Raise _, _) => False
  | (Diverge, _) => True
  end.
Proof.
  rewrite cls_body_unfold. unfold bind at 1.
  pose proof (wait_for_finger_summary n w) as H0.
  destruct (wait_for_finger n (Some read_cmd_nb) w) as [[st|e|] w0]; auto.
  destruct H0 as (S0 & K0 & [->|(c & -> & Hc)]); cbn [fst snd].
  - change (String.eqb "ok" "abort") with false. cbv iota.
    unfold bind at 1.
    pose proof (flush_uart_summary n w0) as H1.
    destruct (flush_uart n w0) as [[[]|e|] w1]; auto.
    destruct H1 as [S1 K1].
    pose proof (summary_chain _ _ _ _ _ _ S0 S1 eq_refl) as S01.
    assert (Hn : next_sock w1 = next_sock w) by (unfold session in *; congruence).
    assert (Hc : cls_counter w1 = cls_counter w) by (unfold session in *; congruence).
    unfold bind at 1. unfold get at 1. rewrite Hc.
    unfold bind at 1.
    destruct (try_upload_summary n (cls_headers (cls_counter w))
                (fun sent =>
                   print (MsgSent ("test_img_" ++ str (cls_counter w)) sent) ;;
                   modify (fun w => set_cls_counter (cls_counter w + 1) w))
                (MsgSent ("test_img_" ++ str (cls_counter w))) w1
                (fun _ => eq_refl) (fun _ _ => conj eq_refl eq_refl)) as (w2 & K2 & T).
    rewrite Hn in T.
    assert (C2 : cls_counter w2 = cls_counter w) by (unfold session in *; congruence).
    destruct (try_upload n (cls_headers (cls_counter w)) _ w1)
      as [[[sock [sent|x]]|e|] w3]; auto.
    + destruct T as (-> & -> & ps & Hsent & S3).
      pose proof (cls_after_summary n (Some (next_sock w), inl sent)
                    (snd ((fun sent =>
                             print (MsgSent ("test_img_" ++ str (cls_counter w)) sent) ;;
                             modify (fun w => set_cls_counter (cls_counter w + 1) w))
                            sent w2))) as T4.
      destruct (cls_after n _ _) as [[ctl|e|] w4]; auto.
      destruct T4 as (S4 & K4 & Hctl).
      exists (EvConnect (next_sock w) true
              :: EvSendHead (next_sock w)
                   (request_lines HOST PORT PATH PACKED_LEN (cls_headers (cls_counter w)))
              :: map (EvSendBody (next_sock w)) ps
              ++ [EvClose (next_sock w);
                  EvPrint (MsgSent ("test_img_" ++ str (cls_counter w)) sent)]).
      split.
      { eapply summary_chain; [exact S01| |reflexivity].
        eapply summary_chain; [exact S3|exact S4|symmetry; apply app_nil_r]. }
      split; [right; right; right; exists ps; rewrite Hsent; reflexivity|].
      split; [|exact Hctl].
      unfold session in K4. inversion K4 as [[Hs Hcc]]. rewrite Hcc.
      rewrite sent_names_cycle. cbn. rewrite C2. reflexivity.
    + destruct T as (-> & T).
      pose proof (cls_after_summary n (sock, inr x) w2) as T4.
      destruct (cls_after n _ w2) as [[ctl|e|] w4]; auto.
      destruct T4 as (S4 & K4 & Hctl).
      assert (C4 : cls_counter w4 = cls_counter w) by (unfold session in *; congruence).
      destruct T as [(-> & ok & S3)|(-> & ps & S3)].
      * eexists. split.
        { eapply summary_chain; [exact S01| |reflexivity].
          eapply summary_chain; [exact S3|exact S4|reflexivity]. }
        split; [right; left; exists ok; reflexivity|].
        split; [cbn; lia|exact Hctl].
      * exists (EvConnect (next_sock w) true
                :: EvSendHead (next_sock w)
                     (request_lines HOST PORT PATH PACKED_LEN
                        (cls_headers (cls_counter w)))
                :: map (EvSendBody (next_sock w)) ps ++ [EvClose (next_sock w)]).
        split.
        { eapply summary_chain; [exact S01| |reflexivity].
          eapply summary_chain; [exact S3|exact S4|reflexivity]. }
        split; [right; right; left; exists ps; reflexivity|].
        split; [rewrite sent_names_cycle; cbn; lia|exact Hctl].
  - change (String.eqb "abort" "abort") with true. cbv iota.
    unfold bind, print, modify, ret. exists [].
    split; [eapply summary_chain; [exact S0|apply summary_emit|reflexivity]|].
    split; [left; reflexivity|]. split; [|exact Hc].
    cbn. unfold session in K0. inversion K0. lia.
Qed.

(** X17.  What a capture cycle of either mode does with its connection.
    When the body of the loop comes to its end, the connect attempts,
    request heads, body sends, closes and image reports it logged are one of
    four: nothing at all (a stop command came first); one connect attempt
    and nothing else (the connect or the send of the head failed: a socket
    connected at that point is never closed); connect, head, some pieces of
    the body and one close, without report (the transfer failed, the handler
    closed the socket); connect, head, the pieces of the body, one close and
    the report, whose byte count is the total length of the pieces sent,
    whatever the length announced in the head.  The socket is the one
    numbered [next_sock] at the start of the cycle, and the counter of the
    mode advances exactly in the last case. *)
Theorem capture_cycle_summary (n : nat) (pid k : Z) (w : World) :
  (forall k' ctl w',
      detect_body n pid k w = (Ret (k', ctl), w') ->
      exists t,
        summary w w' t /\
        cycle_summary (next_sock w)
          (request_lines HOST PORT PATH PACKED_LEN (detect_headers pid k))
          (MsgSaved (k + 1) SAMPLES_PER_PERSON) t /\
        k' = k + Z.of_nat (length (saved_indices t))) /\
  (forall ctl w',
      cls_body n w = (Ret ctl, w') ->
      exists t,
        summary w w' t /\
        cycle_summary (next_sock w)
          (request_lines HOST PORT PATH PACKED_LEN (cls_headers (cls_counter w)))
          (MsgSent ("test_img_" ++ str (cls_counter w))) t /\
        cls_counter w' = cls_counter w + Z.of_nat (length (sent_names t))).
Proof.
  split.
  - intros k' ctl w' E. pose proof (detect_body_summary n pid k w) as H.
    rewrite E in H. destruct H as (t & S & C & Hk & _). exists t. auto.
  - intros ctl w' E. pose proof (cls_body_summary n w) as H.
    rewrite E in H. destruct H as (t & S & C & Hk & _). exists t. auto.
Qed.

Lemma capture_cycle_summary_witness :
  (exists t,
      summary world_one_capture (snd (detect_body 20 7 0 world_one_capture)) t /\
      cycle_summary (next_sock world_one_capture)
        (request_lines HOST PORT PATH PACKED_LEN (detect_headers 7 0))
        (MsgSaved (0 + 1) SAMPLES_PER_PERSON) t /\
      1 = 0 + Z.of_nat (length (saved_indices t))) /\
  (exists t,
      summary (set_net [true; false] world_one_capture)
        (snd (cls_body 20 (set_net [true; false] world_one_capture))) t /\
      cycle_summary (next_sock (set_net [true; false] world_one_capture))
        (request_lines HOST PORT PATH PACKED_LEN
           (cls_headers (cls_counter (set_net [true; false] world_one_capture))))
        (MsgSent ("test_img_"
                  ++ str (cls_counter (set_net [true; false] world_one_capture)))) t /\
      cls_counter (snd (cls_body 20 (set_net [true; false] world_one_capture)))
      = cls_counter (set_net [true; false] world_one_capture)
        + Z.of_nat (length (sent_names t))).
Proof.
  split.
  - apply (proj1 (capture_cycle_summary 20 7 0 world_one_capture)
             1 Next (snd (detect_body 20 7 0 world_one_capture))).
    vm_compute. reflexivity.
  - apply (proj2 (capture_cycle_summary 20 7 0 (set_net [true; false] world_one_capture))
             Next (snd (cls_body 20 (set_net [true; false] world_one_capture)))).
    vm_compute. reflexivity.
Defined.

(* ------------------------------------------------------------------ *)
(** ** Whole runs of the modes *)

Lemma saved_indices_filter (l : list event) :
  saved_indices (filter significant l) = saved_indices l.
Proof.
  induction l as [|e l IH]; [reflexivity|].
  destruct e as [[]| | | | | | |]; cbn [filter significant saved_indices flat_map app] in *;
    fold (saved_indices l); fold (saved_indices (filter significant l));
    rewrite ?IH; reflexivity.
Qed.

Lemma sent_names_filter (l : list event) :
  sent_names (filter significant l) = sent_names l.
Proof.
  induction l as [|e l IH]; [reflexivity|].
  destruct e as [[]| | | | | | |]; cbn [filter significant sent_names flat_map app] in *;
    fold (sent_names l); fold (sent_names (filter significant l));
    rewrite ?IH; reflexivity.
Qed.

Lemma cycle_summary_saved (s : nat) (lines : list string) (i total : Z) (t : list event) :
  cycle_summary s lines (MsgSaved i total) t ->
  saved_indices t = [] \/ saved_indices t = [i].
Proof.
  intros [->|[(ok & ->)|[(ps & ->)|(ps & ->)]]];
    rewrite ?saved_indices_cycle; cbn; auto.
Qed.

Lemma cycle_summary_sent (s : nat) (lines : list string) (name : string) (t : list event) :
  cycle_summary s lines (MsgSent name) t ->
  sent_names t = [] \/ sent_names t = [name].
Proof.
  intros [->|[(ok & ->)|[(ps & ->)|(ps & ->)]]];
    rewrite ?sent_names_cycle; cbn; auto.
Qed.

Lemma map_seq_shift {A : Type} (f : Z -> A) (k : Z) (s : nat) :
  f k :: map (fun i => f (k + 1 + Z.of_nat i)) (seq 0 s)
  = map (fun i => f (k + Z.of_nat i)) (seq 0 (S s)).
Proof.
  cbn [seq map]. rewrite Z.add_0_r. f_equal.
  rewrite <- seq_shift, map_map. apply map_ext. intros i. f_equal. lia.
Qed.

Lemma detect_loop_indices (n : nat) (pid : Z) :
  forall (cycles : nat) (k : Z) (w : World) r w',
    k <= SAMPLES_PER_PERSON ->
    detect_loop n cycles pid k w = (Ret r, w') ->
    exists new s,
      log w' = log w ++ new /\
      saved_indices new = map (fun i => k + 1 + Z.of_nat i) (seq 0 s) /\
      k + Z.of_nat s <= SAMPLES_PER_PERSON /\
      match r with
      | None => k + Z.of_nat s = SAMPLES_PER_PERSON
      | Some c => is_stop_cmd c = true
      end.
Proof.
  induction cycles as [|cycles IH]; intros k w r w' Hk E; cbn [detect_loop] in E;
    destruct (k <? SAMPLES_PER_PERSON) eqn:C.
  - discriminate E.
  - inversion E; subst. apply Z.ltb_ge in C.
    exists [], 0%nat. rewrite app_nil_r. cbn. repeat split; lia.
  - apply Z.ltb_lt in C. unfold bind at 1 in E.
    pose proof (detect_body_summary n pid k w) as B.
    destruct (detect_body n pid k w) as [[[k1 ctl]|e|] w1]; try discriminate E.
    destruct B as (t & (new1 & L1 & F1) & Cy & Hk1 & Hctl).
    assert (Hsv : saved_indices new1 = saved_indices t)
      by (rewrite <- F1; symmetry; apply saved_indices_filter).
    apply cycle_summary_saved in Cy.
    destruct ctl as [cmd|].
    + inversion E; subst r w'. exists new1.
      destruct Cy as [Cy|Cy]; rewrite Cy in *.
      * exists 0%nat. cbn in *. repeat split; auto; lia.
      * exists 1%nat. cbn in *. rewrite Z.add_0_r. repeat split; auto; lia.
    + assert (Hk1' : k1 <= SAMPLES_PER_PERSON)
        by (destruct Cy as [Cy|Cy]; rewrite Cy in Hk1; cbn in Hk1; lia).
      destruct (IH k1 w1 r w' Hk1' E) as (new2 & s2 & L2 & Sv2 & Hle & Hr).
      exists (new1 ++ new2). unfold saved_indices. rewrite flat_map_app.
      fold (saved_indices new1). fold (saved_indices new2).
      rewrite L2, L1, <- app_assoc, Hsv, Sv2.
      destruct Cy as [Cy|Cy]; rewrite Cy in *; cbn in Hk1; cbn [app].
      * assert (Hk1'' : k1 = k) by lia. clear Hk1. subst k1. exists s2. auto.
      * clear Hk1'. subst k1. exists (S s2).
        split; [reflexivity|]. split.
        { cbn [seq map]. f_equal; [lia|].
          rewrite <- seq_shift, map_map. apply map_ext. intros i. lia. }
        split; [lia|]. destruct r; [exact Hr|lia].
  - inversion E; subst. apply Z.ltb_ge in C.
    exists [], 0%nat. rewrite app_nil_r. cbn. repeat split; lia.
Qed.

(** X18.  The saved reports of a run of detect mode are numbered 1, 2,
    ..., s in this order, without gap or repetition whatever transfers
    failed in between, with s at most [SAMPLES_PER_PERSON]; the mode
    returns [None] only after report number [SAMPLES_PER_PERSON], and what
    it returns otherwise is a stop command. *)
Theorem detect_reports_are_numbered_in_order (n : nat) (pid : Z) (w : World)
    (r : option string) (w' : World) :
  detect_mode n pid w = (Ret r, w') ->
  exists new s,
    log w' = log w ++ new /\
    saved_indices new = map (fun i => 1 + Z.of_nat i) (seq 0 s) /\
    Z.of_nat s <= SAMPLES_PER_PERSON /\
    match r with
    | None => Z.of_nat s = SAMPLES_PER_PERSON
    | Some _ => is_stop_cmd r = true
    end.
Proof.
  intros E. unfold detect_mode in E. unfold bind at 1 in E.
  unfold print at 1, modify at 1 in E. unfold bind at 1 in E.
  destruct (detect_loop n n pid 0 (emit (EvPrint (MsgDetectStart pid SAMPLES_PER_PERSON)) w))
    as [[r1|e|] w1] eqn:E1; try discriminate E.
  apply detect_loop_indices in E1; [|unfold SAMPLES_PER_PERSON; lia].
  destruct E1 as (new & s & L & Sv & Hle & Hr). wsimpl.
  destruct r1 as [cmd|].
  - inversion E; subst r w'.
    exists (EvPrint (MsgDetectStart pid SAMPLES_PER_PERSON) :: new), s.
    rewrite L, <- app_assoc. split; [reflexivity|]. split; [exact Sv|].
    split; [lia|]. destruct cmd; [exact Hr|discriminate Hr].
  - unfold bind, print, modify, ret in E. inversion E; subst r w'. wsimpl.
    exists (EvPrint (MsgDetectStart pid SAMPLES_PER_PERSON) :: new
            ++ [EvPrint (MsgDetectComplete SAMPLES_PER_PERSON pid)]), s.
    rewrite L, <- !app_assoc. split; [reflexivity|]. split; [|split; lia].
    change (saved_indices (EvPrint (MsgDetectStart pid SAMPLES_PER_PERSON) :: new
                           ++ [EvPrint (MsgDetectComplete SAMPLES_PER_PERSON pid)]))
      with (saved_indices (new ++ [EvPrint (MsgDetectComplete SAMPLES_PER_PERSON pid)])).
    unfold saved_indices. rewrite flat_map_app. fold (saved_indices new).
    rewrite Sv. cbn. apply app_nil_r.
Qed.

Lemma detect_reports_are_numbered_in_order_witness :
  exists new s,
    log (snd (detect_mode 30 7 world_three_captures_then_stop))
    = log world_three_captures_then_stop ++ new /\
    saved_indices new = map (fun i => 1 + Z.of_nat i) (seq 0 s) /\
    Z.of_nat s <= SAMPLES_PER_PERSON /\
    is_stop_cmd (Some "stop") = true.
Proof.
  apply (detect_reports_are_numbered_in_order 30 7 world_three_captures_then_stop
           (Some "stop") (snd (detect_mode 30 7 world_three_captures_then_stop))).
  vm_compute. reflexivity.
Defined.

Lemma cls_loop_names (n : nat) :
  forall (cycles : nat) (w : World) r w',
    cls_loop n cycles w = (Ret r, w') ->
    exists new s,
      log w' = log w ++ new /\
      sent_names new
      = map (fun i => ("test_img_" ++ str (cls_counter w + Z.of_nat i))%string) (seq 0 s) /\
      cls_counter w' = cls_counter w + Z.of_nat s /\
      is_stop_cmd r = true.
Proof.
  induction cycles as [|cycles IH]; intros w r w' E; cbn [cls_loop] in E;
    [discriminate E|].
  unfold bind at 1 in E.
  pose proof (cls_body_summary n w) as B.
  destruct (cls_body n w) as [[ctl|e|] w1]; try discriminate E.
  destruct B as (t & (new1 & L1 & F1) & Cy & Hc1 & Hctl).
  assert (Hsn : sent_names new1 = sent_names t)
    by (rewrite <- F1; symmetry; apply sent_names_filter).
  apply cycle_summary_sent in Cy.
  destruct ctl as [cmd|].
  - inversion E; subst r w'. exists new1.
    destruct Cy as [Cy|Cy]; rewrite Cy in *.
    + exists 0%nat. cbn in *. repeat split; auto; lia.
    + exists 1%nat. cbn in *. rewrite Z.add_0_r. repeat split; auto; lia.
  - destruct (IH w1 r w' E) as (new2 & s2 & L2 & Sn2 & Hc2 & Hr).
    exists (new1 ++ new2). unfold sent_names. rewrite flat_map_app.
    fold (sent_names new1). fold (sent_names new2).
    rewrite L2, L1, <- app_assoc, Hsn, Sn2, Hc2.
    destruct Cy as [Cy|Cy]; rewrite Cy in *; cbn in Hc1; cbn [app].
    + assert (Hc : cls_counter w1 = cls_counter w) by lia. rewrite Hc.
      exists s2. auto.
    + assert (Hc : cls_counter w1 = cls_counter w + 1) by lia. rewrite Hc.
      exists (S s2). split; [reflexivity|]. split.
      * apply (map_seq_shift (fun z => ("test_img_" ++ str z)%string) (cls_counter w) s2).
      * split; [lia|exact Hr].
Qed.

(** X19.  The images a run of classification mode reports as sent are
    named test_img_c, test_img_(c+1), ..., one after the other from the
    value c the running counter had at the start, failed transfers leaving
    no gap; the counter ends at c plus their number, so the next run goes
    on from there; and the mode returns nothing but a stop command. *)
Theorem cls_names_follow_the_counter (n : nat) (w : World)
    (r : option string) (w' : World) :
  cls_mode n w = (Ret r, w') ->
  exists new s,
    log w' = log w ++ new /\
    sent_names new
    = map (fun i => ("test_img_" ++ str (cls_counter w + Z.of_nat i))%string) (seq 0 s) /\
    cls_counter w' = cls_counter w + Z.of_nat s /\
    is_stop_cmd r = true.
Proof.
  intros E. unfold cls_mode in E. unfold bind at 1 in E.
  unfold print at 1, modify at 1 in E.
  apply cls_loop_names in E. destruct E as (new & s & L & Sn & Hc & Hr). wsimpl.
  exists (EvPrint MsgClsStart :: new), s.
  rewrite L, <- app_assoc. auto.
Qed.

Lemma cls_names_follow_the_counter_witness :
  exists new s,
    log (snd (cls_mode 30 world_capture_then_stop))
    = log world_capture_then_stop ++ new /\
    sent_names new
    = map (fun i => ("test_img_"
                     ++ str (cls_counter world_capture_then_stop + Z.of_nat i))%string)
          (seq 0 s) /\
    cls_counter (snd (cls_mode 30 world_capture_then_stop))
    = cls_counter world_capture_then_stop + Z.of_nat s /\
    is_stop_cmd (Some "stop") = true.
Proof.
  apply (cls_names_follow_the_counter 30 world_capture_then_stop
           (Some "stop") (snd (cls_mode 30 world_capture_then_stop))).
  vm_compute. reflexivity.
Defined.



(* ------------------------------------------------------------------ *)
(** ** The debounce, when the finger is away *)




